(** * The air-quality ELT pipeline: transform, upsert and data-quality gate

    A shallow embedding of [dags/elt_air_quality] (tools/schemas.py,
    tools/utils.py and the tasks of air_quality.py), with the pandas and
    DuckDB operations the pipeline calls written out as functions on
    column-oriented frames and on a keyed table. *)

From Stdlib Require Import List String Ascii Arith PeanoNat Bool ZArith Lia QArith.
From Stdlib Require Import Permutation Sorted.
Import ListNotations.
Local Open Scope string_scope.
Local Open Scope list_scope.
Local Close Scope Q_scope.
Local Open Scope nat_scope.

(** ** Values held by a frame cell or a table field *)

(** [datetime.date]. *)
Record date := mkdate { year : Z; month : Z; day : Z }.

(** A timezone-aware UTC instant, in the civil fields that Python's
    [datetime] and pandas' [Timestamp] expose.  Two normalised instants are
    the same instant exactly when their fields agree. *)
Record datetime := mkdatetime {
  dt_date : date;
  hour : Z;
  minute : Z;
  second : Z;
  microsecond : Z
}.

(** A cell: [None]/[NaN]/[NaT] (SQL NULL once loaded), a float, a string,
    a timestamp or a date. *)
Inductive value :=
| VNone
| VFloat (x : Q)
| VStr (s : string)
| VTimestamp (t : datetime)
| VDate (d : date).

Definition date_eqb (a b : date) : bool :=
  ((year a =? year b) && (month a =? month b) && (day a =? day b))%Z.

Definition datetime_eqb (a b : datetime) : bool :=
  date_eqb (dt_date a) (dt_date b)
  && ((hour a =? hour b) && (minute a =? minute b)
      && (second a =? second b) && (microsecond a =? microsecond b))%Z.

(** Equality as pandas' [duplicated] sees it: missing values are equal to
    each other, floats compare numerically. *)
Definition value_eqb (a b : value) : bool :=
  match a, b with
  | VNone, VNone => true
  | VFloat x, VFloat y => Qeq_bool x y
  | VStr s, VStr t => String.eqb s t
  | VTimestamp s, VTimestamp t => datetime_eqb s t
  | VDate s, VDate t => date_eqb s t
  | _, _ => false
  end.

(** ** Exceptions and the error monad *)

Inductive message :=
| Arrays_must_be_of_the_same_length
| Unknown_datetime_string (s : string)
| Completeness_failure_for_dates (failures : list (option date * nat * nat))
| Nulls_detected_in_critical_columns (count : nat)
| Range_check_failures (failures : list (string * nat)).

Inductive exn :=
| KeyError (keys : list string)
| ValueError (msg : message)
| TypeError
| AttributeError
| CatalogException
| BinderException
| ConstraintException
| ConversionException.

Inductive result (A : Type) :=
| Ok (a : A)
| Raise (e : exn).
Arguments Ok {A} a.
Arguments Raise {A} e.

Definition bind {A B} (r : result A) (k : A -> result B) : result B :=
  match r with
  | Ok a => k a
  | Raise e => Raise e
  end.

Declare Scope result_scope.
Delimit Scope result_scope with result.
Notation "x <- r ;; k" := (bind r (fun x => k))
  (at level 61, r at next level, right associativity) : result_scope.
Local Open Scope result_scope.

Fixpoint mapM {A B} (f : A -> result B) (l : list A) : result (list B) :=
  match l with
  | [] => Ok []
  | a :: l' => b <- f a ;; bs <- mapM f l' ;; Ok (b :: bs)
  end.

(** ** Calendar, [strftime] and [to_datetime] *)

Definition is_leap (y : Z) : bool :=
  (((y mod 4 =? 0) && negb (y mod 100 =? 0)) || (y mod 400 =? 0))%Z.

Definition days_in_month (y m : Z) : Z :=
  match m with
  | 1 | 3 | 5 | 7 | 8 | 10 | 12 => 31
  | 4 | 6 | 9 | 11 => 30
  | 2 => if is_leap y then 29 else 28
  | _ => 0
  end%Z.

(** The range of [datetime.date]: years 1 to 9999. *)
Definition valid_date (d : date) : bool :=
  ((1 <=? year d) && (year d <=? 9999) && (1 <=? month d) && (month d <=? 12)
   && (1 <=? day d) && (day d <=? days_in_month (year d) (month d)))%Z.

Definition valid_datetime (t : datetime) : bool :=
  valid_date (dt_date t)
  && ((0 <=? hour t) && (hour t <? 24) && (0 <=? minute t) && (minute t <? 60)
      && (0 <=? second t) && (second t <? 60)
      && (0 <=? microsecond t) && (microsecond t <? 1000000))%Z.

Definition digit (n : Z) : ascii := ascii_of_N (Z.to_N (48 + n mod 10)).

(** ["%02d"] and ["%04d"]. *)
Definition pad2 (n : Z) (rest : string) : string :=
  String (digit (n / 10)) (String (digit n) rest).

Definition pad4 (n : Z) (rest : string) : string :=
  String (digit (n / 1000)) (String (digit (n / 100)) (pad2 n rest)).

(** [str(d)] for a [datetime.date]: ["%Y-%m-%d"]. *)
Definition isoformat (d : date) (rest : string) : string :=
  pad4 (year d) (String "-" (pad2 (month d) (String "-" (pad2 (day d) rest)))).

(** [strftime("%Y-%m-%dT%H:%M:%SZ")]: the microseconds are not printed. *)
Definition strftime (t : datetime) : string :=
  isoformat (dt_date t)
    (String "T" (pad2 (hour t) (String ":" (pad2 (minute t) (String ":"
       (pad2 (second t) "Z")))))).

Definition digit_val (c : ascii) : option Z :=
  let n := Z.of_N (N_of_ascii c) in
  if ((48 <=? n) && (n <=? 57))%Z then Some (n - 48)%Z else None.

Definition read2 (s : string) : option (Z * string) :=
  match s with
  | String a (String b rest) =>
      match digit_val a, digit_val b with
      | Some x, Some y => Some (10 * x + y, rest)%Z
      | _, _ => None
      end
  | _ => None
  end.

Definition read4 (s : string) : option (Z * string) :=
  match read2 s with
  | Some (hi, rest) =>
      match read2 rest with
      | Some (lo, rest') => Some (100 * hi + lo, rest')%Z
      | None => None
      end
  | None => None
  end.

Definition expect (c : ascii) (s : string) : option string :=
  match s with
  | String a rest => if Ascii.eqb a c then Some rest else None
  | EmptyString => None
  end.

Definition read_date (s : string) : option (date * string) :=
  match read4 s with
  | Some (y, s1) =>
    match expect "-" s1 with
    | Some s2 =>
      match read2 s2 with
      | Some (m, s3) =>
        match expect "-" s3 with
        | Some s4 =>
          match read2 s4 with
          | Some (d, s5) =>
              let dd := mkdate y m d in
              if valid_date dd then Some (dd, s5) else None
          | None => None
          end
        | None => None
        end
      | None => None
      end
    | None => None
    end
  | None => None
  end.

(** The time of day after the date: nothing (midnight), [Thh:mm] or
    [Thh:mm:ss] (a space is accepted for the [T]), then an optional [Z]. *)
Definition read_zone (s : string) : bool :=
  match s with
  | EmptyString => true
  | String "Z" EmptyString => true
  | _ => false
  end.

Definition read_clock (d : date) (s : string) : option datetime :=
  match s with
  | EmptyString => Some (mkdatetime d 0 0 0 0)
  | String sep s1 =>
    if Ascii.eqb sep "T" || Ascii.eqb sep " " then
      match read2 s1 with
      | Some (h, s2) =>
        match expect ":" s2 with
        | Some s3 =>
          match read2 s3 with
          | Some (mi, s4) =>
            match expect ":" s4 with
            | Some s5 =>
              match read2 s5 with
              | Some (se, s6) =>
                  let t := mkdatetime d h mi se 0 in
                  if valid_datetime t && read_zone s6 then Some t else None
              | None => None
              end
            | None =>
                let t := mkdatetime d h mi 0 0 in
                if valid_datetime t && read_zone s4 then Some t else None
            end
          | None => None
          end
        | None => None
        end
      | None => None
      end
    else None
  end.

(** The ISO 8601 spellings this pipeline hands to [pd.to_datetime]: the
    API's ["2025-11-04T00:00"], the enrich task's ["2025-11-04T00:00:00Z"]
    and a bare date.  A string without a zone is read as UTC ([utc=True]).
    Any other spelling counts as unparsable here. *)
Definition parse_iso8601 (s : string) : option datetime :=
  match read_date s with
  | Some (d, rest) => read_clock d rest
  | None => None
  end.

(** [pd.to_datetime(x, utc=True)] on one cell; [errors="raise"] is the
    default.  Missing values and the string ["NaT"] give [NaT]; a date
    becomes its midnight.  Numeric epoch offsets are not part of the model
    and are refused.  A column is parsed cell by cell. *)
Definition to_datetime1 (v : value) : result value :=
  match v with
  | VNone => Ok VNone
  | VStr s =>
      if String.eqb s "NaT" then Ok VNone
      else match parse_iso8601 s with
           | Some t => Ok (VTimestamp t)
           | None => Raise (ValueError (Unknown_datetime_string s))
           end
  | VTimestamp t => Ok (VTimestamp t)
  | VDate d => Ok (VTimestamp (mkdatetime d 0 0 0 0))
  | VFloat _ => Raise TypeError
  end.

Definition to_datetime (col : list value) : result (list value) :=
  mapM to_datetime1 col.

(** The [.dt] accessor exists on datetime-like columns only: every cell is
    a timestamp or missing. *)
Definition dt_accessor (f : datetime -> value) (col : list value) : result (list value) :=
  mapM (fun v => match v with
                 | VTimestamp t => Ok (f t)
                 | VNone => Ok VNone
                 | _ => Raise AttributeError
                 end) col.

(** [Series.dt.date]: the calendar date of each timestamp, [NaT] staying
    missing. *)
Definition series_dt_date (col : list value) : result (list value) :=
  dt_accessor (fun t => VDate (dt_date t)) col.

(** [Series.dt.strftime("%Y-%m-%dT%H:%M:%SZ")]. *)
Definition series_dt_strftime (col : list value) : result (list value) :=
  dt_accessor (fun t => VStr (strftime t)) col.

(** [Series.astype(str)] on a column of dates: [str] of each cell, which
    is ["NaT"] for a missing date.  Strings are unchanged; other cells are
    not modelled. *)
Definition series_astype_str (col : list value) : result (list value) :=
  mapM (fun v => match v with
                 | VDate d => Ok (VStr (isoformat d ""))
                 | VNone => Ok (VStr "NaT")
                 | VStr s => Ok (VStr s)
                 | _ => Raise TypeError
                 end) col.

(** ** Frames: the pandas operations the pipeline uses *)

(** A Python [dict] with string keys, in insertion order. *)
Definition dict (V : Type) := list (string * V).

Fixpoint dict_get {V} (k : string) (d : dict V) : option V :=
  match d with
  | [] => None
  | (k', v) :: d' => if String.eqb k' k then Some v else dict_get k d'
  end.

(** [d[k] = v]: an existing key keeps its place, a new one goes last. *)
Fixpoint dict_set {V} (k : string) (v : V) (d : dict V) : dict V :=
  match d with
  | [] => [(k, v)]
  | (k', v') :: d' =>
      if String.eqb k' k then (k, v) :: d' else (k', v') :: dict_set k v d'
  end.

Definition keys {V} (d : dict V) : list string := map fst d.

(** A [DataFrame]: named columns in order, each holding one cell per row. *)
Record DataFrame := mkDataFrame {
  df_len : nat;
  df_columns : dict (list value)
}.

(** [pd.DataFrame(d)] for a dict of sequences. *)
Definition DataFrame_from_dict (d : dict (list value)) : result DataFrame :=
  match d with
  | [] => Ok (mkDataFrame 0 [])
  | (_, c) :: rest =>
      if forallb (fun kv => List.length (snd kv) =? List.length c) rest
      then Ok (mkDataFrame (List.length c) d)
      else Raise (ValueError Arrays_must_be_of_the_same_length)
  end.

(** [df[name]]. *)
Definition getitem (df : DataFrame) (name : string) : result (list value) :=
  match dict_get name (df_columns df) with
  | Some c => Ok c
  | None => Raise (KeyError [name])
  end.

(** [df[name] = series]. *)
Definition setitem (df : DataFrame) (name : string) (col : list value) : DataFrame :=
  mkDataFrame (df_len df) (dict_set name col (df_columns df)).

(** [df[name] = scalar]: the scalar is broadcast over the rows. *)
Definition setitem_scalar (df : DataFrame) (name : string) (v : value) : DataFrame :=
  setitem df name (repeat v (df_len df)).

(** [df[names]]: the named columns in the order asked for; the names that
    are not columns are reported in a [KeyError]. *)
Definition getitem_list (df : DataFrame) (names : list string) : result DataFrame :=
  match filter (fun n => match dict_get n (df_columns df) with
                         | Some _ => false
                         | None => true
                         end) names with
  | [] =>
      Ok (mkDataFrame (df_len df)
            (map (fun n => (n, match dict_get n (df_columns df) with
                               | Some c => c
                               | None => []
                               end)) names))
  | missing => Raise (KeyError missing)
  end.

Fixpoint key_eqb (a b : list value) : bool :=
  match a, b with
  | [], [] => true
  | x :: a', y :: b' => value_eqb x y && key_eqb a' b'
  | _, _ => false
  end.

(** [duplicated(keep="first")]: a row is a duplicate when its key was seen
    at an earlier row. *)
Fixpoint duplicated_from (seen : list (list value)) (row_keys : list (list value))
  : list bool :=
  match row_keys with
  | [] => []
  | k :: ks => existsb (key_eqb k) seen :: duplicated_from (k :: seen) ks
  end.

Definition duplicated (row_keys : list (list value)) : list bool :=
  duplicated_from [] row_keys.

(** Boolean-mask indexing. *)
Fixpoint select {A} (keep : list bool) (l : list A) : list A :=
  match keep, l with
  | b :: keep', x :: l' => if b then x :: select keep' l' else select keep' l'
  | _, _ => []
  end.

(** [df.drop_duplicates(subset=subset)], which pandas computes as
    [df[~df.duplicated(subset)]]. *)
Definition drop_duplicates (subset : list string) (df : DataFrame) : result DataFrame :=
  key_cols <- mapM (getitem df) subset ;;
  let row_keys :=
    map (fun i => map (fun c => nth i c VNone) key_cols) (seq 0 (df_len df)) in
  let keep := map negb (duplicated row_keys) in
  Ok (mkDataFrame (count_occ bool_dec keep true)
        (map (fun nc => (fst nc, select keep (snd nc))) (df_columns df))).

Definition len (df : DataFrame) : nat := df_len df.

(** ** tools/schemas.py *)

Definition COLUMN_ORDER : list string :=
  [ "time"; "pm10"; "pm2_5"; "uv_index"; "latitude"; "longitude"; "timezone";
    "city"; "date"; "execution_time" ].

(** ** tools/utils.py: the transform *)

Definition CITY : string := "Paris".

(** A JSON scalar of the API response. *)
Inductive json :=
| JNull
| JNumber (x : Q)
| JString (s : string).

Definition of_json (j : json) : value :=
  match j with
  | JNull => VNone
  | JNumber x => VFloat x
  | JString s => VStr s
  end.

(** The parsed API response: the [hourly] block, field name to sequence of
    values, and the top-level scalars.  The block is always there, so
    [payload["hourly"]] does not raise. *)
Record Payload := mkPayload {
  hourly : dict (list json);
  toplevel : dict json
}.

(** [payload["hourly"]] as Python objects. *)
Definition payload_hourly (payload : Payload) : dict (list value) :=
  map (fun kv => (fst kv, map of_json (snd kv))) (hourly payload).

(** [payload.get(k)]. *)
Definition payload_get (payload : Payload) (k : string) : value :=
  match dict_get k (toplevel payload) with
  | Some v => of_json v
  | None => VNone
  end.

(** [enrich_raw_data(payload, columns)]; [execution_ts] is the reading of
    [datetime.now(timezone.utc)] taken on entry. *)
Definition enrich_raw_data (execution_ts : datetime) (payload : Payload)
    (columns : list string) : result DataFrame :=
  dataframe <- DataFrame_from_dict (payload_hourly payload) ;;
  time <- getitem dataframe "time" ;;
  time <- to_datetime time ;;
  let dataframe := setitem dataframe "time" time in
  time <- getitem dataframe "time" ;;
  date <- series_dt_date time ;;
  let dataframe := setitem dataframe "date" date in
  let dataframe := setitem_scalar dataframe "latitude" (payload_get payload "latitude") in
  let dataframe := setitem_scalar dataframe "longitude" (payload_get payload "longitude") in
  let dataframe := setitem_scalar dataframe "timezone" (payload_get payload "timezone") in
  let dataframe := setitem_scalar dataframe "city" (VStr CITY) in
  let dataframe := setitem_scalar dataframe "execution_time" (VTimestamp execution_ts) in
  projected <- getitem_list dataframe columns ;;
  drop_duplicates ["time"] projected.

(** The fixture of tests/etl_air_quality/test_utils.py. *)
Definition test_payload : Payload :=
  mkPayload
    [ ("time", [JString "2025-11-04T00:00"; JString "2025-11-04T00:00";
                JString "2025-11-04T01:00"]);
      ("pm10", [JNumber 10; JNumber 10; JNumber 12]);
      ("pm2_5", [JNumber 5; JNumber 5; JNumber 6]);
      ("uv_index", [JNumber 0; JNumber 0; JNumber 0.1]) ]
    [ ("latitude", JNumber 48.8566); ("longitude", JNumber 2.3522);
      ("timezone", JString "Europe/Paris") ].

Definition test_now : datetime := mkdatetime (mkdate 2025 11 5) 6 30 15 250000.

(** ** The DuckDB table [raw.air_quality_raw] *)



(** A stored row.  Every column but the primary key is nullable.  [r_time]
    is an instant ([TIMESTAMPTZ]); [r_execution_time] is a reading of a
    clock without a zone ([TIMESTAMP]). *)
Record row := mkrow {
  r_time : datetime;
  r_pm10 : option Q;
  r_pm2_5 : option Q;
  r_uv_index : option Q;
  r_latitude : option Q;
  r_longitude : option Q;
  r_timezone : option string;
  r_city : option string;
  r_date : option date;
  r_execution_time : option datetime
}.

Definition table := list row.

(** The database file: the table is absent until it is created. *)
Definition database := option table.

(** [CREATE SCHEMA IF NOT EXISTS], [CREATE TABLE IF NOT EXISTS]. *)
Definition ensure_air_quality_table (db : database) : database :=
  match db with
  | None => Some []
  | Some t => Some t
  end.

(** A [TIMESTAMP] column has no zone.  When a zone-aware timestamp enters
    it, DuckDB stores the reading of that instant on the clock of the
    session's [TimeZone] setting.  The pipeline never sets it, so it is the
    zone of the process that runs the task.  [local_time t] is that
    reading of the instant [t]. *)
Class TimeZone := local_time : datetime -> datetime.

(** The session of a process whose zone is UTC. *)
Definition utc : TimeZone := fun t => t.

Section Session.

Context {session : TimeZone}.

(** Conversion of a frame cell to a column type on insert.  A missing
    value is NULL; a cell already of the column's kind is stored as it is;
    the model converts nothing else.  The timestamps of a frame are
    zone-aware (UTC): a [TIMESTAMPTZ] column keeps the instant, a
    [TIMESTAMP] column its reading in the session's zone. *)
Definition cast_double (v : value) : result (option Q) :=
  match v with
  | VNone => Ok None
  | VFloat x => Ok (Some x)
  | _ => Raise ConversionException
  end.

Definition cast_varchar (v : value) : result (option string) :=
  match v with
  | VNone => Ok None
  | VStr s => Ok (Some s)
  | _ => Raise ConversionException
  end.

Definition cast_date (v : value) : result (option date) :=
  match v with
  | VNone => Ok None
  | VDate d => Ok (Some d)
  | _ => Raise ConversionException
  end.

Definition cast_timestamptz (v : value) : result (option datetime) :=
  match v with
  | VNone => Ok None
  | VTimestamp t => Ok (Some t)
  | _ => Raise ConversionException
  end.

Definition cast_timestamp (v : value) : result (option datetime) :=
  match v with
  | VNone => Ok None
  | VTimestamp t => Ok (Some (local_time t))
  | _ => Raise ConversionException
  end.

(** [NOT NULL], implied by [PRIMARY KEY]. *)
Definition not_null {A} (o : option A) : result A :=
  match o with
  | Some a => Ok a
  | None => Raise ConstraintException
  end.

(** One row of [SELECT * FROM view] entering the table: the values are
    taken by position, the i-th selected column feeding the i-th table
    column, whatever the frame calls it. *)
Definition row_of_values (vals : list value) : result row :=
  match vals with
  | [v0; v1; v2; v3; v4; v5; v6; v7; v8; v9] =>
      time <- bind (cast_timestamptz v0) not_null ;;
      pm10 <- cast_double v1 ;;
      pm2_5 <- cast_double v2 ;;
      uv_index <- cast_double v3 ;;
      latitude <- cast_double v4 ;;
      longitude <- cast_double v5 ;;
      timezone <- cast_varchar v6 ;;
      city <- cast_varchar v7 ;;
      date <- cast_date v8 ;;
      execution_time <- cast_timestamp v9 ;;
      Ok (mkrow time pm10 pm2_5 uv_index latitude longitude timezone city date
            execution_time)
  | _ => Raise BinderException
  end.

(** The rows of a frame, each a list of cells in column order. *)
Definition frame_rows (df : DataFrame) : list (list value) :=
  map (fun i => map (fun nc => nth i (snd nc) VNone) (df_columns df))
      (seq 0 (df_len df)).

(** Insert one row, replacing the row that holds the same primary key. *)
Fixpoint upsert (r : row) (t : table) : table :=
  match t with
  | [] => [r]
  | r' :: t' =>
      if datetime_eqb (r_time r') (r_time r) then r :: t' else r' :: upsert r t'
  end.

(** [INSERT OR REPLACE INTO table SELECT * FROM view].  The statement is
    atomic: a row that cannot be converted leaves the table as it was.  The
    rows are taken in the order of the view; a row replaces the row with
    its key, be it a stored row or an earlier row of the same statement, so
    of two incoming rows with one key the later is the one stored. *)
Definition insert_or_replace (t : table) (incoming : list (list value)) : result table :=
  new_rows <- mapM row_of_values incoming ;;
  Ok (fold_left (fun acc r => upsert r acc) new_rows t).

(** [load_dataframe(db_path, schema, table, view_name, dataframe, columns)]:
    the database after the call and the value returned or exception
    raised.  The path and the names select the one table modelled here. *)
Definition load_dataframe (db : database) (dataframe : DataFrame)
    (columns : list string) : database * result nat :=
  match getitem_list dataframe columns with
  | Raise e => (db, Raise e)
  | Ok df_to_load =>
      match db with
      | None => (db, Raise CatalogException)
      | Some t =>
          match insert_or_replace t (frame_rows df_to_load) with
          | Raise e => (db, Raise e)
          | Ok t' => (Some t', Ok (List.length t'))
          end
      end
  end.

(** ** air_quality.py: the enrich and load tasks *)

(** [df.to_dict(orient="records")]. *)
Definition to_dict_records (df : DataFrame) : list (dict value) :=
  map (fun i => map (fun nc => (fst nc, nth i (snd nc) VNone)) (df_columns df))
      (seq 0 (df_len df)).

(** [pd.DataFrame.from_records(records)]: one column per key, in the order
    the keys are first met; a record without the key leaves a missing cell. *)
Definition DataFrame_from_records (records : list (dict value)) : DataFrame :=
  let names :=
    fold_left (fun acc r =>
                 (acc ++ filter (fun k => negb (existsb (String.eqb k) acc)) (keys r))%list)
              records [] in
  mkDataFrame (List.length records)
    (map (fun n => (n, map (fun r => match dict_get n r with
                                     | Some v => v
                                     | None => VNone
                                     end) records)) names).

(** The part of the [enrich] task after the transform: timestamps and
    dates are turned into strings and the frame into records. *)
Definition to_records (dataframe : DataFrame) : result (list (dict value)) :=
  time <- bind (getitem dataframe "time") series_dt_strftime ;;
  date <- bind (getitem dataframe "date") series_astype_str ;;
  execution_time <- bind (getitem dataframe "execution_time") series_dt_strftime ;;
  let safe_df := setitem dataframe "time" time in
  let safe_df := setitem safe_df "date" date in
  let safe_df := setitem safe_df "execution_time" execution_time in
  Ok (to_dict_records safe_df).

(** The [enrich] task. *)
Definition enrich (execution_ts : datetime) (payload : Payload)
  : result (list (dict value)) :=
  dataframe <- enrich_raw_data execution_ts payload COLUMN_ORDER ;;
  to_records dataframe.

(** The [load] task up to the call of [load_dataframe]: the records are
    made a frame again and the three string columns parsed back. *)
Definition from_records (records : list (dict value)) : result DataFrame :=
  let dataframe := DataFrame_from_records records in
  time <- bind (getitem dataframe "time") to_datetime ;;
  let dataframe := setitem dataframe "time" time in
  execution_time <- bind (getitem dataframe "execution_time") to_datetime ;;
  let dataframe := setitem dataframe "execution_time" execution_time in
  date <- bind (bind (getitem dataframe "date") to_datetime) series_dt_date ;;
  let dataframe := setitem dataframe "date" date in
  Ok dataframe.

(** The [load] task. *)
Definition load (db : database) (records : list (dict value)) : database * result nat :=
  match from_records records with
  | Raise e => (db, Raise e)
  | Ok dataframe => load_dataframe db dataframe COLUMN_ORDER
  end.

(** ** air_quality.py: the data-quality checks *)

(** SQL comparisons and [OR] are three-valued: [None] is NULL (unknown). *)
Definition Qlt_bool (x y : Q) : bool := (Qnum x * QDen y <? Qnum y * QDen x)%Z.

Definition sql_lt (a : option Q) (b : Q) : option bool :=
  option_map (fun x => Qlt_bool x b) a.

Definition sql_gt (a : option Q) (b : Q) : option bool :=
  option_map (fun x => Qlt_bool b x) a.

Definition sql_or (a b : option bool) : option bool :=
  match a, b with
  | Some true, _ | _, Some true => Some true
  | Some false, Some false => Some false
  | _, _ => None
  end.

Definition is_null {A} (a : option A) : option bool :=
  match a with
  | None => Some true
  | Some _ => Some false
  end.

(** [WHERE] keeps the rows on which the condition is true. *)
Definition sql_where (cond : row -> option bool) (t : table) : table :=
  filter (fun r => match cond r with
                   | Some true => true
                   | _ => false
                   end) t.

(** [SELECT COUNT( * ) FROM table WHERE cond]. *)
Definition count_where (cond : row -> option bool) (t : table) : nat :=
  List.length (sql_where cond t).

Definition option_date_eqb (a b : option date) : bool :=
  match a, b with
  | Some x, Some y => date_eqb x y
  | None, None => true
  | _, _ => false
  end.

(** The distinct values of a column ([GROUP BY], [COUNT(DISTINCT ...)]). *)
Fixpoint distinct {A} (eqb : A -> A -> bool) (l : list A) : list A :=
  match l with
  | [] => []
  | x :: l' => if existsb (eqb x) l' then distinct eqb l' else x :: distinct eqb l'
  end.

(** The query of the completeness check:
    [SELECT date, COUNT( * ) AS rows_count, COUNT(DISTINCT time) AS distinct_times
     FROM table GROUP BY 1 HAVING rows_count != 24 OR distinct_times != 24].
    NULL dates form one group; [time] is never NULL. *)
Definition completeness_query (t : table) : list (option date * nat * nat) :=
  let groups :=
    map (fun d =>
           let g := filter (fun r => option_date_eqb (r_date r) d) t in
           (d, List.length g, List.length (distinct datetime_eqb (map r_time g))))
        (distinct option_date_eqb (map r_date t)) in
  filter (fun g => match g with
                   | (_, rows_count, distinct_times) =>
                       negb (rows_count =? 24) || negb (distinct_times =? 24)
                   end) groups.

Definition check_completeness (db : database) : result unit :=
  match db with
  | None => Raise CatalogException
  | Some t =>
      match completeness_query t with
      | [] => Ok tt
      | failures => Raise (ValueError (Completeness_failure_for_dates failures))
      end
  end.

(** [pm10 IS NULL OR pm2_5 IS NULL OR ... OR city IS NULL]. *)
Definition critical_null (r : row) : option bool :=
  sql_or (is_null (r_pm10 r))
    (sql_or (is_null (r_pm2_5 r))
       (sql_or (is_null (r_uv_index r))
          (sql_or (is_null (r_latitude r))
             (sql_or (is_null (r_longitude r))
                (sql_or (is_null (r_timezone r)) (is_null (r_city r))))))).

Definition check_not_nulls (db : database) : result unit :=
  match db with
  | None => Raise CatalogException
  | Some t =>
      let count := count_where critical_null t in
      if 0 <? count then Raise (ValueError (Nulls_detected_in_critical_columns count))
      else Ok tt
  end.

(** [col < 0 OR col > hi]. *)
Definition out_of_range (col : row -> option Q) (hi : Q) (r : row) : option bool :=
  sql_or (sql_lt (col r) 0) (sql_gt (col r) hi).

Definition check_ranges (db : database) : result unit :=
  match db with
  | None => Raise CatalogException
  | Some t =>
      let results :=
        [ ("pm10", count_where (out_of_range r_pm10 500) t);
          ("pm2_5", count_where (out_of_range r_pm2_5 500) t);
          ("uv_index", count_where (out_of_range r_uv_index 15) t) ] in
      match filter (fun kv => 0 <? snd kv) results with
      | [] => Ok tt
      | failures => Raise (ValueError (Range_check_failures failures))
      end
  end.

(** ** tools/config.py *)

Definition SOURCE : string := "air_quality".

(** [air_quality_filename_for_date(ds)]: [f"{SOURCE}_{ds}.json"]. *)
Definition air_quality_filename_for_date (ds : string) : string :=
  String.append SOURCE (String.append "_" (String.append ds ".json")).

Definition DEFAULT_AIR_QUALITY_PARAMS : dict json :=
  [ ("latitude", JNumber 52.52); ("longitude", JNumber 13.41);
    ("hourly", JString "pm10,pm2_5,uv_index"); ("timezone", JString "UTC") ].

(** ** air_quality.py: the request of [fetch_payload] and the run *)

(** The query parameters [fetch_payload(ds, params)] hands to the fetch:
    [params or dict(DEFAULT_AIR_QUALITY_PARAMS)], a missing or empty
    [params] being falsy, with both dates set to [ds]. *)
Definition request_params (ds : string) (params : option (dict json)) : dict json :=
  let request_params :=
    match params with
    | Some (kv :: rest) => kv :: rest
    | _ => DEFAULT_AIR_QUALITY_PARAMS
    end in
  let request_params := dict_set "start_date" (JString ds) request_params in
  dict_set "end_date" (JString ds) request_params.

(** The task group [data_quality]: [completeness >> not_nulls >> ranges].
    A task runs only when the task before it has succeeded. *)
Definition data_quality_checks (db : database) : result unit :=
  completeness <- check_completeness db ;;
  not_nulls <- check_not_nulls db ;;
  check_ranges db.

(** One run of the DAG from the payload read back from disk (the fetch and
    the two file tasks before it are input and output only):
    [ensure_table] has no upstream task and always runs; [load] needs the
    records of [enrich] and the table, [created >> inserted >> dq]; a task
    whose upstream task failed does not run.  The result is the database
    after the run and the outcome of the last task that ran. *)
Definition elt_air_quality (execution_ts : datetime) (reloaded_payload : Payload)
    (db : database) : database * result unit :=
  let created := ensure_air_quality_table db in
  match enrich execution_ts reloaded_payload with
  | Raise e => (created, Raise e)
  | Ok enriched_records =>
      match load created enriched_records with
      | (db', Raise e) => (db', Raise e)
      | (db', Ok inserted) => (db', data_quality_checks db')
      end
  end.

(** * Vocabulary of the statements *)

Definition date_eq_dec (a b : date) : {a = b} + {a <> b}.
Proof. decide equality; apply Z.eq_dec. Defined.

Definition datetime_eq_dec (a b : datetime) : {a = b} + {a <> b}.
Proof. decide equality; try apply Z.eq_dec; apply date_eq_dec. Defined.

Definition option_date_eq_dec (a b : option date) : {a = b} + {a <> b}.
Proof. decide equality; apply date_eq_dec. Defined.

Definition value_eq_dec (a b : value) : {a = b} + {a <> b}.
Proof.
  decide equality;
    [ decide equality; [apply Pos.eq_dec | apply Z.eq_dec]
    | apply string_dec | apply datetime_eq_dec | apply date_eq_dec ].
Defined.

(** The number of elements of a list that satisfy a decidable property. *)
Definition count_rows {A : Type} (P : A -> Prop) (P_dec : forall a, {P a} + {~ P a})
    (l : list A) : nat :=
  List.length (filter (fun a => if P_dec a then true else false) l).

(** A row with a NULL in one of the critical columns. *)
Definition has_critical_null (r : row) : Prop :=
  r_pm10 r = None \/ r_pm2_5 r = None \/ r_uv_index r = None \/ r_latitude r = None
  \/ r_longitude r = None \/ r_timezone r = None \/ r_city r = None.

Definition has_critical_null_dec (r : row) :
  {has_critical_null r} + {~ has_critical_null r}.
Proof.
  unfold has_critical_null.
  destruct (r_pm10 r); [|left; tauto].
  destruct (r_pm2_5 r); [|left; tauto].
  destruct (r_uv_index r); [|left; tauto].
  destruct (r_latitude r); [|left; tauto].
  destruct (r_longitude r); [|left; tauto].
  destruct (r_timezone r); [|left; tauto].
  destruct (r_city r); [|left; tauto].
  right. intuition discriminate.
Defined.

(** A measurement that is present and not within the closed interval
    from [lo] to [hi]. *)
Definition outside (lo hi : Q) (v : option Q) : Prop :=
  exists x, v = Some x /\ ~ (lo <= x /\ x <= hi)%Q.

Definition outside_dec (lo hi : Q) (v : option Q) : {outside lo hi v} + {~ outside lo hi v}.
Proof.
  unfold outside. destruct v as [x|].
  - destruct (Qlt_le_dec x lo) as [Hlo|Hlo].
    + left. exists x. split; [reflexivity|]. intros [H _]. exact (Qlt_not_le _ _ Hlo H).
    + destruct (Qlt_le_dec hi x) as [Hhi|Hhi].
      * left. exists x. split; [reflexivity|]. intros [_ H]. exact (Qlt_not_le _ _ Hhi H).
      * right. intros [y [Hy H]]. injection Hy as <-. apply H. split; assumption.
  - right. intros [y [Hy _]]. discriminate.
Defined.

(** The stored rows of one calendar date, their number, and the number of
    distinct timestamps among them. *)
Definition rows_of_date (t : table) (d : option date) : table :=
  filter (fun r => if option_date_eq_dec (r_date r) d then true else false) t.

Definition rows_count (t : table) (d : option date) : nat :=
  List.length (rows_of_date t d).

Definition distinct_times (t : table) (d : option date) : nat :=
  List.length (nodup datetime_eq_dec (map r_time (rows_of_date t d))).

(** A date present in the table that does not have 24 rows and 24 distinct
    timestamps. *)
Definition offending (t : table) (d : option date) : Prop :=
  In d (map r_date t) /\ (rows_count t d <> 24 \/ distinct_times t d <> 24).

(** The primary-key constraint: no two stored rows share a [time]. *)
Definition unique_time (t : table) : Prop := NoDup (map r_time t).

Definition keys_of (rows : list row) : list datetime := map r_time rows.

(** Whether a list of keys holds one key twice. *)
Fixpoint has_duplicates (l : list datetime) : bool :=
  match l with
  | [] => false
  | k :: l' => existsb (datetime_eqb k) l' || has_duplicates l'
  end.

Definition fold_upsert (new_rows : list row) (t : table) : table :=
  fold_left (fun acc r => upsert r acc) new_rows t.

(** The rows a frame brings to the table: its projection on [columns],
    row by row, converted to the column types. *)
Definition incoming_rows (df : DataFrame) (columns : list string) : result (list row) :=
  p <- getitem_list df columns ;; mapM row_of_values (frame_rows p).

(** The stored rows whose key is not among the incoming ones. *)
Definition not_replaced (t : table) (new_rows : list row) : table :=
  filter (fun r => negb (existsb (datetime_eqb (r_time r)) (keys_of new_rows))) t.

(** The rows of a batch after which the batch has no row with the same
    key: of the incoming rows with one [time], the last. *)
Fixpoint latest (rows : list row) : list row :=
  match rows with
  | [] => []
  | r :: rows' =>
      if existsb (datetime_eqb (r_time r)) (keys_of rows') then latest rows'
      else r :: latest rows'
  end.

(** Sample data: the test fixture transformed, and a table that already
    holds a row of the fixture's first hour and a row of the day before. *)
Definition sample_frame : DataFrame :=
  Eval vm_compute in
    match enrich_raw_data test_now test_payload COLUMN_ORDER with
    | Ok df => df
    | Raise _ => mkDataFrame 0 []
    end.

Definition sample_table : table :=
  [ mkrow (mkdatetime (mkdate 2025 11 3) 23 0 0 0) (Some 8) (Some 4) (Some 0)
      (Some 48.8566) (Some 2.3522) (Some "Europe/Paris") (Some "Paris")
      (Some (mkdate 2025 11 3)) (Some (mkdatetime (mkdate 2025 11 4) 6 30 0 0));
    mkrow (mkdatetime (mkdate 2025 11 4) 0 0 0 0) (Some 99) None (Some 0)
      (Some 48.8566) (Some 2.3522) (Some "Europe/Paris") (Some "Paris")
      (Some (mkdate 2025 11 4)) (Some (mkdatetime (mkdate 2025 11 4) 6 30 0 0)) ]%Q.

(** [Series.dt.date] on one cell. *)
Definition date_of_cell (v : value) : value :=
  match v with
  | VTimestamp t => VDate (dt_date t)
  | _ => VNone
  end.

(** The hourly metrics the canonical columns need and the payload lacks. *)
Definition missing_metrics (cols : dict (list value)) : list string :=
  filter (fun n => match dict_get n cols with
                   | Some _ => false
                   | None => true
                   end) ["pm10"; "pm2_5"; "uv_index"].

Definition column_or_empty (cols : dict (list value)) (name : string) : list value :=
  match dict_get name cols with
  | Some c => c
  | None => []
  end.

(** The enriched frame before deduplication: [n] rows, the parsed times
    [ts], the metric columns of [cols], the broadcast scalars and the
    derived date. *)
Definition enriched_columns (execution_ts : datetime) (payload : Payload) (n : nat)
    (ts : list value) (cols : dict (list value)) : dict (list value) :=
  [ ("time", ts);
    ("pm10", column_or_empty cols "pm10");
    ("pm2_5", column_or_empty cols "pm2_5");
    ("uv_index", column_or_empty cols "uv_index");
    ("latitude", repeat (payload_get payload "latitude") n);
    ("longitude", repeat (payload_get payload "longitude") n);
    ("timezone", repeat (payload_get payload "timezone") n);
    ("city", repeat (VStr CITY) n);
    ("date", map date_of_cell ts);
    ("execution_time", repeat (VTimestamp execution_ts) n) ].

(** A cell of a datetime column: a timestamp or a missing value. *)
Definition datetime_like (v : value) : Prop :=
  v = VNone \/ exists t, v = VTimestamp t.

(** The mask [~duplicated] of a single key column, and the positions it
    keeps, in increasing order. *)
Definition first_mask (ts : list value) : list bool :=
  map negb (duplicated (map (fun v => [v]) ts)).

Definition kept_positions (mask : list bool) : list nat :=
  filter (fun i => nth i mask false) (seq 0 (List.length mask)).

(** Position [i] holds the first occurrence of its value. *)
Definition first_occurrence (ts : list value) (i : nat) : Prop :=
  i < List.length ts /\ forall j, j < i -> nth j ts VNone <> nth i ts VNone.

Definition test_times : list json :=
  [JString "2025-11-04T00:00"; JString "2025-11-04T00:00"; JString "2025-11-04T01:00"].

Definition test_ts : list value :=
  [ VTimestamp (mkdatetime (mkdate 2025 11 4) 0 0 0 0);
    VTimestamp (mkdatetime (mkdate 2025 11 4) 0 0 0 0);
    VTimestamp (mkdatetime (mkdate 2025 11 4) 1 0 0 0) ].

(** A payload with a [time] array and no metric. *)
Definition time_only_payload : Payload :=
  mkPayload [("time", [JString "2025-11-04T00:00"])] [].


(** The cell of column [name] at row [i]. *)
Definition cell (df : DataFrame) (name : string) (i : nat) : value :=
  nth i (column_or_empty (df_columns df) name) VNone.

(** The row a frame would store at position [i] if its cells were taken by
    column name. *)
Definition row_by_name (df : DataFrame) (i : nat) : result row :=
  time <- bind (cast_timestamptz (cell df "time" i)) not_null ;;
  pm10 <- cast_double (cell df "pm10" i) ;;
  pm2_5 <- cast_double (cell df "pm2_5" i) ;;
  uv_index <- cast_double (cell df "uv_index" i) ;;
  latitude <- cast_double (cell df "latitude" i) ;;
  longitude <- cast_double (cell df "longitude" i) ;;
  timezone <- cast_varchar (cell df "timezone" i) ;;
  city <- cast_varchar (cell df "city" i) ;;
  date <- cast_date (cell df "date" i) ;;
  execution_time <- cast_timestamp (cell df "execution_time" i) ;;
  Ok (mkrow time pm10 pm2_5 uv_index latitude longitude timezone city date
        execution_time).

(** The sample table after the sample frame is loaded into it. *)
Definition sample_loaded : table :=
  Eval vm_compute in
    match fst (load_dataframe (Some sample_table) sample_frame COLUMN_ORDER) with
    | Some t => t
    | None => []
    end.

(** A frame with two rows for one hour, as no transform returns it, and
    the sample table after that frame is loaded into it. *)
Definition duplicate_frame : DataFrame :=
  mkDataFrame 3
    [ ("time", [ VTimestamp (mkdatetime (mkdate 2025 11 4) 0 0 0 0);
                 VTimestamp (mkdatetime (mkdate 2025 11 4) 0 0 0 0);
                 VTimestamp (mkdatetime (mkdate 2025 11 4) 1 0 0 0) ]);
      ("pm10", [VFloat 10; VFloat 11; VFloat 12]);
      ("pm2_5", [VFloat 5; VFloat 5; VFloat 6]);
      ("uv_index", [VFloat 0; VFloat 0; VFloat 0.1]);
      ("latitude", repeat (VFloat 48.8566) 3);
      ("longitude", repeat (VFloat 2.3522) 3);
      ("timezone", repeat (VStr "Europe/Paris") 3);
      ("city", repeat (VStr "Paris") 3);
      ("date", repeat (VDate (mkdate 2025 11 4)) 3);
      ("execution_time", repeat (VTimestamp test_now) 3) ].

Definition duplicate_loaded : table :=
  Eval vm_compute in
    match fst (load_dataframe (Some sample_table) duplicate_frame COLUMN_ORDER) with
    | Some t => t
    | None => []
    end.

(** A table holding the 24 hours of one day. *)
Definition full_day_table : table :=
  map (fun h =>
         mkrow (mkdatetime (mkdate 2025 11 4) (Z.of_nat h) 0 0 0) (Some 10%Q) (Some 5%Q)
           (Some 0%Q) (Some 48.8566%Q) (Some 2.3522%Q) (Some "Europe/Paris")
           (Some "Paris") (Some (mkdate 2025 11 4))
           (Some (mkdatetime (mkdate 2025 11 5) 6 30 15 0)))
      (seq 0 24).

(** A timestamp without its sub-second component. *)
Definition truncate_seconds (t : datetime) : datetime :=
  mkdatetime (dt_date t) (hour t) (minute t) (second t) 0.

Definition truncate_cell (v : value) : value :=
  match v with
  | VTimestamp t => VTimestamp (truncate_seconds t)
  | _ => v
  end.

(** Cells of a timestamp column and of a date column: missing, or in the
    range of the type. *)
Definition timestamp_cell (v : value) : Prop :=
  v = VNone \/ exists t, v = VTimestamp t /\ valid_datetime t = true.

Definition date_cell (v : value) : Prop :=
  v = VNone \/ exists d, v = VDate d /\ valid_date d = true.

Definition whole_second_cell (v : value) : Prop :=
  forall t, v = VTimestamp t -> microsecond t = 0%Z.

(** A batch as the transform returns it: the canonical columns, one cell
    per row in each, with timestamps and dates in the range of their type. *)
Definition enriched_batch (df : DataFrame) : Prop :=
  keys (df_columns df) = COLUMN_ORDER
  /\ Forall (fun nc => List.length (snd nc) = df_len df) (df_columns df)
  /\ Forall timestamp_cell (column_or_empty (df_columns df) "time")
  /\ Forall date_cell (column_or_empty (df_columns df) "date")
  /\ Forall timestamp_cell (column_or_empty (df_columns df) "execution_time").

(** The batch with the sub-second components of [time] and
    [execution_time] dropped. *)
Definition truncate_subsecond (df : DataFrame) : DataFrame :=
  mkDataFrame (df_len df)
    (map (fun nc =>
            if String.eqb (fst nc) "time" || String.eqb (fst nc) "execution_time"
            then (fst nc, map truncate_cell (snd nc))
            else nc) (df_columns df)).

Definition whole_seconds (df : DataFrame) : Prop :=
  Forall whole_second_cell (column_or_empty (df_columns df) "time")
  /\ Forall whole_second_cell (column_or_empty (df_columns df) "execution_time").

(** A payload whose arrays are all empty. *)
Definition empty_payload : Payload :=
  mkPayload [("time", []); ("pm10", []); ("pm2_5", []); ("uv_index", [])]
    (toplevel test_payload).

(** The transform's frame for the empty payload. *)
Definition empty_frame : DataFrame :=
  Eval vm_compute in
    match enrich_raw_data test_now empty_payload COLUMN_ORDER with
    | Ok df => df
    | Raise _ => mkDataFrame 1 []
    end.

(** The test payload without its top-level [latitude]. *)
Definition no_latitude_payload : Payload :=
  mkPayload (hourly test_payload)
    [("longitude", JNumber 2.3522); ("timezone", JString "Europe/Paris")].

(** A cell the insert can convert with [cast]. *)
Definition castable {A} (cast : value -> result A) (v : value) : Prop :=
  exists a, cast v = Ok a.

(** A payload whose values have the JSON kinds the table columns take: the
    time values are not null, the metrics are numbers or null, and the
    top-level latitude and longitude are not strings, the timezone not a
    number. *)
Definition well_typed_payload (payload : Payload) (ts : list value) : Prop :=
  Forall (fun v => v <> VNone) ts
  /\ (forall m c, In m ["pm10"; "pm2_5"; "uv_index"] ->
        dict_get m (hourly payload) = Some c ->
        Forall (fun j => forall s, j <> JString s) c)
  /\ (forall s, payload_get payload "latitude" <> VStr s)
  /\ (forall s, payload_get payload "longitude" <> VStr s)
  /\ (forall x, payload_get payload "timezone" <> VFloat x).

(** A table with one row whose uv_index is 16 and one whose uv_index is 15. *)
Definition uv_table : table :=
  [ mkrow (mkdatetime (mkdate 2025 11 4) 11 0 0 0) (Some 10) (Some 5) (Some 16)
      (Some 48.8566) (Some 2.3522) (Some "Europe/Paris") (Some "Paris")
      (Some (mkdate 2025 11 4)) (Some (mkdatetime (mkdate 2025 11 5) 6 30 15 0));
    mkrow (mkdatetime (mkdate 2025 11 4) 12 0 0 0) (Some 500) (Some 0) (Some 15)
      (Some 48.8566) (Some 2.3522) (Some "Europe/Paris") (Some "Paris")
      (Some (mkdate 2025 11 4)) (Some (mkdatetime (mkdate 2025 11 5) 6 30 15 0)) ]%Q.

(** A payload whose arrays differ in length, one whose second time value
    does not parse, and a later reading of the clock. *)
Definition ragged_payload : Payload :=
  mkPayload [("time", [JString "2025-11-04T00:00"]); ("pm10", [])] [].

Definition bad_time_payload : Payload :=
  mkPayload [("time", [JString "2025-11-04T00:00"; JString "yesterday"])] [].

Definition test_later : datetime := mkdatetime (mkdate 2025 11 5) 18 0 0 999.

(** A payload whose second time value is null, and its frame. *)
Definition null_time_payload : Payload :=
  mkPayload
    [ ("time", [JString "2025-11-04T00:00"; JNull]);
      ("pm10", [JNumber 10; JNumber 11]);
      ("pm2_5", [JNumber 5; JNumber 6]);
      ("uv_index", [JNumber 0; JNumber 0]) ]
    (toplevel test_payload).

Definition null_time_frame : DataFrame :=
  Eval vm_compute in
    match enrich_raw_data test_now null_time_payload COLUMN_ORDER with
    | Ok df => df
    | Raise _ => mkDataFrame 0 []
    end.

(** The test fixture transformed at the later reading of the clock. *)
Definition sample_frame_later : DataFrame :=
  Eval vm_compute in
    match enrich_raw_data test_later test_payload COLUMN_ORDER with
    | Ok df => df
    | Raise _ => mkDataFrame 0 []
    end.

(** A session one hour ahead of UTC, as Europe/Paris is in winter. *)
Definition next_day (d : date) : date :=
  if (day d <? days_in_month (year d) (month d))%Z
  then mkdate (year d) (month d) (day d + 1)
  else if (month d <? 12)%Z then mkdate (year d) (month d + 1) 1
  else mkdate (year d + 1) 1 1.

Definition one_hour_ahead : TimeZone :=
  fun t =>
    if (hour t <? 23)%Z
    then mkdatetime (dt_date t) (hour t + 1) (minute t) (second t) (microsecond t)
    else mkdatetime (next_day (dt_date t)) 0 (minute t) (second t) (microsecond t).

(** The derived fields of a row the transform built, as the table holds
    them: the reading of the clock is stored in [execution_time] as the
    session's zone renders it. *)
Definition stamped (execution_ts : datetime) (payload : Payload) (r : row) : Prop :=
  r_date r = Some (dt_date (r_time r))
  /\ r_city r = Some CITY
  /\ r_execution_time r = Some (local_time execution_ts)
  /\ cast_double (payload_get payload "latitude") = Ok (r_latitude r)
  /\ cast_double (payload_get payload "longitude") = Ok (r_longitude r)
  /\ cast_varchar (payload_get payload "timezone") = Ok (r_timezone r).

(** The exceptions pandas raises in the transform and in the two tasks
    around it, and those DuckDB raises on the insert. *)
Definition pandas_error (e : exn) : Prop :=
  match e with
  | KeyError _ | ValueError _ | TypeError | AttributeError => True
  | _ => False
  end.

Definition insert_error (e : exn) : Prop :=
  match e with
  | BinderException | ConstraintException | ConversionException => True
  | _ => False
  end.

(** A payload with the hourly values of one calendar day [d]: equal-length
    arrays with the three metrics, well typed, whose time array parses to
    the timestamps [ts], all of them on [d]. *)
Definition day_payload (payload : Payload) (d : date) (ts : list value) : Prop :=
  (exists n, Forall (fun kv => List.length (snd kv) = n) (hourly payload))
  /\ (exists times, dict_get "time" (hourly payload) = Some times
                    /\ to_datetime (map of_json times) = Ok ts)
  /\ (forall m, In m ["pm10"; "pm2_5"; "uv_index"] -> In m (keys (hourly payload)))
  /\ well_typed_payload payload ts
  /\ Forall (fun v => exists x, v = VTimestamp x /\ dt_date x = d) ts.

(** Every value of the hourly metric [m] is a number from 0 to [hi]. *)
Definition in_range_metric (payload : Payload) (m : string) (hi : Q) : Prop :=
  forall c, dict_get m (hourly payload) = Some c ->
            Forall (fun j => exists x, j = JNumber x /\ (0 <= x /\ x <= hi)%Q) c.

(** A payload with nothing for the quality checks to object to. *)
Definition clean_payload (payload : Payload) : Prop :=
  in_range_metric payload "pm10" 500
  /\ in_range_metric payload "pm2_5" 500
  /\ in_range_metric payload "uv_index" 15
  /\ (exists x, payload_get payload "latitude" = VFloat x)
  /\ (exists x, payload_get payload "longitude" = VFloat x)
  /\ (exists s, payload_get payload "timezone" = VStr s).

(** The 24 hours of 2025-11-04 as the API returns them. *)
Definition full_day_payload : Payload :=
  mkPayload
    [ ("time", map (fun h => JString (isoformat (mkdate 2025 11 4)
                                        (String "T" (pad2 (Z.of_nat h) ":00"))))
                   (seq 0 24));
      ("pm10", repeat (JNumber 10) 24);
      ("pm2_5", repeat (JNumber 5) 24);
      ("uv_index", repeat (JNumber 0) 24) ]
    (toplevel test_payload).

Definition full_day_ts : list value :=
  map (fun h => VTimestamp (mkdatetime (mkdate 2025 11 4) (Z.of_nat h) 0 0 0)) (seq 0 24).

(** A table that holds the 24 hours of the day before. *)
Definition day_before_table : table :=
  map (fun h =>
         mkrow (mkdatetime (mkdate 2025 11 3) (Z.of_nat h) 0 0 0) (Some 10%Q) (Some 5%Q)
           (Some 0%Q) (Some 48.8566%Q) (Some 2.3522%Q) (Some "Europe/Paris")
           (Some "Paris") (Some (mkdate 2025 11 3))
           (Some (mkdatetime (mkdate 2025 11 4) 6 30 15 0)))
      (seq 0 24).

(** A cell that JSON can carry between two tasks: no timestamp and no
    date object. *)
Definition json_safe (v : value) : Prop :=
  match v with
  | VTimestamp _ | VDate _ => False
  | _ => True
  end.

(** The records the enrich task makes of the test fixture. *)
Definition sample_records : list (dict value) :=
  Eval vm_compute in
    match enrich test_now test_payload with
    | Ok records => records
    | Raise _ => []
    end.

(** The test fixture with its fields listed in another order and one more
    top-level field. *)
Definition reordered_payload : Payload :=
  mkPayload (rev (hourly test_payload))
    (("elevation", JNumber 38) :: rev (toplevel test_payload)).

(** * Properties *)

Example parse_api_time :
  parse_iso8601 "2025-11-04T01:00" = Some (mkdatetime (mkdate 2025 11 4) 1 0 0 0).
Proof. reflexivity. Qed.

Example strftime_example :
  strftime (mkdatetime (mkdate 2025 11 4) 1 0 7 123456) = "2025-11-04T01:00:07Z".
Proof. reflexivity. Qed.

Example test_enrich_raw_data_adds_metadata_and_deduplicates :
  exists df, enrich_raw_data test_now test_payload COLUMN_ORDER = Ok df
    /\ keys (df_columns df) = COLUMN_ORDER
    /\ len df = 2
    /\ dict_get "latitude" (df_columns df) = Some [VFloat 48.8566; VFloat 48.8566]
    /\ dict_get "city" (df_columns df) = Some [VStr CITY; VStr CITY]
    /\ dict_get "pm10" (df_columns df) = Some [VFloat 10; VFloat 12].
Proof. eexists. split; [ vm_compute; reflexivity | repeat split ]. Qed.

(** ** Equality tests *)

Lemma date_eqb_eq (a b : date) : date_eqb a b = true <-> a = b.
Proof.
  destruct a as [y m d], b as [y' m' d']; unfold date_eqb; simpl.
  rewrite !andb_true_iff, !Z.eqb_eq. split.
  - intros [[-> ->] ->]. reflexivity.
  - intros H. injection H as -> -> ->. auto.
Qed.

Lemma datetime_eqb_eq (a b : datetime) : datetime_eqb a b = true <-> a = b.
Proof.
  destruct a as [d h mi s us], b as [d' h' mi' s' us']; unfold datetime_eqb; simpl.
  rewrite !andb_true_iff, !Z.eqb_eq, date_eqb_eq. split.
  - intros [-> [[[-> ->] ->] ->]]. reflexivity.
  - intros H. injection H as -> -> -> -> ->. auto.
Qed.

Lemma datetime_eqb_refl (a : datetime) : datetime_eqb a a = true.
Proof. apply datetime_eqb_eq. reflexivity. Qed.

Lemma datetime_eqb_neq (a b : datetime) : datetime_eqb a b = false <-> a <> b.
Proof.
  rewrite <- datetime_eqb_eq. destruct (datetime_eqb a b); split; congruence.
Qed.

Lemma option_date_eqb_eq (a b : option date) : option_date_eqb a b = true <-> a = b.
Proof.
  destruct a as [x|], b as [y|]; simpl; try (split; congruence).
  rewrite date_eqb_eq. split; congruence.
Qed.

(** ** Counting the rows that satisfy a property *)

Section Counting.
Context {A : Type} (P : A -> Prop) (P_dec : forall a, {P a} + {~ P a}).

Lemma count_rows_filter (f : A -> bool) (l : list A) :
  (forall a, In a l -> (f a = true <-> P a)) ->
  List.length (filter f l) = count_rows P P_dec l.
Proof.
  unfold count_rows. induction l as [|a l IH]; intros Hf; simpl; [reflexivity|].
  assert (Ha : f a = true <-> P a) by (apply Hf; left; reflexivity).
  assert (IH' : List.length (filter f l)
                = List.length (filter (fun a => if P_dec a then true else false) l))
    by (apply IH; intros; apply Hf; right; assumption).
  destruct (P_dec a) as [p|np], (f a) eqn:E; simpl; try congruence.
  - apply Ha in p. congruence.
  - exfalso. apply np, Ha. reflexivity.
Qed.

Lemma count_rows_zero (l : list A) :
  count_rows P P_dec l = 0 <-> forall a, In a l -> ~ P a.
Proof.
  unfold count_rows. induction l as [|a l IH]; simpl.
  - split; [intros _ ? [] | reflexivity].
  - destruct (P_dec a) as [p|np]; simpl.
    + split; [discriminate|]. intros H. exfalso. exact (H a (or_introl eq_refl) p).
    + rewrite IH. split.
      * intros H b [<-|Hb]; auto.
      * intros H b Hb. apply H. right. assumption.
Qed.
End Counting.

(** ** The null-integrity check *)

Lemma critical_null_true (r : row) :
  critical_null r = Some true <-> has_critical_null r.
Proof.
  unfold critical_null, has_critical_null.
  destruct (r_pm10 r), (r_pm2_5 r), (r_uv_index r), (r_latitude r), (r_longitude r),
    (r_timezone r), (r_city r); simpl; split; intros H;
    solve [ reflexivity | discriminate | tauto | intuition discriminate ].
Qed.

Lemma count_where_count_rows (cond : row -> option bool) (P : row -> Prop)
    (P_dec : forall r, {P r} + {~ P r}) (t : table) :
  (forall r, cond r = Some true <-> P r) ->
  count_where cond t = count_rows P P_dec t.
Proof.
  intros H. unfold count_where, sql_where. apply count_rows_filter.
  intros r _. rewrite <- H. destruct (cond r) as [[|]|]; split; congruence.
Qed.

(** C5. The null-integrity check raises exactly when the number of stored
    rows with a NULL in one of pm10, pm2_5, uv_index, latitude, longitude,
    timezone, city is greater than zero, and the error carries that number;
    a table without such a row passes.  (The spec's [QualityError] is the
    [ValueError] the task raises.) *)
Theorem check_not_nulls_spec (t : table) :
  let n := count_rows has_critical_null has_critical_null_dec t in
  (0 < n <-> exists e, check_not_nulls (Some t) = Raise e)
  /\ (forall e, check_not_nulls (Some t) = Raise e ->
       e = ValueError (Nulls_detected_in_critical_columns n))
  /\ (n = 0 <-> check_not_nulls (Some t) = Ok tt)
  /\ (check_not_nulls (Some t) = Ok tt <-> forall r, In r t -> ~ has_critical_null r).
Proof.
  intros n. unfold check_not_nulls.
  rewrite (count_where_count_rows _ _ has_critical_null_dec t critical_null_true).
  fold n. destruct (0 <? n) eqn:E.
  - apply Nat.ltb_lt in E. repeat split.
    + intros _. eexists. reflexivity.
    + intros _. exact E.
    + intros e H. injection H as <-. reflexivity.
    + intros H. lia.
    + discriminate.
    + discriminate.
    + intros H. apply (count_rows_zero _ has_critical_null_dec) in H. fold n in H. lia.
  - apply Nat.ltb_ge in E. repeat split.
    + intros H. lia.
    + intros [e H]. discriminate.
    + intros e H. discriminate.
    + intros H. lia.
    + intros _. apply (count_rows_zero _ has_critical_null_dec). fold n. lia.
Qed.

(** ** The range check *)

Lemma Qlt_bool_iff (x y : Q) : Qlt_bool x y = true <-> (x < y)%Q.
Proof. unfold Qlt_bool, Qlt. apply Z.ltb_lt. Qed.

Lemma out_of_range_true (col : row -> option Q) (hi : Q) (r : row) :
  out_of_range col hi r = Some true <-> outside 0 hi (col r).
Proof.
  unfold out_of_range, outside, sql_lt, sql_gt. destruct (col r) as [x|]; simpl.
  - destruct (Qlt_bool x 0) eqn:E1.
    + apply Qlt_bool_iff in E1. split; [intros _|reflexivity].
      exists x. split; [reflexivity|]. intros [H _]. exact (Qlt_not_le _ _ E1 H).
    + destruct (Qlt_bool hi x) eqn:E2.
      * apply Qlt_bool_iff in E2. split; [intros _|reflexivity].
        exists x. split; [reflexivity|]. intros [_ H]. exact (Qlt_not_le _ _ E2 H).
      * split; [discriminate|]. intros [y [Hy H]]. injection Hy as <-.
        exfalso. apply H. split; apply Qnot_lt_le; intros L;
          apply Qlt_bool_iff in L; congruence.
  - split; [discriminate|]. intros [y [Hy _]]. discriminate.
Qed.

(** C4. The range check counts, per metric, the rows whose pm10 is outside
    0..500, whose pm2_5 is outside 0..500 and whose uv_index is outside
    0..15, bounds included (a uv_index of 15 is not counted, one of 16 is);
    it passes exactly when the three counts are zero and otherwise raises
    an error that lists each metric with a nonzero count, and only those. *)
Theorem check_ranges_spec (t : table) :
  let c1 := count_rows (fun r => outside 0 500 (r_pm10 r))
              (fun r => outside_dec 0 500 (r_pm10 r)) t in
  let c2 := count_rows (fun r => outside 0 500 (r_pm2_5 r))
              (fun r => outside_dec 0 500 (r_pm2_5 r)) t in
  let c3 := count_rows (fun r => outside 0 15 (r_uv_index r))
              (fun r => outside_dec 0 15 (r_uv_index r)) t in
  (c1 = 0 /\ c2 = 0 /\ c3 = 0 <-> check_ranges (Some t) = Ok tt)
  /\ (~ (c1 = 0 /\ c2 = 0 /\ c3 = 0) <-> exists e, check_ranges (Some t) = Raise e)
  /\ (forall e, check_ranges (Some t) = Raise e ->
      exists failures,
        e = ValueError (Range_check_failures failures)
        /\ forall m c, In (m, c) failures <->
             0 < c /\ ((m = "pm10" /\ c = c1) \/ (m = "pm2_5" /\ c = c2)
                       \/ (m = "uv_index" /\ c = c3)))
  /\ (forall r, r_uv_index r = Some 15%Q ->
        count_where (out_of_range r_uv_index 15) [r] = 0)
  /\ (forall r, r_uv_index r = Some 16%Q ->
        count_where (out_of_range r_uv_index 15) [r] = 1).
Proof.
  intros c1 c2 c3. unfold check_ranges.
  rewrite (count_where_count_rows _ _ (fun r => outside_dec 0 500 (r_pm10 r)) t
             (out_of_range_true r_pm10 500)).
  rewrite (count_where_count_rows _ _ (fun r => outside_dec 0 500 (r_pm2_5 r)) t
             (out_of_range_true r_pm2_5 500)).
  rewrite (count_where_count_rows _ _ (fun r => outside_dec 0 15 (r_uv_index r)) t
             (out_of_range_true r_uv_index 15)).
  fold c1 c2 c3. cbn [filter snd].
  split; [|split; [|split; [|split]]].
  - destruct (Nat.ltb_spec 0 c1) as [E1|E1], (Nat.ltb_spec 0 c2) as [E2|E2],
      (Nat.ltb_spec 0 c3) as [E3|E3];
      (split; [intros H; try reflexivity; lia | intros H; try discriminate; lia]).
  - destruct (Nat.ltb_spec 0 c1) as [E1|E1], (Nat.ltb_spec 0 c2) as [E2|E2],
      (Nat.ltb_spec 0 c3) as [E3|E3];
      (split; [intros H; try (eexists; reflexivity); exfalso; apply H; lia
              | intros [e H]; try discriminate; lia]).
  - intros e He.
    destruct (Nat.ltb_spec 0 c1) as [E1|E1], (Nat.ltb_spec 0 c2) as [E2|E2],
      (Nat.ltb_spec 0 c3) as [E3|E3];
      try discriminate He; injection He as <-; eexists; (split; [reflexivity|]);
      intros m c; simpl;
      (split; [ intros H; decompose [or] H; clear H;
                match goal with
                | H : (_, _) = (_, _) |- _ => injection H as <- <-
                | H : False |- _ => destruct H
                end; split; auto; lia
              | intros [Hc [[-> ->]|[[-> ->]|[-> ->]]]]; auto 6; lia ]).
  - intros r Hr. unfold count_where, sql_where, out_of_range. simpl. rewrite Hr. reflexivity.
  - intros r Hr. unfold count_where, sql_where, out_of_range. simpl. rewrite Hr. reflexivity.
Qed.

(** ** The completeness check *)

Lemma distinct_nodup {A} (eqb : A -> A -> bool) (dec : forall a b : A, {a = b} + {a <> b})
    (l : list A) :
  (forall a b, eqb a b = true <-> a = b) ->
  distinct eqb l = nodup dec l.
Proof.
  intros Heqb. induction l as [|x l IH]; simpl; [reflexivity|].
  destruct (in_dec dec x l) as [Hin|Hnin].
  - replace (existsb (eqb x) l) with true; [exact IH|].
    symmetry. apply existsb_exists. exists x. split; [assumption|]. apply Heqb. reflexivity.
  - replace (existsb (eqb x) l) with false; [now rewrite IH|].
    symmetry. apply not_true_is_false. intros H. apply existsb_exists in H.
    destruct H as [y [Hy E]]. apply Heqb in E. subst y. contradiction.
Qed.

Lemma NoDup_map_filter {R K} (key : R -> K) (keep : R -> bool) (rows : list R)
    (Hkeys : NoDup (map key rows)) :
  NoDup (map key (filter keep rows)).
Proof.
  revert Hkeys. induction rows as [|a l IH]; simpl; intros H; [constructor|].
  inversion H as [|? ? Hnin Hnd]; subst.
  destruct (keep a); simpl; [constructor|]; auto.
  intros Hin. apply Hnin. apply in_map_iff in Hin. destruct Hin as [b [Hb Hin]].
  apply filter_In in Hin. apply in_map_iff. exists b. tauto.
Qed.

Lemma group_filter (t : table) (d : option date) :
  filter (fun r => option_date_eqb (r_date r) d) t = rows_of_date t d.
Proof.
  unfold rows_of_date. apply filter_ext. intros r.
  destruct (option_date_eq_dec (r_date r) d) as [E|E].
  - apply option_date_eqb_eq, E.
  - apply not_true_is_false. intros H. apply option_date_eqb_eq in H. contradiction.
Qed.

Lemma completeness_query_In (t : table) (d : option date) (n m : nat) :
  In (d, n, m) (completeness_query t) <->
  offending t d /\ n = rows_count t d /\ m = distinct_times t d.
Proof.
  unfold completeness_query, offending. rewrite filter_In, in_map_iff. split.
  - intros [[d' [E Hd]] Hne]. rewrite group_filter in E.
    rewrite (distinct_nodup _ datetime_eq_dec _ datetime_eqb_eq) in E.
    injection E as -> <- <-.
    rewrite (distinct_nodup _ option_date_eq_dec _ option_date_eqb_eq) in Hd.
    apply nodup_In in Hd. fold (rows_count t d) (distinct_times t d) in *.
    apply orb_true_iff in Hne. repeat split; auto.
    destruct Hne as [H|H]; apply negb_true_iff, Nat.eqb_neq in H; auto.
  - intros [[Hd Hne] [-> ->]]. split.
    + exists d. rewrite group_filter.
      rewrite (distinct_nodup _ datetime_eq_dec _ datetime_eqb_eq). split; [reflexivity|].
      rewrite (distinct_nodup _ option_date_eq_dec _ option_date_eqb_eq).
      apply nodup_In, Hd.
    + apply orb_true_iff. destruct Hne as [H|H]; [left|right];
        apply negb_true_iff, Nat.eqb_neq, H.
Qed.

Lemma completeness_query_NoDup (t : table) :
  NoDup (map (fun f => fst (fst f)) (completeness_query t)).
Proof.
  unfold completeness_query.
  assert (H : NoDup (distinct option_date_eqb (map r_date t))).
  { rewrite (distinct_nodup _ option_date_eq_dec _ option_date_eqb_eq). apply NoDup_nodup. }
  apply NoDup_map_filter. rewrite map_map. simpl. rewrite map_id. exact H.
Qed.

Lemma unique_time_counts (t : table) (d : option date) :
  unique_time t -> distinct_times t d = rows_count t d.
Proof.
  intros H. unfold distinct_times, rows_count.
  rewrite nodup_fixed_point; [apply length_map|].
  apply NoDup_map_filter, H.
Qed.

(** C3. The completeness check raises exactly when some date present in
    the table does not have 24 rows and 24 distinct timestamps; the error
    lists, once for each such date and for no other, the date with its row
    count and its number of distinct timestamps.  A table (with its primary
    key in force) in which every date has exactly 24 distinct timestamps
    passes.  (The spec's [QualityError] is the [ValueError] the task
    raises.) *)
Theorem check_completeness_spec (t : table) :
  ((exists d, offending t d) <-> exists e, check_completeness (Some t) = Raise e)
  /\ (forall e, check_completeness (Some t) = Raise e ->
       exists failures,
         e = ValueError (Completeness_failure_for_dates failures)
         /\ NoDup (map (fun f => fst (fst f)) failures)
         /\ forall d n m, In (d, n, m) failures <->
               offending t d /\ n = rows_count t d /\ m = distinct_times t d)
  /\ ((forall d, ~ offending t d) <-> check_completeness (Some t) = Ok tt)
  /\ (unique_time t ->
       (forall d, In d (map r_date t) -> distinct_times t d = 24) ->
       check_completeness (Some t) = Ok tt).
Proof.
  assert (Hnone : (forall d, ~ offending t d) <-> check_completeness (Some t) = Ok tt).
  { unfold check_completeness. pose proof (completeness_query_In t) as Hin.
    destruct (completeness_query t) as [|[[d n] m] q]; split.
    - reflexivity.
    - intros _ d Hd.
      apply (Hin d (rows_count t d) (distinct_times t d)). auto.
    - intros H. exfalso. apply (H d). apply (Hin d n m). left. reflexivity.
    - discriminate. }
  split; [|split; [|split]].
  - split.
    + intros [d Hd]. destruct (check_completeness (Some t)) as [[]|e] eqn:E.
      * exfalso. exact (proj2 Hnone eq_refl d Hd).
      * exists e. reflexivity.
    + intros [e He]. unfold check_completeness in He.
      pose proof (completeness_query_In t) as Hin.
      destruct (completeness_query t) as [|[[d n] m] q]; [discriminate|].
      exists d. apply (Hin d n m). left. reflexivity.
  - intros e He. unfold check_completeness in He.
    pose proof (completeness_query_In t) as Hin.
    pose proof (completeness_query_NoDup t) as Hnd.
    destruct (completeness_query t) as [|f q]; [discriminate|].
    injection He as <-. eexists. split; [reflexivity|]. split; assumption.
  - exact Hnone.
  - intros Hpk H24. apply Hnone. intros d [Hd Hne].
    pose proof (H24 d Hd) as Hm. pose proof (unique_time_counts t d Hpk) as Hc.
    destruct Hne; lia.
Qed.

(** ** The upsert *)

Lemma has_duplicates_NoDup (l : list datetime) : has_duplicates l = false <-> NoDup l.
Proof.
  induction l as [|k l IH]; simpl.
  - split; [constructor | reflexivity].
  - rewrite orb_false_iff, IH. split.
    + intros [Hk Hl]. constructor; [|assumption]. intros Hin.
      assert (existsb (datetime_eqb k) l = true); [|congruence].
      apply existsb_exists. exists k. split; [assumption | apply datetime_eqb_refl].
    + intros H. inversion H as [|? ? Hnin Hnd]; subst. split; [|assumption].
      apply not_true_is_false. intros Hex. apply existsb_exists in Hex.
      destruct Hex as [y [Hy E]]. apply datetime_eqb_eq in E. subst y. contradiction.
Qed.

Lemma upsert_same (r : row) (t : table) : upsert r (upsert r t) = upsert r t.
Proof.
  induction t as [|r' t IH]; simpl.
  - rewrite datetime_eqb_refl. reflexivity.
  - destruct (datetime_eqb (r_time r') (r_time r)) eqn:E; simpl.
    + rewrite datetime_eqb_refl. reflexivity.
    + rewrite E, IH. reflexivity.
Qed.

Lemma upsert_fixed_other (r r2 : row) (t : table) :
  r_time r <> r_time r2 -> upsert r t = t -> upsert r (upsert r2 t) = upsert r2 t.
Proof.
  intros Hne. induction t as [|r' t IH]; simpl; intros Hfix; [discriminate|].
  destruct (datetime_eqb (r_time r') (r_time r)) eqn:E.
  - injection Hfix as ->. clear E.
    replace (datetime_eqb (r_time r') (r_time r2)) with false
      by (symmetry; apply datetime_eqb_neq, Hne).
    simpl. rewrite datetime_eqb_refl. reflexivity.
  - injection Hfix as Hfix.
    destruct (datetime_eqb (r_time r') (r_time r2)) eqn:E2; simpl.
    + replace (datetime_eqb (r_time r2) (r_time r)) with false
        by (symmetry; apply datetime_eqb_neq; congruence).
      rewrite Hfix. reflexivity.
    + rewrite E, (IH Hfix). reflexivity.
Qed.

Lemma fold_upsert_fixed_other (r : row) (rs : list row) (t : table) :
  ~ In (r_time r) (keys_of rs) -> upsert r t = t ->
  upsert r (fold_upsert rs t) = fold_upsert rs t.
Proof.
  revert t. induction rs as [|a rs IH]; simpl; intros t Hnin Hfix; [assumption|].
  apply IH; [tauto|]. apply upsert_fixed_other; [|assumption].
  intros E. apply Hnin. left. symmetry. exact E.
Qed.

Lemma fold_upsert_fixed (rs : list row) (t : table) (r : row) :
  NoDup (keys_of rs) -> In r rs -> upsert r (fold_upsert rs t) = fold_upsert rs t.
Proof.
  revert t. induction rs as [|a rs IH]; simpl; intros t Hnd Hin; [contradiction|].
  inversion Hnd as [|? ? Hnin Hnd']; subst. destruct Hin as [->|Hin].
  - apply fold_upsert_fixed_other; [assumption | apply upsert_same].
  - apply IH; assumption.
Qed.



Lemma keys_upsert (r : row) (t : table) :
  keys_of (upsert r t)
  = if existsb (fun r' => datetime_eqb (r_time r') (r_time r)) t
    then keys_of t else (keys_of t ++ [r_time r])%list.
Proof.
  induction t as [|r' t IH]; simpl; [reflexivity|].
  destruct (datetime_eqb (r_time r') (r_time r)) eqn:E; simpl.
  - apply datetime_eqb_eq in E. rewrite E. reflexivity.
  - rewrite IH. destruct (existsb _ t); reflexivity.
Qed.

Lemma unique_time_upsert (r : row) (t : table) :
  unique_time t -> unique_time (upsert r t).
Proof.
  unfold unique_time. fold (keys_of t) (keys_of (upsert r t)). rewrite keys_upsert.
  destruct (existsb _ t) eqn:E; [auto|]. intros H.
  apply NoDup_app; [assumption | repeat constructor; simpl; tauto |].
  intros k Hk [<-|[]]. apply in_map_iff in Hk. destruct Hk as [r' [Hk Hr']].
  assert (existsb (fun r' => datetime_eqb (r_time r') (r_time r)) t = true); [|congruence].
  apply existsb_exists. exists r'. split; [assumption|]. apply datetime_eqb_eq, Hk.
Qed.

Lemma In_upsert (r x : row) (t : table) :
  unique_time t ->
  (In x (upsert r t) <-> x = r \/ (In x t /\ r_time x <> r_time r)).
Proof.
  unfold unique_time. induction t as [|r' t IH]; simpl; intros Hu.
  - intuition congruence.
  - inversion Hu as [|? ? Hnin Hnd]; subst.
    destruct (datetime_eqb (r_time r') (r_time r)) eqn:E; simpl.
    + apply datetime_eqb_eq in E. split.
      * intros [<-|Hx]; [left; reflexivity|]. right. split; [tauto|].
        intros E'. apply Hnin. rewrite E, <- E'. apply in_map, Hx.
      * intros [->|[[<-|Hx] Hne]]; [tauto | contradiction | tauto].
    + apply datetime_eqb_neq in E. rewrite (IH Hnd). split.
      * intros [<-|[->|[Hx Hne]]]; [right; tauto | left; reflexivity | right; tauto].
      * intros [->|[[<-|Hx] Hne]]; tauto.
Qed.

Lemma unique_time_fold_upsert (rs : list row) (t : table) :
  unique_time t -> unique_time (fold_upsert rs t).
Proof.
  revert t. induction rs as [|a rs IH]; simpl; intros t H; [assumption|].
  apply IH, unique_time_upsert, H.
Qed.

Lemma In_fold_upsert (rs : list row) (t : table) (x : row) :
  unique_time t -> NoDup (keys_of rs) ->
  (In x (fold_upsert rs t) <-> In x rs \/ (In x t /\ ~ In (r_time x) (keys_of rs))).
Proof.
  revert t. induction rs as [|a rs IH]; simpl; intros t Hu Hnd; [tauto|].
  inversion Hnd as [|? ? Hnin Hnd']; subst.
  rewrite (IH (upsert a t) (unique_time_upsert a t Hu) Hnd'), (In_upsert a x t Hu).
  split.
  - intros [Hx|[[->|[Hx Hne]] Hk]]; [tauto | tauto |].
    right. split; [assumption|]. intros [E|Hk']; [symmetry in E|]; contradiction.
  - intros [[<-|Hx]|[Hx Hk]]; [right; tauto | tauto |].
    right. split; [|tauto]. right. split; [assumption|]. intros E. apply Hk. left. congruence.
Qed.

Lemma not_replaced_In (t : table) (new_rows : list row) (x : row) :
  In x (not_replaced t new_rows) <-> In x t /\ ~ In (r_time x) (keys_of new_rows).
Proof.
  unfold not_replaced. rewrite filter_In, negb_true_iff. split; intros [Hx H]; split; auto.
  - intros Hin. assert (existsb (datetime_eqb (r_time x)) (keys_of new_rows) = true);
      [|congruence].
    apply existsb_exists. exists (r_time x). split; [assumption | apply datetime_eqb_refl].
  - apply not_true_is_false. intros Hex. apply existsb_exists in Hex.
    destruct Hex as [k [Hk E]]. apply datetime_eqb_eq in E. subst k. contradiction.
Qed.

Lemma fold_upsert_Permutation (rs : list row) (t : table) :
  unique_time t -> NoDup (keys_of rs) ->
  Permutation (fold_upsert rs t) (rs ++ not_replaced t rs).
Proof.
  intros Hu Hnd. apply NoDup_Permutation.
  - apply (NoDup_map_inv r_time), unique_time_fold_upsert, Hu.
  - apply NoDup_app.
    + apply (NoDup_map_inv r_time), Hnd.
    + apply (NoDup_map_inv r_time). apply NoDup_map_filter, Hu.
    + intros x Hx Hx'. apply not_replaced_In in Hx'. apply (proj2 Hx'), in_map, Hx.
  - intros x. rewrite (In_fold_upsert rs t x Hu Hnd), in_app_iff, not_replaced_In. tauto.
Qed.

Lemma In_upsert_new (r : row) (t : table) : In r (upsert r t).
Proof.
  induction t as [|r' t IH]; simpl; [tauto|].
  destruct (datetime_eqb (r_time r') (r_time r)); simpl; tauto.
Qed.

Lemma upsert_replace (a b : row) (t : table) :
  r_time a = r_time b -> upsert b (upsert a t) = upsert b t.
Proof.
  intros E. induction t as [|r' t IH]; simpl.
  - rewrite E, datetime_eqb_refl. reflexivity.
  - rewrite E. destruct (datetime_eqb (r_time r') (r_time b)) eqn:E'; simpl.
    + rewrite E, datetime_eqb_refl. reflexivity.
    + rewrite E', IH. reflexivity.
Qed.

Lemma upsert_comm_present (a b : row) (t : table) :
  r_time a <> r_time b -> In (r_time a) (keys_of t) ->
  upsert a (upsert b t) = upsert b (upsert a t).
Proof.
  intros Hne. induction t as [|r' t IH]; simpl; intros Hin; [contradiction|].
  destruct (datetime_eqb (r_time r') (r_time a)) eqn:Ea,
           (datetime_eqb (r_time r') (r_time b)) eqn:Eb; simpl.
  - apply datetime_eqb_eq in Ea, Eb. congruence.
  - rewrite Ea. apply datetime_eqb_neq in Eb. apply datetime_eqb_eq in Ea.
    assert (Hab : datetime_eqb (r_time a) (r_time b) = false)
      by (apply datetime_eqb_neq; exact Hne).
    rewrite Hab. reflexivity.
  - rewrite Eb. assert (Hba : datetime_eqb (r_time b) (r_time a) = false)
      by (apply datetime_eqb_neq; congruence).
    rewrite Hba. reflexivity.
  - rewrite Ea, Eb. f_equal. apply IH. destruct Hin as [H|H]; [|exact H].
    apply datetime_eqb_neq in Ea. contradiction.
Qed.

Lemma keys_upsert_incl (r : row) (t : table) (k : datetime) :
  In k (keys_of t) -> In k (keys_of (upsert r t)).
Proof.
  rewrite keys_upsert.
  destruct (existsb (fun r' => datetime_eqb (r_time r') (r_time r)) t); [tauto|].
  intros H. apply in_or_app. left. exact H.
Qed.

Lemma upsert_fold_upsert_present (a : row) (rs : list row) (t : table) :
  ~ In (r_time a) (keys_of rs) -> In (r_time a) (keys_of t) ->
  upsert a (fold_upsert rs t) = fold_upsert rs (upsert a t).
Proof.
  revert t. induction rs as [|b rs IH]; intros t Hnin Hin; [reflexivity|].
  change (fold_upsert (b :: rs) t) with (fold_upsert rs (upsert b t)).
  change (fold_upsert (b :: rs) (upsert a t)) with (fold_upsert rs (upsert b (upsert a t))).
  simpl in Hnin. rewrite IH; [|tauto | apply keys_upsert_incl, Hin].
  rewrite upsert_comm_present; [reflexivity | intros E; apply Hnin; left; congruence
                               | exact Hin].
Qed.

Lemma fold_upsert_overwrite (rs1 rs2 : list row) (t : table) :
  keys_of rs1 = keys_of rs2 -> NoDup (keys_of rs1) ->
  fold_upsert rs2 (fold_upsert rs1 t) = fold_upsert rs2 t.
Proof.
  revert rs2 t. induction rs1 as [|a1 rs1 IH]; intros [|a2 rs2] t Hk Hnd;
    try discriminate Hk; [reflexivity|].
  simpl in Hk. injection Hk as Ea Hk. simpl in Hnd. inversion Hnd as [|? ? Hnin Hnd']; subst.
  change (fold_upsert (a2 :: rs2) (fold_upsert (a1 :: rs1) t))
    with (fold_upsert rs2 (upsert a2 (fold_upsert rs1 (upsert a1 t)))).
  rewrite upsert_fold_upsert_present.
  - rewrite (upsert_replace a1 a2 t Ea). apply (IH rs2 (upsert a2 t) Hk Hnd').
  - rewrite <- Ea. exact Hnin.
  - rewrite <- Ea. apply (in_map r_time), In_upsert_new.
Qed.





Lemma existsb_key (k : datetime) (l : list datetime) :
  existsb (datetime_eqb k) l = true <-> In k l.
Proof.
  rewrite existsb_exists. split.
  - intros [y [Hy E]]. apply datetime_eqb_eq in E. subst y. exact Hy.
  - intros H. exists k. split; [exact H | apply datetime_eqb_refl].
Qed.

Lemma latest_incl (rs : list row) (x : row) : In x (latest rs) -> In x rs.
Proof.
  induction rs as [|a rs IH]; simpl; [tauto|].
  destruct (existsb (datetime_eqb (r_time a)) (keys_of rs)); simpl; tauto.
Qed.

Lemma latest_keys (rs : list row) (k : datetime) :
  In k (keys_of (latest rs)) <-> In k (keys_of rs).
Proof.
  induction rs as [|a rs IH]; simpl; [tauto|].
  destruct (existsb (datetime_eqb (r_time a)) (keys_of rs)) eqn:E; simpl.
  - apply existsb_key in E. rewrite IH. split; [tauto|].
    intros [<-|H]; assumption.
  - rewrite IH. tauto.
Qed.

Lemma latest_NoDup (rs : list row) : NoDup (keys_of (latest rs)).
Proof.
  induction rs as [|a rs IH]; simpl; [constructor|].
  destruct (existsb (datetime_eqb (r_time a)) (keys_of rs)) eqn:E; [exact IH|].
  simpl. constructor; [|exact IH]. intros H.
  apply (proj1 (latest_keys rs _)), (proj2 (existsb_key _ _)) in H. congruence.
Qed.


Lemma latest_length (rs : list row) :
  List.length (latest rs) = List.length (nodup datetime_eq_dec (keys_of rs)).
Proof.
  induction rs as [|a rs IH]; simpl; [reflexivity|].
  destruct (in_dec datetime_eq_dec (r_time a) (keys_of rs)) as [Hin|Hnin].
  - rewrite (proj2 (existsb_key _ _) Hin). exact IH.
  - destruct (existsb (datetime_eqb (r_time a)) (keys_of rs)) eqn:E.
    + apply existsb_key in E. contradiction.
    + simpl. rewrite IH. reflexivity.
Qed.


(** The table after a batch: of the batch its latest rows, of the old rows
    those whose key is not incoming. *)
Lemma In_fold_upsert_latest (rs : list row) (t : table) (x : row) :
  unique_time t ->
  (In x (fold_upsert rs t) <->
   In x (latest rs) \/ (In x t /\ ~ In (r_time x) (keys_of rs))).
Proof.
  revert t. induction rs as [|a rs IH]; simpl; intros t Hu; [tauto|].
  change (fold_left (fun acc r => upsert r acc) rs (upsert a t))
    with (fold_upsert rs (upsert a t)).
  rewrite (IH (upsert a t) (unique_time_upsert a t Hu)), (In_upsert a x t Hu).
  destruct (existsb (datetime_eqb (r_time a)) (keys_of rs)) eqn:E.
  - apply existsb_key in E. split.
    + intros [Hx|[[->|[Hx Hne]] Hk]]; [tauto | contradiction |].
      right. split; [exact Hx|]. intros [E'|Hk']; [symmetry in E'|]; contradiction.
    + intros [Hx|[Hx Hk]]; [tauto|]. right. split; [|tauto].
      right. split; [exact Hx|]. intros E'. apply Hk. left. congruence.
  - assert (Hnin : ~ In (r_time a) (keys_of rs))
      by (intros H; apply existsb_key in H; congruence).
    simpl. split.
    + intros [Hx|[[->|[Hx Hne]] Hk]]; [tauto | tauto |].
      right. split; [exact Hx|]. intros [E'|Hk']; [symmetry in E'|]; contradiction.
    + intros [[<-|Hx]|[Hx Hk]]; [right; tauto | tauto |].
      right. split; [|tauto]. right. split; [exact Hx|]. intros E'. apply Hk. left.
      congruence.
Qed.

Lemma fold_upsert_Permutation_latest (rs : list row) (t : table) :
  unique_time t ->
  Permutation (fold_upsert rs t) (latest rs ++ not_replaced t rs).
Proof.
  intros Hu. apply NoDup_Permutation.
  - apply (NoDup_map_inv r_time), unique_time_fold_upsert, Hu.
  - apply NoDup_app.
    + apply (NoDup_map_inv r_time), latest_NoDup.
    + apply (NoDup_map_inv r_time). apply NoDup_map_filter, Hu.
    + intros x Hx Hx'. apply not_replaced_In in Hx'. apply (proj2 Hx').
      apply latest_keys, in_map, Hx.
  - intros x. rewrite (In_fold_upsert_latest rs t x Hu), in_app_iff, not_replaced_In.
    tauto.
Qed.



Lemma load_dataframe_inv (t : table) (df : DataFrame) (columns : list string)
    (db' : database) (n : nat) :
  load_dataframe (Some t) df columns = (db', Ok n) ->
  exists new_rows,
    incoming_rows df columns = Ok new_rows
    /\ db' = Some (fold_upsert new_rows t)
    /\ n = List.length (fold_upsert new_rows t).
Proof.
  unfold load_dataframe, incoming_rows, insert_or_replace.
  destruct (getitem_list df columns) as [p|e]; simpl; [|discriminate].
  destruct (mapM row_of_values (frame_rows p)) as [rs|e]; simpl; [|discriminate].
  intros H. injection H as <- <-. exists rs. repeat split.
Qed.

Lemma load_dataframe_failure (t : table) (df : DataFrame) (columns : list string)
    (db' : database) (e : exn) :
  load_dataframe (Some t) df columns = (db', Raise e) -> db' = Some t.
Proof.
  unfold load_dataframe. destruct (getitem_list df columns) as [p|e']; simpl;
    [|congruence].
  destruct (insert_or_replace t (frame_rows p)); congruence.
Qed.

Lemma mapM_length {A B} (f : A -> result B) (l : list A) (l' : list B) :
  mapM f l = Ok l' -> List.length l' = List.length l.
Proof.
  revert l'. induction l as [|a l IH]; simpl; intros l' H.
  - injection H as <-. reflexivity.
  - destruct (f a) as [b|e]; simpl in H; [|discriminate].
    destruct (mapM f l) as [bs|e]; simpl in H; [|discriminate].
    injection H as <-. simpl. f_equal. apply IH. reflexivity.
Qed.

Lemma getitem_list_len (df p : DataFrame) (names : list string) :
  getitem_list df names = Ok p -> df_len p = df_len df.
Proof.
  unfold getitem_list. destruct (filter _ names); [|discriminate].
  intros H. injection H as <-. reflexivity.
Qed.

Lemma incoming_rows_length (df : DataFrame) (columns : list string) (rs : list row) :
  incoming_rows df columns = Ok rs -> List.length rs = len df.
Proof.
  unfold incoming_rows. destruct (getitem_list df columns) as [p|e] eqn:E; simpl;
    [|discriminate].
  intros H. apply mapM_length in H. rewrite H. unfold frame_rows.
  rewrite length_map, length_seq. apply (getitem_list_len _ _ _ E).
Qed.

Lemma filter_none {A} (f : A -> bool) (l : list A) :
  (forall x, In x l -> f x = false) -> filter f l = [].
Proof.
  induction l as [|a l IH]; simpl; intros H; [reflexivity|].
  rewrite (H a (or_introl eq_refl)). apply IH. intros x Hx. apply H. right. assumption.
Qed.



(** C7. A load that raises leaves the table as it was.  A load that
    returns, returns the number of rows the table holds after the upsert,
    whatever the batch: on a table with unique keys this is the number of
    old rows not replaced plus the number of distinct incoming times.  For
    a batch with distinct times it is the number of old rows not replaced
    plus the size of the batch, which exceeds the size of the batch as soon
    as one old row is not replaced. *)
Theorem load_dataframe_row_count (t : table) (df : DataFrame) (columns : list string) :
  (forall db' e, load_dataframe (Some t) df columns = (db', Raise e) -> db' = Some t)
  /\ (forall db' n, load_dataframe (Some t) df columns = (db', Ok n) ->
      exists t' new_rows,
        db' = Some t'
        /\ incoming_rows df columns = Ok new_rows
        /\ List.length new_rows = len df
        /\ n = List.length t'
        /\ (unique_time t ->
            n = List.length (not_replaced t new_rows)
                + List.length (nodup datetime_eq_dec (keys_of new_rows))
            /\ n <= List.length (not_replaced t new_rows) + len df
            /\ (NoDup (keys_of new_rows) ->
                n = List.length (not_replaced t new_rows) + len df
                /\ (not_replaced t new_rows <> [] -> len df < n)))).
Proof.
  split; [apply load_dataframe_failure|].
  intros db' n H. destruct (load_dataframe_inv _ _ _ _ _ H) as [rs [Hin [-> ->]]].
  exists (fold_upsert rs t), rs. pose proof (incoming_rows_length _ _ _ Hin) as Hlen.
  split; [reflexivity|]. split; [assumption|]. split; [assumption|].
  split; [reflexivity|]. intros Hu.
  pose proof (Permutation_length (fold_upsert_Permutation_latest rs t Hu)) as Hcount.
  rewrite length_app, latest_length in Hcount.
  pose proof (NoDup_incl_length (NoDup_nodup datetime_eq_dec (keys_of rs))
                (fun k Hk => proj1 (nodup_In datetime_eq_dec (keys_of rs) k) Hk))
    as Hle.
  unfold keys_of in Hle at 2. rewrite length_map, Hlen in Hle.
  split; [lia|]. split; [lia|]. intros Hnd.
  rewrite (nodup_fixed_point datetime_eq_dec Hnd) in Hcount.
  unfold keys_of in Hcount. rewrite length_map, Hlen in Hcount.
  split; [lia|]. intros Hne. destruct (not_replaced t rs); [congruence|].
  simpl in Hcount. lia.
Qed.

(** ** The transform: what the assignments and the projection build *)

Lemma dict_get_set {V} (k k' : string) (v : V) (d : dict V) :
  dict_get k (dict_set k' v d) = if String.eqb k' k then Some v else dict_get k d.
Proof.
  induction d as [|[k0 v0] d IH]; simpl; [reflexivity|].
  destruct (String.eqb k0 k') eqn:E0; simpl.
  - apply String.eqb_eq in E0. subst k0. destruct (String.eqb k' k); reflexivity.
  - rewrite IH. destruct (String.eqb k0 k) eqn:E1; [|reflexivity].
    apply String.eqb_eq in E1. subst k0. rewrite String.eqb_sym, E0. reflexivity.
Qed.

Lemma to_datetime_datetime_like (col ts : list value) :
  to_datetime col = Ok ts -> Forall datetime_like ts.
Proof.
  unfold to_datetime. revert ts. induction col as [|v col IH]; simpl; intros ts H.
  - injection H as <-. constructor.
  - destruct (to_datetime1 v) as [b|e] eqn:E; simpl in H; [|discriminate].
    destruct (mapM to_datetime1 col) as [bs|e]; simpl in H; [|discriminate].
    injection H as <-. constructor; [|apply IH; reflexivity].
    unfold to_datetime1 in E. destruct v as [|x|s|t|d]; try discriminate.
    + injection E as <-. left. reflexivity.
    + destruct (String.eqb s "NaT"); [injection E as <-; left; reflexivity|].
      destruct (parse_iso8601 s); [|discriminate]. injection E as <-. right. eauto.
    + injection E as <-. right. eauto.
    + injection E as <-. right. eauto.
Qed.

Lemma series_dt_date_ok (ts : list value) :
  Forall datetime_like ts -> series_dt_date ts = Ok (map date_of_cell ts).
Proof.
  unfold series_dt_date, dt_accessor. induction 1 as [|v ts Hv _ IH]; simpl; [reflexivity|].
  rewrite IH. destruct Hv as [->|[t ->]]; reflexivity.
Qed.

(** The transform once the time column is parsed: a [KeyError] naming the
    missing metrics, or the deduplicated projection. *)
Lemma enrich_raw_data_projection (execution_ts : datetime) (payload : Payload)
    (df0 : DataFrame) (times ts : list value) :
  DataFrame_from_dict (payload_hourly payload) = Ok df0 ->
  getitem df0 "time" = Ok times ->
  to_datetime times = Ok ts ->
  enrich_raw_data execution_ts payload COLUMN_ORDER =
    match missing_metrics (df_columns df0) with
    | [] => drop_duplicates ["time"]
              (mkDataFrame (df_len df0)
                 (enriched_columns execution_ts payload (df_len df0) ts (df_columns df0)))
    | missing => Raise (KeyError missing)
    end.
Proof.
  intros H0 Htime Hts. unfold enrich_raw_data. rewrite H0. simpl. rewrite Htime. simpl.
  rewrite Hts. simpl.
  unfold getitem at 1. unfold setitem at 1. simpl. rewrite dict_get_set. simpl.
  rewrite (series_dt_date_ok ts (to_datetime_datetime_like _ _ Hts)). simpl.
  unfold getitem_list, setitem_scalar, setitem, enriched_columns, missing_metrics,
    column_or_empty, COLUMN_ORDER.
  cbn [df_columns df_len filter map].
  repeat (rewrite dict_get_set; cbn [String.eqb Ascii.eqb Bool.eqb]).
  destruct (dict_get "pm10" (df_columns df0)), (dict_get "pm2_5" (df_columns df0)),
    (dict_get "uv_index" (df_columns df0)); reflexivity.
Qed.

(** ** Deduplication *)

Lemma value_eqb_eq (a b : value) :
  datetime_like a -> datetime_like b -> (value_eqb a b = true <-> a = b).
Proof.
  intros [->|[t ->]] [->|[u ->]]; simpl; try (split; congruence).
  rewrite datetime_eqb_eq. split; congruence.
Qed.

Lemma existsb_value_eqb (k : value) (seen : list value) :
  datetime_like k -> Forall datetime_like seen ->
  (existsb (value_eqb k) seen = true <-> In k seen).
Proof.
  intros Hk Hs. rewrite existsb_exists. rewrite Forall_forall in Hs. split.
  - intros [x [Hx E]]. apply value_eqb_eq in E; auto. congruence.
  - intros H. exists k. split; [assumption|]. apply value_eqb_eq; auto.
Qed.

Lemma duplicated_from_single (seen ts : list value) :
  duplicated_from (map (fun v => [v]) seen) (map (fun v => [v]) ts)
  = (fix go seen ts :=
       match ts with
       | [] => []
       | k :: ks => existsb (value_eqb k) seen :: go (k :: seen) ks
       end) seen ts.
Proof.
  revert seen. induction ts as [|k ks IH]; intros seen; simpl; [reflexivity|].
  f_equal.
  - induction seen as [|x seen IHs]; simpl; [reflexivity|].
    rewrite IHs, andb_true_r. reflexivity.
  - apply (IH (k :: seen)).
Qed.

Lemma nth_duplicated_from (seen ts : list value) (i : nat) :
  Forall datetime_like seen -> Forall datetime_like ts -> i < List.length ts ->
  (nth i (duplicated_from (map (fun v => [v]) seen) (map (fun v => [v]) ts)) false = true
   <-> In (nth i ts VNone) seen \/ exists j, j < i /\ nth j ts VNone = nth i ts VNone).
Proof.
  rewrite duplicated_from_single. revert seen i.
  induction ts as [|k ks IH]; intros seen i Hs Hts Hi; simpl in Hi; [lia|].
  inversion Hts as [|? ? Hk Hks]; subst. destruct i as [|i]; simpl.
  - rewrite (existsb_value_eqb k seen Hk Hs). split; [tauto|].
    intros [H|[j [Hj _]]]; [assumption | lia].
  - rewrite (IH (k :: seen) i (Forall_cons _ Hk Hs) Hks ltac:(lia)). simpl. split.
    + intros [[E|H]|[j [Hj E]]].
      * right. exists 0. split; [lia | exact E].
      * left. assumption.
      * right. exists (S j). split; [lia | exact E].
    + intros [H|[[|j] [Hj E]]].
      * left. right. assumption.
      * left. left. exact E.
      * right. exists j. split; [lia | exact E].
Qed.

Lemma duplicated_from_length (seen row_keys : list (list value)) :
  List.length (duplicated_from seen row_keys) = List.length row_keys.
Proof.
  revert seen. induction row_keys as [|k ks IH]; intros seen; simpl; [reflexivity|].
  rewrite IH. reflexivity.
Qed.

Lemma first_mask_length (ts : list value) : List.length (first_mask ts) = List.length ts.
Proof.
  unfold first_mask, duplicated. rewrite !length_map, duplicated_from_length, length_map.
  reflexivity.
Qed.

Lemma first_mask_nth (ts : list value) (i : nat) :
  Forall datetime_like ts ->
  (nth i (first_mask ts) false = true <-> first_occurrence ts i).
Proof.
  intros Hts. unfold first_occurrence. destruct (Nat.lt_ge_cases i (List.length ts)) as [Hi|Hi].
  - unfold first_mask. replace false with (negb true) at 1 by reflexivity.
    rewrite map_nth, negb_true_iff, <- not_true_iff_false.
    unfold duplicated.
    rewrite (nth_indep _ true false)
      by (rewrite duplicated_from_length, length_map; assumption).
    pose proof (nth_duplicated_from [] ts i (Forall_nil _) Hts Hi) as Hd.
    simpl map in Hd at 1. rewrite Hd. simpl. split.
    + intros H. split; [assumption|]. intros j Hj E. apply H. right. exists j. tauto.
    + intros [_ H] [[]|[j [Hj E]]]. exact (H j Hj E).
  - rewrite nth_overflow by (rewrite first_mask_length; assumption).
    split; [discriminate | intros [H _]; lia].
Qed.

Lemma kept_positions_In (ts : list value) (i : nat) :
  Forall datetime_like ts ->
  (In i (kept_positions (first_mask ts)) <-> first_occurrence ts i).
Proof.
  intros Hts. unfold kept_positions. rewrite filter_In, in_seq, first_mask_length.
  rewrite (first_mask_nth ts i Hts). unfold first_occurrence. split; [tauto|].
  intros [H1 H2]. repeat split; auto; lia.
Qed.

Lemma filter_map_pre {A B} (f : A -> B) (p : B -> bool) (l : list A) :
  filter p (map f l) = map f (filter (fun a => p (f a)) l).
Proof.
  induction l as [|a l IH]; simpl; [reflexivity|].
  rewrite IH. destruct (p (f a)); reflexivity.
Qed.

Lemma kept_positions_cons (b : bool) (mask : list bool) :
  kept_positions (b :: mask)
  = ((if b then [0] else []) ++ map S (kept_positions mask))%list.
Proof.
  unfold kept_positions. simpl List.length. rewrite <- cons_seq, <- seq_shift.
  simpl filter. rewrite filter_map_pre. simpl nth. destruct b; reflexivity.
Qed.

Lemma select_kept_positions {A} (d : A) (mask : list bool) (l : list A) :
  List.length l = List.length mask ->
  select mask l = map (fun i => nth i l d) (kept_positions mask).
Proof.
  revert l. induction mask as [|b mask IH]; intros [|x l] H; simpl in H; try discriminate;
    [reflexivity|].
  rewrite kept_positions_cons, map_app, map_map. simpl.
  rewrite (IH l) by lia. destruct b; reflexivity.
Qed.

Lemma count_kept_positions (mask : list bool) :
  count_occ bool_dec mask true = List.length (kept_positions mask).
Proof.
  induction mask as [|b mask IH]; [reflexivity|].
  rewrite kept_positions_cons, length_app, length_map, <- IH.
  destruct b; reflexivity.
Qed.

Lemma NoDup_map_on {R K} (key : R -> K) (rows : list R)
    (Hinj : forall a b, In a rows -> In b rows -> key a = key b -> a = b)
    (Hrows : NoDup rows) :
  NoDup (map key rows).
Proof.
  revert Hinj Hrows. induction rows as [|a l IH]; simpl; intros Hinj Hnd; [constructor|].
  inversion Hnd as [|? ? Hnin Hnd']; subst. constructor.
  - intros Hin. apply in_map_iff in Hin. destruct Hin as [b [E Hb]].
    apply Hnin. rewrite (Hinj a b); auto.
  - apply IH; auto.
Qed.

Lemma first_occurrence_exists (ts : list value) (x : value) :
  In x ts -> exists i, first_occurrence ts i /\ nth i ts VNone = x.
Proof.
  unfold first_occurrence. induction ts as [|a ts IH]; simpl; intros Hin; [contradiction|].
  destruct (value_eq_dec a x) as [->|Hne].
  - exists 0. repeat split; [lia | intros j Hj; lia].
  - destruct Hin as [E|Hin]; [contradiction|].
    destruct (IH Hin) as [i [[Hi Hfirst] E]]. exists (S i). repeat split.
    + lia.
    + intros [|j] Hj; simpl; [congruence | apply Hfirst; lia].
    + exact E.
Qed.

Lemma kept_positions_NoDup (mask : list bool) : NoDup (kept_positions mask).
Proof. apply NoDup_filter, seq_NoDup. Qed.

Lemma seq_StronglySorted (a n : nat) : StronglySorted lt (seq a n).
Proof.
  revert a. induction n as [|n IH]; intros a; simpl; constructor; [apply IH|].
  apply Forall_forall. intros x Hx. apply in_seq in Hx. lia.
Qed.

Lemma filter_StronglySorted {A} (R : A -> A -> Prop) (f : A -> bool) (l : list A) :
  StronglySorted R l -> StronglySorted R (filter f l).
Proof.
  induction 1 as [|a l Hs IH Ha]; simpl; [constructor|].
  destruct (f a); [constructor|]; auto.
  apply Forall_forall. intros x Hx. apply filter_In in Hx.
  rewrite Forall_forall in Ha. apply Ha. tauto.
Qed.

Lemma kept_positions_sorted (mask : list bool) : StronglySorted lt (kept_positions mask).
Proof. apply filter_StronglySorted, seq_StronglySorted. Qed.

(** The rows kept are as many as there are distinct key values. *)
Lemma first_mask_count (ts : list value) :
  Forall datetime_like ts ->
  count_occ bool_dec (first_mask ts) true = List.length (nodup value_eq_dec ts).
Proof.
  intros Hts. rewrite count_kept_positions.
  rewrite <- (length_map (fun i => nth i ts VNone)).
  apply Permutation_length, NoDup_Permutation.
  - apply NoDup_map_on; [|apply kept_positions_NoDup].
    intros i j Hi Hj E. apply (kept_positions_In ts _ Hts) in Hi, Hj.
    destruct Hi as [_ Hi], Hj as [_ Hj].
    destruct (Nat.lt_trichotomy i j) as [L|[L|L]]; [|assumption|].
    + exfalso. exact (Hj i L E).
    + exfalso. apply (Hi j L). symmetry. exact E.
  - apply NoDup_nodup.
  - intros x. rewrite nodup_In, in_map_iff. split.
    + intros [i [<- Hi]]. apply (kept_positions_In ts _ Hts) in Hi.
      apply nth_In, Hi.
    + intros Hx. destruct (first_occurrence_exists ts x Hx) as [i [Hi E]].
      exists i. split; [exact E|]. apply (kept_positions_In ts _ Hts), Hi.
Qed.

Lemma map_seq_nth {A B} (f : A -> B) (d : A) (l : list A) :
  map (fun i => f (nth i l d)) (seq 0 (List.length l)) = map f l.
Proof.
  induction l as [|a l IH]; simpl; [reflexivity|].
  rewrite <- seq_shift, map_map. simpl. rewrite IH. reflexivity.
Qed.

Lemma drop_duplicates_time (cols : dict (list value)) (ts : list value) :
  dict_get "time" cols = Some ts ->
  drop_duplicates ["time"] (mkDataFrame (List.length ts) cols)
  = Ok (mkDataFrame (count_occ bool_dec (first_mask ts) true)
          (map (fun nc => (fst nc, select (first_mask ts) (snd nc))) cols)).
Proof.
  intros Hts. unfold drop_duplicates, getitem. simpl. rewrite Hts. simpl.
  rewrite (map_seq_nth (fun v => [v]) VNone ts). reflexivity.
Qed.

(** ** The transform: row count and first occurrences *)

Lemma dict_get_In {V} (k : string) (v : V) (d : dict V) :
  dict_get k d = Some v -> In (k, v) d.
Proof.
  induction d as [|[k' v'] d IH]; simpl; [discriminate|].
  destruct (String.eqb k' k) eqn:E.
  - apply String.eqb_eq in E. intros H. injection H as ->. left. congruence.
  - intros H. right. apply IH, H.
Qed.

Lemma dict_get_keys {V} (k : string) (d : dict V) :
  In k (keys d) <-> exists v, dict_get k d = Some v.
Proof.
  induction d as [|[k' v'] d IH]; simpl.
  - split; [contradiction | intros [v H]; discriminate].
  - destruct (String.eqb k' k) eqn:E.
    + apply String.eqb_eq in E. split; [eauto | auto].
    + apply String.eqb_neq in E. rewrite IH. split; [intros [?|?]; tauto | auto].
Qed.

Lemma dict_get_payload_hourly (payload : Payload) (k : string) :
  dict_get k (payload_hourly payload)
  = option_map (map of_json) (dict_get k (hourly payload)).
Proof.
  unfold payload_hourly. induction (hourly payload) as [|[k' c] d IH]; simpl;
    [reflexivity|]. destruct (String.eqb k' k); [reflexivity | exact IH].
Qed.

Lemma keys_payload_hourly (payload : Payload) :
  keys (payload_hourly payload) = keys (hourly payload).
Proof. unfold payload_hourly, keys. rewrite map_map. reflexivity. Qed.

Lemma payload_hourly_uniform (payload : Payload) (n : nat) :
  Forall (fun kv => List.length (snd kv) = n) (hourly payload) ->
  Forall (fun kv => List.length (snd kv) = n) (payload_hourly payload).
Proof.
  unfold payload_hourly. intros H. apply Forall_map. simpl.
  eapply Forall_impl; [|exact H]. intros kv E. simpl. rewrite length_map. exact E.
Qed.

Lemma DataFrame_from_dict_uniform (n : nat) (d : dict (list value)) :
  Forall (fun kv => List.length (snd kv) = n) d -> d <> [] ->
  DataFrame_from_dict d = Ok (mkDataFrame n d).
Proof.
  intros H Hne. destruct d as [|[k c] rest]; [contradiction|]. simpl.
  inversion H as [|? ? Hc Hrest]; subst. simpl in *.
  replace (forallb _ rest) with true; [reflexivity|].
  symmetry. apply forallb_forall. rewrite Forall_forall in Hrest.
  intros kv Hkv. apply Nat.eqb_eq. apply Hrest, Hkv.
Qed.

Lemma DataFrame_from_dict_ok (d : dict (list value)) (df : DataFrame) :
  DataFrame_from_dict d = Ok df ->
  df_columns df = d /\ Forall (fun kv => List.length (snd kv) = df_len df) d.
Proof.
  destruct d as [|[k c] rest]; simpl.
  - intros H. injection H as <-. split; [reflexivity | constructor].
  - destruct (forallb _ rest) eqn:E; [|discriminate]. intros H. injection H as <-.
    split; [reflexivity|]. simpl. constructor; [reflexivity|].
    apply Forall_forall. intros kv Hkv. rewrite forallb_forall in E.
    apply Nat.eqb_eq, E, Hkv.
Qed.

Lemma column_or_empty_length (cols : dict (list value)) (n : nat) (k : string) :
  Forall (fun kv => List.length (snd kv) = n) cols -> In k (keys cols) ->
  List.length (column_or_empty cols k) = n.
Proof.
  intros Hu Hk. unfold column_or_empty. apply dict_get_keys in Hk. destruct Hk as [c Hc].
  rewrite Hc. apply dict_get_In in Hc. rewrite Forall_forall in Hu. apply (Hu _ Hc).
Qed.

Lemma missing_metrics_nil (cols : dict (list value)) :
  (forall m, In m ["pm10"; "pm2_5"; "uv_index"] -> In m (keys cols)) ->
  missing_metrics cols = [].
Proof.
  intros H. unfold missing_metrics. apply filter_none. intros m Hm.
  apply H, dict_get_keys in Hm. destruct Hm as [c ->]. reflexivity.
Qed.

(** The transform on a payload with equal-length arrays, a parsable
    [time] array and the three metrics. *)
Lemma enrich_raw_data_ok (execution_ts : datetime) (payload : Payload) (n : nat)
    (times : list json) (ts : list value) :
  Forall (fun kv => List.length (snd kv) = n) (hourly payload) ->
  dict_get "time" (hourly payload) = Some times ->
  to_datetime (map of_json times) = Ok ts ->
  (forall m, In m ["pm10"; "pm2_5"; "uv_index"] -> In m (keys (hourly payload))) ->
  List.length ts = n
  /\ Forall datetime_like ts
  /\ enrich_raw_data execution_ts payload COLUMN_ORDER
     = Ok (mkDataFrame (List.length (kept_positions (first_mask ts)))
             (map (fun nc => (fst nc, map (fun i => nth i (snd nc) VNone)
                                        (kept_positions (first_mask ts))))
                  (enriched_columns execution_ts payload n ts (payload_hourly payload)))).
Proof.
  intros Hu Htime Hts Hmet.
  pose proof (payload_hourly_uniform payload n Hu) as Hu'.
  assert (Htime' : dict_get "time" (payload_hourly payload) = Some (map of_json times))
    by (rewrite dict_get_payload_hourly, Htime; reflexivity).
  assert (Hn : List.length ts = n).
  { rewrite (mapM_length _ _ _ Hts). apply dict_get_In in Htime'.
    rewrite Forall_forall in Hu'. apply (Hu' _ Htime'). }
  pose proof (to_datetime_datetime_like _ _ Hts) as Hlike.
  split; [exact Hn|]. split; [exact Hlike|].
  rewrite (enrich_raw_data_projection execution_ts payload (mkDataFrame n (payload_hourly payload))
             (map of_json times) ts).
  - rewrite <- keys_payload_hourly in Hmet. cbn [df_columns df_len].
    rewrite (missing_metrics_nil _ Hmet).
    rewrite <- Hn at 1. rewrite drop_duplicates_time by reflexivity.
    rewrite count_kept_positions. f_equal. f_equal.
    assert (Hm : forall m, In m ["pm10"; "pm2_5"; "uv_index"] ->
                 List.length (column_or_empty (payload_hourly payload) m)
                 = List.length ts).
    { intros m Hm. rewrite Hn. apply column_or_empty_length; auto. }
    assert (Hsel : forall c : list value, List.length c = List.length ts ->
                   select (first_mask ts) c
                   = map (fun i => nth i c VNone) (kept_positions (first_mask ts))).
    { intros c Hc. apply select_kept_positions. rewrite first_mask_length. exact Hc. }
    unfold enriched_columns. cbn [map fst snd].
    rewrite !Hsel; [reflexivity | ..];
      rewrite ?repeat_length, ?length_map; auto; apply Hm; simpl; tauto.
  - apply DataFrame_from_dict_uniform; [assumption|].
    intros E. rewrite E in Htime'. discriminate.
  - unfold getitem. cbn [df_columns]. rewrite Htime'. reflexivity.
  - exact Hts.
Qed.

(** C1, as stated, fails: equal-length arrays are not enough for the
    transform to return a batch.  A payload whose [hourly] block holds only
    a [time] array makes the projection raise a [KeyError]. *)
Lemma enrich_raw_data_row_count_counterexample :
  Forall (fun kv => List.length (snd kv) = 1) (hourly time_only_payload)
  /\ enrich_raw_data test_now time_only_payload COLUMN_ORDER
     = Raise (KeyError ["pm10"; "pm2_5"; "uv_index"])
  /\ ~ (exists df, enrich_raw_data test_now time_only_payload COLUMN_ORDER = Ok df).
Proof.
  split; [repeat constructor|]. split; [reflexivity|].
  intros [df H]. vm_compute in H. discriminate.
Qed.

(** C1, amended.  For every payload whose [hourly] arrays have equal
    length, whose [time] array parses and which holds the pm10, pm2_5 and
    uv_index arrays, the transform returns a batch with as many rows as
    there are distinct parsed [time] values; the rows kept are, in source
    order, those at the positions where a [time] value occurs for the first
    time, every column being the enriched column read at those positions. *)
Theorem enrich_raw_data_row_count (execution_ts : datetime) (payload : Payload) (n : nat)
    (times : list json) (ts : list value) :
  Forall (fun kv => List.length (snd kv) = n) (hourly payload) ->
  dict_get "time" (hourly payload) = Some times ->
  to_datetime (map of_json times) = Ok ts ->
  (forall m, In m ["pm10"; "pm2_5"; "uv_index"] -> In m (keys (hourly payload))) ->
  exists df kept,
    enrich_raw_data execution_ts payload COLUMN_ORDER = Ok df
    /\ len df = List.length (nodup value_eq_dec ts)
    /\ len df = List.length kept
    /\ StronglySorted lt kept
    /\ (forall i, In i kept <-> first_occurrence ts i)
    /\ df_columns df
       = map (fun nc => (fst nc, map (fun i => nth i (snd nc) VNone) kept))
           (enriched_columns execution_ts payload n ts (payload_hourly payload)).
Proof.
  intros Hu Htime Hts Hmet.
  destruct (enrich_raw_data_ok execution_ts payload n times ts Hu Htime Hts Hmet)
    as [Hn [Hlike Hok]].
  eexists. exists (kept_positions (first_mask ts)). split; [exact Hok|].
  unfold len. cbn [df_len df_columns].
  split; [|split; [|split; [|split]]].
  - rewrite <- count_kept_positions. apply first_mask_count, Hlike.
  - reflexivity.
  - apply kept_positions_sorted.
  - intros i. apply (kept_positions_In ts i Hlike).
  - reflexivity.
Qed.

Lemma enrich_raw_data_row_count_witness :
  exists df kept,
    enrich_raw_data test_now test_payload COLUMN_ORDER = Ok df
    /\ len df = List.length (nodup value_eq_dec test_ts)
    /\ len df = List.length kept
    /\ StronglySorted lt kept
    /\ (forall i, In i kept <-> first_occurrence test_ts i)
    /\ df_columns df
       = map (fun nc => (fst nc, map (fun i => nth i (snd nc) VNone) kept))
           (enriched_columns test_now test_payload 3 test_ts (payload_hourly test_payload)).
Proof.
  apply (enrich_raw_data_row_count test_now test_payload 3 test_times test_ts).
  - repeat constructor.
  - reflexivity.
  - reflexivity.
  - intros m [<-|[<-|[<-|[]]]]; simpl; tauto.
Defined.

(** ** The transform: projection on the canonical columns *)

(** The transform as three fallible steps followed by the projection. *)
Lemma enrich_raw_data_eq (execution_ts : datetime) (payload : Payload) :
  enrich_raw_data execution_ts payload COLUMN_ORDER =
    (dataframe <- DataFrame_from_dict (payload_hourly payload) ;;
     times <- getitem dataframe "time" ;;
     ts <- to_datetime times ;;
     match missing_metrics (df_columns dataframe) with
     | [] => drop_duplicates ["time"]
               (mkDataFrame (df_len dataframe)
                  (enriched_columns execution_ts payload (df_len dataframe) ts
                     (df_columns dataframe)))
     | missing => Raise (KeyError missing)
     end).
Proof.
  destruct (DataFrame_from_dict (payload_hourly payload)) as [df0|e] eqn:E0;
    [|unfold enrich_raw_data; rewrite E0; reflexivity].
  cbn [bind].
  destruct (getitem df0 "time") as [times|e] eqn:E1;
    [|unfold enrich_raw_data; rewrite E0; simpl; rewrite E1; reflexivity].
  cbn [bind].
  destruct (to_datetime times) as [ts|e] eqn:E2;
    [|unfold enrich_raw_data; rewrite E0; simpl; rewrite E1; simpl; rewrite E2; reflexivity].
  rewrite (enrich_raw_data_projection _ _ _ _ _ E0 E1 E2). reflexivity.
Qed.

Lemma keys_drop_duplicates (subset : list string) (df df' : DataFrame) :
  drop_duplicates subset df = Ok df' -> keys (df_columns df') = keys (df_columns df).
Proof.
  unfold drop_duplicates. destruct (mapM (getitem df) subset); simpl; [|discriminate].
  intros H. injection H as <-. unfold keys. simpl. rewrite map_map. reflexivity.
Qed.

Lemma keys_getitem_list (df p : DataFrame) (names : list string) :
  getitem_list df names = Ok p -> keys (df_columns p) = names.
Proof.
  unfold getitem_list. destruct (filter _ names); [|discriminate].
  intros H. injection H as <-. unfold keys. simpl. rewrite map_map. simpl. apply map_id.
Qed.

Lemma enrich_raw_data_keys (execution_ts : datetime) (payload : Payload) (df : DataFrame) :
  enrich_raw_data execution_ts payload COLUMN_ORDER = Ok df ->
  keys (df_columns df) = COLUMN_ORDER.
Proof.
  rewrite enrich_raw_data_eq.
  destruct (DataFrame_from_dict (payload_hourly payload)) as [df0|e]; simpl; [|discriminate].
  destruct (getitem df0 "time") as [times|e]; simpl; [|discriminate].
  destruct (to_datetime times) as [ts|e]; simpl; [|discriminate].
  destruct (missing_metrics (df_columns df0)); [|discriminate].
  intros H. apply keys_drop_duplicates in H. exact H.
Qed.

Lemma missing_metrics_In (cols : dict (list value)) (m : string) :
  In m (missing_metrics cols) <->
  In m ["pm10"; "pm2_5"; "uv_index"] /\ ~ In m (keys cols).
Proof.
  unfold missing_metrics. rewrite filter_In, dict_get_keys.
  destruct (dict_get m cols) as [c|]; split; intros [H1 H2]; split; auto.
  - discriminate.
  - exfalso. apply H2. eauto.
  - intros [v Hv]. discriminate.
Qed.







(** ** The canonical column order *)

Lemma getitem_list_ok (df p : DataFrame) (names : list string) :
  getitem_list df names = Ok p ->
  p = mkDataFrame (df_len df)
        (map (fun n => (n, column_or_empty (df_columns df) n)) names).
Proof.
  unfold getitem_list. destruct (filter _ names); [|discriminate].
  intros H. injection H as <-. reflexivity.
Qed.

Lemma mapM_map {A B C} (f : B -> result C) (g : A -> B) (l : list A) :
  mapM f (map g l) = mapM (fun a => f (g a)) l.
Proof.
  induction l as [|a l IH]; simpl; [reflexivity|]. rewrite IH. reflexivity.
Qed.

(** With the frame projected on the canonical order, taking the cells by
    position is taking them by name. *)
Lemma incoming_rows_eq (df p : DataFrame) :
  getitem_list df COLUMN_ORDER = Ok p ->
  incoming_rows df COLUMN_ORDER = mapM (row_by_name df) (seq 0 (df_len df)).
Proof.
  intros E. unfold incoming_rows. rewrite E. cbn [bind].
  apply getitem_list_ok in E. subst p. unfold frame_rows. cbn [df_len df_columns].
  rewrite mapM_map. reflexivity.
Qed.

Lemma incoming_rows_by_name (df : DataFrame) (rs : list row) :
  incoming_rows df COLUMN_ORDER = Ok rs ->
  mapM (row_by_name df) (seq 0 (df_len df)) = Ok rs.
Proof.
  intros H. destruct (getitem_list df COLUMN_ORDER) as [p|e] eqn:E.
  - rewrite <- (incoming_rows_eq df p E). exact H.
  - unfold incoming_rows in H. rewrite E in H. discriminate.
Qed.


(** ** Printing and parsing timestamps *)

Lemma digit_cases (n : Z) :
  In (n mod 10)%Z [0; 1; 2; 3; 4; 5; 6; 7; 8; 9]%Z.
Proof.
  pose proof (Z.mod_pos_bound n 10 ltac:(lia)) as H. simpl.
  assert (n mod 10 = 0 \/ n mod 10 = 1 \/ n mod 10 = 2 \/ n mod 10 = 3 \/ n mod 10 = 4
          \/ n mod 10 = 5 \/ n mod 10 = 6 \/ n mod 10 = 7 \/ n mod 10 = 8
          \/ n mod 10 = 9)%Z by lia.
  intuition auto.
Qed.

Lemma digit_val_digit (n : Z) : digit_val (digit n) = Some (n mod 10)%Z.
Proof.
  unfold digit. pose proof (digit_cases n) as H. simpl in H.
  decompose [or] H; try contradiction;
    match goal with E : _ = (n mod 10)%Z |- _ => rewrite <- E; reflexivity end.
Qed.

Lemma digit_not_N (n : Z) : Ascii.eqb (digit n) "N" = false.
Proof.
  unfold digit. pose proof (digit_cases n) as H. simpl in H.
  decompose [or] H; try contradiction;
    match goal with E : _ = (n mod 10)%Z |- _ => rewrite <- E; reflexivity end.
Qed.

Lemma read2_pad2 (n : Z) (rest : string) :
  read2 (pad2 n rest) = Some ((n mod 100)%Z, rest).
Proof.
  unfold read2, pad2. rewrite !digit_val_digit. do 2 f_equal.
  pose proof (Z.div_mod n 10 ltac:(lia)). pose proof (Z.div_mod (n / 10) 10 ltac:(lia)).
  pose proof (Z.mod_pos_bound n 10 ltac:(lia)).
  pose proof (Z.mod_pos_bound (n / 10) 10 ltac:(lia)).
  apply (Z.mod_unique_pos _ _ (n / 10 / 10)); lia.
Qed.

Lemma read4_pad4 (n : Z) (rest : string) :
  (0 <= n < 10000)%Z -> read4 (pad4 n rest) = Some (n, rest).
Proof.
  intros Hn. unfold read4, pad4.
  unfold read2 at 1. rewrite !digit_val_digit, read2_pad2. do 2 f_equal.
  pose proof (Z.div_mod n 100 ltac:(lia)) as H1.
  pose proof (Z.mod_pos_bound n 100 ltac:(lia)) as H2.
  assert (H3 : (n / 1000 = n / 100 / 10)%Z)
    by (rewrite Z.div_div by lia; reflexivity).
  pose proof (Z.div_mod (n / 100) 10 ltac:(lia)) as H4.
  assert (H5 : (0 <= n / 100 < 100)%Z)
    by (split; [apply Z.div_pos; lia | apply Z.div_lt_upper_bound; lia]).
  assert (H6 : (0 <= n / 100 / 10 < 10)%Z)
    by (split; [apply Z.div_pos; lia | apply Z.div_lt_upper_bound; lia]).
  rewrite H3, (Z.mod_small (n / 100 / 10) 10) by lia. lia.
Qed.

Lemma days_in_month_bound (y m : Z) : (days_in_month y m <= 31)%Z.
Proof.
  unfold days_in_month.
  destruct m as [|p|p]; try lia.
  repeat (destruct p as [p|p|]; try lia); destruct (is_leap y); lia.
Qed.

Lemma valid_date_bounds (d : date) :
  valid_date d = true ->
  (1 <= year d <= 9999 /\ 1 <= month d <= 12 /\ 1 <= day d <= 31)%Z.
Proof.
  unfold valid_date. rewrite !andb_true_iff, !Z.leb_le.
  pose proof (days_in_month_bound (year d) (month d)). lia.
Qed.

Lemma valid_datetime_bounds (t : datetime) :
  valid_datetime t = true ->
  valid_date (dt_date t) = true
  /\ (0 <= hour t < 24 /\ 0 <= minute t < 60 /\ 0 <= second t < 60)%Z.
Proof.
  unfold valid_datetime. rewrite !andb_true_iff, !Z.leb_le, !Z.ltb_lt. tauto.
Qed.

Lemma read_date_isoformat (d : date) (rest : string) :
  valid_date d = true -> read_date (isoformat d rest) = Some (d, rest).
Proof.
  intros Hv. pose proof (valid_date_bounds d Hv) as [Hy [Hm Hd]].
  unfold read_date, isoformat. rewrite read4_pad4 by lia. cbn [expect].
  rewrite Ascii.eqb_refl, read2_pad2. cbn [expect]. rewrite Ascii.eqb_refl, read2_pad2.
  rewrite !Z.mod_small by lia. destruct d as [y m dd]. simpl in *. rewrite Hv.
  reflexivity.
Qed.

Lemma valid_truncate_seconds (t : datetime) :
  valid_datetime t = true -> valid_datetime (truncate_seconds t) = true.
Proof.
  unfold valid_datetime, truncate_seconds. simpl. rewrite !andb_true_iff. tauto.
Qed.

Lemma parse_strftime (t : datetime) :
  valid_datetime t = true ->
  parse_iso8601 (strftime t) = Some (truncate_seconds t).
Proof.
  intros Hv. pose proof (valid_truncate_seconds t Hv) as Hv'.
  pose proof (valid_datetime_bounds t Hv) as [Hd [Hh [Hm Hs]]].
  unfold parse_iso8601, strftime. rewrite (read_date_isoformat _ _ Hd).
  unfold read_clock. cbn [Ascii.eqb Bool.eqb orb]. rewrite read2_pad2. cbn [expect].
  rewrite Ascii.eqb_refl, read2_pad2. cbn [expect]. rewrite Ascii.eqb_refl, read2_pad2.
  rewrite !Z.mod_small by lia. fold (truncate_seconds t). rewrite Hv'. reflexivity.
Qed.

Lemma parse_isoformat (d : date) :
  valid_date d = true ->
  parse_iso8601 (isoformat d "") = Some (mkdatetime d 0 0 0 0).
Proof.
  intros Hv. unfold parse_iso8601. rewrite (read_date_isoformat _ _ Hv). reflexivity.
Qed.

Lemma isoformat_not_NaT (d : date) (rest : string) :
  String.eqb (isoformat d rest) "NaT" = false.
Proof.
  unfold isoformat, pad4. cbn [String.eqb]. rewrite digit_not_N. reflexivity.
Qed.

Lemma to_datetime1_strftime (t : datetime) :
  valid_datetime t = true ->
  to_datetime1 (VStr (strftime t)) = Ok (VTimestamp (truncate_seconds t)).
Proof.
  intros Hv. unfold to_datetime1. unfold strftime at 1.
  rewrite isoformat_not_NaT, (parse_strftime t Hv). reflexivity.
Qed.

Lemma to_datetime1_isoformat (d : date) :
  valid_date d = true ->
  to_datetime1 (VStr (isoformat d "")) = Ok (VTimestamp (mkdatetime d 0 0 0 0)).
Proof.
  intros Hv. unfold to_datetime1.
  rewrite isoformat_not_NaT, (parse_isoformat d Hv). reflexivity.
Qed.

(** A column of timestamps printed by the enrich task and parsed by the
    load task comes back without its sub-second components. *)
Lemma strftime_to_datetime (col : list value) :
  Forall timestamp_cell col ->
  exists strs,
    series_dt_strftime col = Ok strs /\ to_datetime strs = Ok (map truncate_cell col).
Proof.
  unfold series_dt_strftime, dt_accessor, to_datetime.
  induction 1 as [|v col Hv _ [strs [IH1 IH2]]]; simpl.
  - exists []. split; reflexivity.
  - rewrite IH1. destruct Hv as [->|[t [-> Hv]]]; simpl.
    + exists (VNone :: strs). split; [reflexivity|]. simpl. rewrite IH2. reflexivity.
    + exists (VStr (strftime t) :: strs). split; [reflexivity|].
      cbn [mapM]. rewrite (to_datetime1_strftime t Hv), IH2. reflexivity.
Qed.

(** A column of dates printed by the enrich task and parsed by the load
    task comes back as it was. *)
Lemma astype_str_to_date (col : list value) :
  Forall date_cell col ->
  exists strs,
    series_astype_str col = Ok strs
    /\ bind (to_datetime strs) series_dt_date = Ok col.
Proof.
  unfold series_astype_str, series_dt_date, dt_accessor, to_datetime.
  induction 1 as [|v col Hv _ [strs [IH1 IH2]]]; simpl.
  - exists []. split; reflexivity.
  - rewrite IH1.
    destruct (mapM to_datetime1 strs) as [ts|e] eqn:E; simpl in IH2; [|discriminate].
    destruct Hv as [->|[d [-> Hv]]]; simpl.
    + exists (VStr "NaT" :: strs). split; [reflexivity|].
      cbn [mapM to_datetime1 String.eqb Ascii.eqb Bool.eqb bind]. rewrite E. simpl.
      rewrite IH2. reflexivity.
    + exists (VStr (isoformat d "") :: strs). split; [reflexivity|].
      cbn [mapM]. rewrite (to_datetime1_isoformat d Hv), E. simpl.
      rewrite IH2. reflexivity.
Qed.

Lemma truncate_cell_whole (col : list value) :
  Forall whole_second_cell col -> map truncate_cell col = col.
Proof.
  induction 1 as [|v col Hv _ IH]; simpl; [reflexivity|]. rewrite IH. f_equal.
  destruct v as [| | |t|]; try reflexivity. simpl. f_equal.
  pose proof (Hv t eq_refl) as Hz. destruct t as [d h m s us]. simpl in *. subst us.
  reflexivity.
Qed.

(** ** Records between the enrich and load tasks *)

Lemma dict_get_NoDup {V} (k : string) (v : V) (d : dict V) :
  NoDup (keys d) -> In (k, v) d -> dict_get k d = Some v.
Proof.
  induction d as [|[k' v'] d IH]; simpl; intros Hnd Hin; [contradiction|].
  inversion Hnd as [|? ? Hnin Hnd']; subst. destruct Hin as [E|Hin].
  - injection E as -> ->. rewrite String.eqb_refl. reflexivity.
  - destruct (String.eqb k' k) eqn:E; [|auto].
    apply String.eqb_eq in E. subst k'. exfalso. apply Hnin.
    apply (in_map fst) in Hin. exact Hin.
Qed.

Lemma dict_get_map_values {V W} (f : V -> W) (k : string) (d : dict V) :
  dict_get k (map (fun kv => (fst kv, f (snd kv))) d) = option_map f (dict_get k d).
Proof.
  induction d as [|[k' v'] d IH]; simpl; [reflexivity|].
  destruct (String.eqb k' k); [reflexivity | exact IH].
Qed.

Lemma filter_all {A} (f : A -> bool) (l : list A) :
  (forall x, In x l -> f x = true) -> filter f l = l.
Proof.
  induction l as [|a l IH]; simpl; intros H; [reflexivity|].
  rewrite (H a (or_introl eq_refl)), IH; [reflexivity|].
  intros x Hx. apply H. right. exact Hx.
Qed.

Lemma record_names (K : list string) (records : list (dict value)) :
  records <> [] -> (forall r, In r records -> keys r = K) ->
  fold_left (fun acc r =>
               acc ++ filter (fun k => negb (existsb (String.eqb k) acc)) (keys r))
            records [] = K.
Proof.
  destruct records as [|r0 rs]; [congruence|]. intros _ HK. cbn [fold_left app].
  rewrite (HK r0 (or_introl eq_refl)), filter_all by reflexivity.
  assert (Hrs : forall r, In r rs -> keys r = K) by (intros r Hr; apply HK; right; exact Hr).
  clear HK. induction rs as [|r rs IH]; simpl; [reflexivity|].
  rewrite (Hrs r (or_introl eq_refl)).
  rewrite (filter_none _ K), app_nil_r.
  - apply IH. intros r' Hr'. apply Hrs. right. exact Hr'.
  - intros k Hk. apply negb_false_iff, existsb_exists. exists k.
    split; [exact Hk | apply String.eqb_refl].
Qed.

(** [from_records] undoes [to_dict(orient="records")] on a frame with at
    least one row. *)
Lemma DataFrame_from_records_to_dict (df : DataFrame) :
  0 < df_len df ->
  Forall (fun nc => List.length (snd nc) = df_len df) (df_columns df) ->
  NoDup (keys (df_columns df)) ->
  DataFrame_from_records (to_dict_records df) = df.
Proof.
  destruct df as [n cols]. cbn [df_len df_columns]. intros Hn Hlen Hnd.
  unfold DataFrame_from_records, to_dict_records. cbn [df_len df_columns].
  rewrite length_map, length_seq. f_equal.
  rewrite (record_names (keys cols)).
  - unfold keys. rewrite map_map.
    transitivity (map (fun nc : string * list value => nc) cols); [|apply map_id].
    apply map_ext_in. intros [k c] Hkc. cbn [fst]. f_equal.
    rewrite map_map.
    rewrite Forall_forall in Hlen. pose proof (Hlen _ Hkc) as Hc. simpl in Hc.
    rewrite <- Hc. transitivity (map (fun v : value => v) c); [|apply map_id].
    rewrite <- (map_seq_nth (fun v => v) VNone c).
    apply map_ext. intros i.
    rewrite (dict_get_map_values (fun c => nth i c VNone)).
    rewrite (dict_get_NoDup k c cols Hnd Hkc). reflexivity.
  - destruct n; [lia|]. simpl. discriminate.
  - intros r Hr. apply in_map_iff in Hr. destruct Hr as [i [<- _]].
    unfold keys. rewrite map_map. reflexivity.
Qed.

Lemma canonical_columns (cols : dict (list value)) :
  keys cols = COLUMN_ORDER ->
  exists c0 c1 c2 c3 c4 c5 c6 c7 c8 c9,
    cols = [ ("time", c0); ("pm10", c1); ("pm2_5", c2); ("uv_index", c3);
             ("latitude", c4); ("longitude", c5); ("timezone", c6); ("city", c7);
             ("date", c8); ("execution_time", c9) ].
Proof.
  unfold keys, COLUMN_ORDER. intros H.
  do 10 (destruct cols as [|[? ?] cols]; [discriminate H|]).
  destruct cols; [|discriminate H]. simpl in H.
  injection H as -> -> -> -> -> -> -> -> -> ->.
  repeat eexists.
Qed.

Lemma dt_accessor_length (f : datetime -> value) (col out : list value) :
  dt_accessor f col = Ok out -> List.length out = List.length col.
Proof. apply mapM_length. Qed.

(** The records written by the enrich task, read back by the load task. *)
Lemma records_roundtrip (df : DataFrame) :
  enriched_batch df -> 0 < len df ->
  exists records,
    to_records df = Ok records
    /\ List.length records = len df
    /\ from_records records = Ok (truncate_subsecond df).
Proof.
  intros [Hk [Hlen [H0 [H8 H9]]]] Hn. destruct df as [n cols]. unfold len in *.
  cbn [df_len df_columns] in *.
  destruct (canonical_columns cols Hk) as [c0 [c1 [c2 [c3 [c4 [c5 [c6 [c7 [c8 [c9 ->]]]]]]]]]].
  unfold column_or_empty in H0, H8, H9. cbn in H0, H8, H9.
  destruct (strftime_to_datetime c0 H0) as [s0 [E0 P0]].
  destruct (astype_str_to_date c8 H8) as [s8 [E8 P8]].
  destruct (strftime_to_datetime c9 H9) as [s9 [E9 P9]].
  assert (HL : List.length c0 = n /\ List.length c1 = n /\ List.length c2 = n
               /\ List.length c3 = n /\ List.length c4 = n /\ List.length c5 = n
               /\ List.length c6 = n /\ List.length c7 = n /\ List.length c8 = n
               /\ List.length c9 = n).
  { do 10 (apply Forall_cons_iff in Hlen; destruct Hlen as [? Hlen]). simpl in *. tauto. }
  destruct HL as [L0 [L1 [L2 [L3 [L4 [L5 [L6 [L7 [L8 L9]]]]]]]]].
  assert (M0 : List.length s0 = n) by (rewrite (dt_accessor_length _ _ _ E0); exact L0).
  assert (M8 : List.length s8 = n) by (rewrite (mapM_length _ _ _ E8); exact L8).
  assert (M9 : List.length s9 = n) by (rewrite (dt_accessor_length _ _ _ E9); exact L9).
  set (safe_df := mkDataFrame n
         [ ("time", s0); ("pm10", c1); ("pm2_5", c2); ("uv_index", c3);
           ("latitude", c4); ("longitude", c5); ("timezone", c6); ("city", c7);
           ("date", s8); ("execution_time", s9) ]).
  exists (to_dict_records safe_df). split; [|split].
  - unfold to_records, getitem. cbn [df_columns dict_get String.eqb Ascii.eqb Bool.eqb bind].
    rewrite E0. cbn [bind]. rewrite E8. cbn [bind]. rewrite E9. reflexivity.
  - unfold to_dict_records. rewrite length_map, length_seq. reflexivity.
  - unfold from_records. rewrite (DataFrame_from_records_to_dict safe_df).
    + unfold getitem, safe_df, setitem.
      cbn [df_columns df_len dict_get dict_set String.eqb Ascii.eqb Bool.eqb bind].
      rewrite P0. cbn [bind dict_get dict_set String.eqb Ascii.eqb Bool.eqb].
      rewrite P9. cbn [bind dict_get dict_set String.eqb Ascii.eqb Bool.eqb].
      rewrite P8. reflexivity.
    + exact Hn.
    + unfold safe_df. cbn [df_len df_columns].
      repeat constructor; simpl; assumption.
    + apply (NoDup_map_inv (fun k => k)). rewrite map_id.
      unfold safe_df, keys. cbn [df_columns map fst].
      repeat constructor; simpl; intros H; decompose [or] H; discriminate || assumption.
Qed.

Lemma truncate_subsecond_whole (df : DataFrame) :
  keys (df_columns df) = COLUMN_ORDER -> whole_seconds df -> truncate_subsecond df = df.
Proof.
  intros Hk [H0 H9]. destruct df as [n cols]. cbn [df_columns] in *.
  destruct (canonical_columns cols Hk) as [c0 [c1 [c2 [c3 [c4 [c5 [c6 [c7 [c8 [c9 ->]]]]]]]]]].
  unfold column_or_empty in H0, H9. cbn in H0, H9.
  unfold truncate_subsecond. cbn.
  rewrite (truncate_cell_whole c0 H0), (truncate_cell_whole c9 H9). reflexivity.
Qed.

Lemma read_date_valid (s rest : string) (d : date) :
  read_date s = Some (d, rest) -> valid_date d = true.
Proof.
  unfold read_date.
  destruct (read4 s) as [[y s1]|]; [|discriminate].
  destruct (expect "-" s1) as [s2|]; [|discriminate].
  destruct (read2 s2) as [[m s3]|]; [|discriminate].
  destruct (expect "-" s3) as [s4|]; [|discriminate].
  destruct (read2 s4) as [[dd s5]|]; [|discriminate].
  destruct (valid_date (mkdate y m dd)) eqn:E; [|discriminate].
  intros H. injection H as <- _. exact E.
Qed.

Lemma read_clock_valid (d : date) (s : string) (t : datetime) :
  valid_date d = true -> read_clock d s = Some t ->
  valid_datetime t = true /\ microsecond t = 0%Z.
Proof.
  intros Hd. unfold read_clock. destruct s as [|sep s1].
  - intros H. injection H as <-. unfold valid_datetime. simpl. rewrite Hd. auto.
  - destruct (Ascii.eqb sep "T" || Ascii.eqb sep " "); [|discriminate].
    destruct (read2 s1) as [[h s2]|]; [|discriminate].
    destruct (expect ":" s2) as [s3|]; [|discriminate].
    destruct (read2 s3) as [[mi s4]|]; [|discriminate].
    destruct (expect ":" s4) as [s5|].
    + destruct (read2 s5) as [[se s6]|]; [|discriminate].
      destruct (valid_datetime (mkdatetime d h mi se 0)) eqn:E; [|discriminate].
      destruct (read_zone s6); [|discriminate].
      intros H. injection H as <-. auto.
    + destruct (valid_datetime (mkdatetime d h mi 0 0)) eqn:E; [|discriminate].
      destruct (read_zone s4); [|discriminate].
      intros H. injection H as <-. auto.
Qed.

Lemma parse_iso8601_valid (s : string) (t : datetime) :
  parse_iso8601 s = Some t -> valid_datetime t = true /\ microsecond t = 0%Z.
Proof.
  unfold parse_iso8601. destruct (read_date s) as [[d rest]|] eqn:E; [|discriminate].
  apply read_clock_valid. apply (read_date_valid _ _ _ E).
Qed.

(** The time column parsed from the payload holds timestamps in range,
    all on a whole second. *)
Lemma to_datetime_json (times : list json) (ts : list value) :
  to_datetime (map of_json times) = Ok ts ->
  Forall timestamp_cell ts /\ Forall whole_second_cell ts.
Proof.
  unfold to_datetime. revert ts. induction times as [|j times IH]; simpl; intros ts H.
  - injection H as <-. split; constructor.
  - destruct (to_datetime1 (of_json j)) as [v|e] eqn:E; simpl in H; [|discriminate].
    destruct (mapM to_datetime1 (map of_json times)) as [vs|e]; simpl in H; [|discriminate].
    injection H as <-. destruct (IH vs eq_refl) as [IH1 IH2].
    assert (Hv : timestamp_cell v /\ whole_second_cell v).
    { destruct j as [|x|s]; simpl in E; try discriminate.
      - injection E as <-. split; [left; reflexivity | intros t Ht; discriminate].
      - destruct (String.eqb s "NaT").
        + injection E as <-. split; [left; reflexivity | intros t Ht; discriminate].
        + destruct (parse_iso8601 s) as [t|] eqn:P; [|discriminate].
          injection E as <-. apply parse_iso8601_valid in P. destruct P as [P1 P2].
          split; [right; eauto | intros t' Ht'; injection Ht' as <-; exact P2]. }
    split; constructor; tauto.
Qed.

Lemma Forall_map_nth {A} (P : A -> Prop) (d : A) (c : list A) (positions : list nat) :
  P d -> Forall P c -> Forall P (map (fun i => nth i c d) positions).
Proof.
  intros Hd Hc. apply Forall_map, Forall_forall. intros i _.
  destruct (Nat.lt_ge_cases i (List.length c)) as [Hi|Hi].
  - rewrite Forall_forall in Hc. apply Hc, nth_In, Hi.
  - rewrite nth_overflow by exact Hi. exact Hd.
Qed.

Lemma valid_datetime_date (t : datetime) :
  valid_datetime t = true -> valid_date (dt_date t) = true.
Proof. intros H. apply (valid_datetime_bounds t H). Qed.

Lemma date_of_timestamp_cells (ts : list value) :
  Forall timestamp_cell ts -> Forall date_cell (map date_of_cell ts).
Proof.
  intros H. apply Forall_map. eapply Forall_impl; [|exact H].
  intros v [->|[t [-> Hv]]]; [left; reflexivity|].
  right. exists (dt_date t). split; [reflexivity | apply valid_datetime_date, Hv].
Qed.

(** What a returning transform was given. *)
Lemma enrich_raw_data_inv (execution_ts : datetime) (payload : Payload) (df : DataFrame) :
  enrich_raw_data execution_ts payload COLUMN_ORDER = Ok df ->
  exists n times ts,
    Forall (fun kv => List.length (snd kv) = n) (hourly payload)
    /\ dict_get "time" (hourly payload) = Some times
    /\ to_datetime (map of_json times) = Ok ts
    /\ (forall m, In m ["pm10"; "pm2_5"; "uv_index"] -> In m (keys (hourly payload))).
Proof.
  rewrite enrich_raw_data_eq.
  destruct (DataFrame_from_dict (payload_hourly payload)) as [df0|e] eqn:E0; [|discriminate].
  apply DataFrame_from_dict_ok in E0. destruct E0 as [Hc Hu]. cbn [bind].
  unfold getitem. rewrite Hc, dict_get_payload_hourly.
  destruct (dict_get "time" (hourly payload)) as [times|] eqn:Et; [|discriminate].
  cbn [option_map bind].
  destruct (to_datetime (map of_json times)) as [ts|e] eqn:Ets; [|discriminate].
  cbn [bind]. rewrite ?Hc.
  pose proof (missing_metrics_In (payload_hourly payload)) as Hmiss.
  destruct (missing_metrics (payload_hourly payload)) as [|a l]; [|discriminate].
  intros _. exists (df_len df0), times, ts. split; [|split; [|split]]; auto.
  - unfold payload_hourly in Hu. rewrite Forall_map in Hu.
    eapply Forall_impl; [|exact Hu]. intros kv H. simpl in H.
    rewrite length_map in H. exact H.
  - intros m Hm. rewrite <- keys_payload_hourly.
    destruct (in_dec string_dec m (keys (payload_hourly payload))) as [Hin|Hnin];
      [exact Hin|].
    exfalso. apply (proj2 (Hmiss m)). tauto.
Qed.

(** The frame the transform returns is an enriched batch whose [time]
    column is on whole seconds. *)
Lemma enrich_raw_data_enriched_batch (execution_ts : datetime) (payload : Payload)
    (df : DataFrame) :
  valid_datetime execution_ts = true ->
  enrich_raw_data execution_ts payload COLUMN_ORDER = Ok df ->
  enriched_batch df
  /\ Forall whole_second_cell (column_or_empty (df_columns df) "time")
  /\ (microsecond execution_ts = 0%Z -> whole_seconds df).
Proof.
  intros Hnow Hok.
  destruct (enrich_raw_data_inv _ _ _ Hok) as [n [times [ts [Hu [Htime [Hts Hmet]]]]]].
  destruct (enrich_raw_data_ok execution_ts payload n times ts Hu Htime Hts Hmet)
    as [Hn [_ Heq]].
  rewrite Heq in Hok. injection Hok as <-.
  destruct (to_datetime_json _ _ Hts) as [Hcells Hwhole].
  unfold enriched_batch, whole_seconds, column_or_empty, enriched_columns.
  cbn [df_columns df_len map fst snd dict_get String.eqb Ascii.eqb Bool.eqb keys].
  assert (Hexec : Forall timestamp_cell
                    (map (fun i => nth i (repeat (VTimestamp execution_ts) n) VNone)
                       (kept_positions (first_mask ts)))).
  { apply Forall_map_nth; [left; reflexivity|]. apply Forall_forall.
    intros v Hv. apply repeat_spec in Hv. subst v. right. eauto. }
  assert (Htimes : Forall whole_second_cell
                     (map (fun i => nth i ts VNone) (kept_positions (first_mask ts)))).
  { apply Forall_map_nth; [intros t Ht; discriminate | exact Hwhole]. }
  split; [|split; [exact Htimes|]].
  - split; [reflexivity|]. split.
    + repeat constructor; cbn [snd]; apply length_map.
    + split; [apply Forall_map_nth; [left; reflexivity | exact Hcells]|].
      split; [|exact Hexec].
      apply Forall_map_nth; [left; reflexivity | apply date_of_timestamp_cells, Hcells].
  - intros Hus. split; [exact Htimes|].
    apply Forall_map_nth; [intros t Ht; discriminate|]. apply Forall_forall.
    intros v Hv. apply repeat_spec in Hv. subst v. intros t Ht. injection Ht as <-.
    exact Hus.
Qed.

(** C10, as stated, fails on the batch without rows: it is an enriched
    batch with no sub-second component anywhere, the enrich task turns it
    into the empty list of records, and the load task, whose frame then has
    no column at all, raises a [KeyError] on [time] instead of giving the
    batch back. *)
Lemma enrich_load_roundtrip_counterexample :
  enrich_raw_data test_now empty_payload COLUMN_ORDER = Ok empty_frame
  /\ enriched_batch empty_frame
  /\ whole_seconds empty_frame
  /\ enrich test_now empty_payload = Ok []
  /\ from_records [] = Raise (KeyError ["time"])
  /\ from_records [] <> Ok empty_frame.
Proof.
  split; [reflexivity|]. split; [|split; [|split; [|split]]].
  - unfold enriched_batch. cbn. repeat split; repeat constructor.
  - unfold whole_seconds. cbn. split; constructor.
  - reflexivity.
  - reflexivity.
  - discriminate.
Qed.

(** C10, amended.  For every enriched batch with at least one row, the
    records written by the enrich task (time and execution_time printed
    with [strftime], date with [str]) are read back by the load task into
    the same batch with the sub-second components of time and
    execution_time dropped; date and every other column come back as they
    were.  When time and execution_time are on whole seconds the batch
    comes back exactly.  The frame the transform returns is such a batch. *)
Theorem enrich_load_roundtrip (df : DataFrame) :
  (enriched_batch df -> 0 < len df ->
   exists records,
     to_records df = Ok records
     /\ List.length records = len df
     /\ from_records records = Ok (truncate_subsecond df)
     /\ (whole_seconds df -> from_records records = Ok df))
  /\ (forall execution_ts payload,
        valid_datetime execution_ts = true ->
        enrich_raw_data execution_ts payload COLUMN_ORDER = Ok df ->
        enriched_batch df
        /\ enrich execution_ts payload = to_records df
        /\ (microsecond execution_ts = 0%Z -> whole_seconds df)).
Proof.
  split.
  - intros Hb Hn. destruct (records_roundtrip df Hb Hn) as [records [H1 [H2 H3]]].
    exists records. split; [exact H1|]. split; [exact H2|]. split; [exact H3|].
    intros Hw. rewrite H3. f_equal. apply truncate_subsecond_whole; [apply Hb | exact Hw].
  - intros execution_ts payload Hnow Hok.
    destruct (enrich_raw_data_enriched_batch _ _ _ Hnow Hok) as [Hb [_ Hw]].
    split; [exact Hb|]. split; [|exact Hw].
    unfold enrich. rewrite Hok. reflexivity.
Qed.

Lemma enrich_load_roundtrip_witness :
  (exists records,
     to_records sample_frame = Ok records
     /\ List.length records = len sample_frame
     /\ from_records records = Ok (truncate_subsecond sample_frame)
     /\ (whole_seconds sample_frame -> from_records records = Ok sample_frame))
  /\ enrich test_now test_payload = to_records sample_frame.
Proof.
  destruct (proj2 (enrich_load_roundtrip sample_frame) test_now test_payload)
    as [Hb [He _]]; [reflexivity | reflexivity |].
  split; [|exact He].
  apply (proj1 (enrich_load_roundtrip sample_frame) Hb). unfold len. simpl. lia.
Defined.

(** ** A payload without latitude, longitude or timezone *)



Lemma In_fold_upsert_new (rs : list row) (t : table) (r : row) :
  NoDup (keys_of rs) -> In r rs -> In r (fold_upsert rs t).
Proof.
  intros Hnd Hr. rewrite <- (fold_upsert_fixed rs t r Hnd Hr). apply In_upsert_new.
Qed.

Lemma mapM_In {A B} (f : A -> result B) (l : list A) (l' : list B) (b : B) :
  mapM f l = Ok l' -> In b l' -> exists a, In a l /\ f a = Ok b.
Proof.
  revert l'. induction l as [|a l IH]; simpl; intros l' H Hb.
  - injection H as <-. contradiction.
  - destruct (f a) as [b0|e] eqn:E; simpl in H; [|discriminate].
    destruct (mapM f l) as [bs|e]; simpl in H; [|discriminate].
    injection H as <-. destruct Hb as [<-|Hb]; [eauto|].
    destruct (IH bs eq_refl Hb) as [a' [Ha' Hf]]. eauto.
Qed.



(** ** The load of a well-typed batch succeeds *)

Lemma mapM_ok {A B} (f : A -> result B) (l : list A) :
  (forall a, In a l -> exists b, f a = Ok b) -> exists l', mapM f l = Ok l'.
Proof.
  induction l as [|a l IH]; simpl; intros H; [eauto|].
  destruct (H a (or_introl eq_refl)) as [b ->].
  destruct IH as [bs ->]; [intros x Hx; apply H; right; exact Hx|].
  simpl. eauto.
Qed.

Lemma load_dataframe_ok (t : table) (df : DataFrame) (columns : list string)
    (rs : list row) :
  incoming_rows df columns = Ok rs ->
  load_dataframe (Some t) df columns
  = (Some (fold_upsert rs t), Ok (List.length (fold_upsert rs t))).
Proof.
  unfold incoming_rows, load_dataframe, insert_or_replace.
  destruct (getitem_list df columns) as [p|e]; cbn [bind]; [|discriminate].
  intros ->. reflexivity.
Qed.

Lemma getitem_list_canonical (df : DataFrame) :
  keys (df_columns df) = COLUMN_ORDER -> getitem_list df COLUMN_ORDER = Ok df.
Proof.
  intros Hk. destruct df as [n cols]. cbn [df_columns] in Hk.
  destruct (canonical_columns cols Hk) as [c0 [c1 [c2 [c3 [c4 [c5 [c6 [c7 [c8 [c9 ->]]]]]]]]]].
  reflexivity.
Qed.

Lemma row_by_name_time (df : DataFrame) (i : nat) (r : row) :
  row_by_name df i = Ok r -> cell df "time" i = VTimestamp (r_time r).
Proof.
  unfold row_by_name.
  destruct (cell df "time" i) as [| | |t0|]; try discriminate.
  cbn [cast_timestamptz bind not_null].
  destruct (cast_double (cell df "pm10" i)); [|discriminate]. cbn [bind].
  destruct (cast_double (cell df "pm2_5" i)); [|discriminate]. cbn [bind].
  destruct (cast_double (cell df "uv_index" i)); [|discriminate]. cbn [bind].
  destruct (cast_double (cell df "latitude" i)); [|discriminate]. cbn [bind].
  destruct (cast_double (cell df "longitude" i)); [|discriminate]. cbn [bind].
  destruct (cast_varchar (cell df "timezone" i)); [|discriminate]. cbn [bind].
  destruct (cast_varchar (cell df "city" i)); [|discriminate]. cbn [bind].
  destruct (cast_date (cell df "date" i)); [|discriminate]. cbn [bind].
  destruct (cast_timestamp (cell df "execution_time" i)); [|discriminate]. cbn [bind].
  intros H. injection H as <-. reflexivity.
Qed.

Lemma rows_by_name_times (df : DataFrame) (l : list nat) (rs : list row) :
  mapM (row_by_name df) l = Ok rs ->
  map (fun r => VTimestamp (r_time r)) rs = map (cell df "time") l.
Proof.
  revert rs. induction l as [|i l IH]; simpl; intros rs H.
  - injection H as <-. reflexivity.
  - destruct (row_by_name df i) as [r|e] eqn:E; simpl in H; [|discriminate].
    destruct (mapM (row_by_name df) l) as [rs'|e]; simpl in H; [|discriminate].
    injection H as <-. simpl. rewrite (IH rs' eq_refl), (row_by_name_time df i r E).
    reflexivity.
Qed.

Lemma row_by_name_castable (df : DataFrame) (i : nat) :
  castable (fun v => bind (cast_timestamptz v) not_null) (cell df "time" i) ->
  castable cast_double (cell df "pm10" i) ->
  castable cast_double (cell df "pm2_5" i) ->
  castable cast_double (cell df "uv_index" i) ->
  castable cast_double (cell df "latitude" i) ->
  castable cast_double (cell df "longitude" i) ->
  castable cast_varchar (cell df "timezone" i) ->
  castable cast_varchar (cell df "city" i) ->
  castable cast_date (cell df "date" i) ->
  castable cast_timestamp (cell df "execution_time" i) ->
  exists r, row_by_name df i = Ok r.
Proof.
  intros [x0 E0] [x1 E1] [x2 E2] [x3 E3] [x4 E4] [x5 E5] [x6 E6] [x7 E7] [x8 E8] [x9 E9].
  unfold row_by_name. rewrite E0, E1, E2, E3, E4, E5, E6, E7, E8, E9. cbn [bind]. eauto.
Qed.

Lemma kept_values_NoDup (ts : list value) :
  Forall datetime_like ts ->
  NoDup (map (fun i => nth i ts VNone) (kept_positions (first_mask ts))).
Proof.
  intros Hts. apply NoDup_map_on; [|apply kept_positions_NoDup].
  intros i j Hi Hj E. apply (kept_positions_In ts _ Hts) in Hi, Hj.
  destruct Hi as [_ Hi], Hj as [_ Hj].
  destruct (Nat.lt_trichotomy i j) as [L|[L|L]]; [|assumption|].
  - exfalso. exact (Hj i L E).
  - exfalso. apply (Hi j L). symmetry. exact E.
Qed.

Lemma nth_Forall_default {A} (P : A -> Prop) (d : A) (l : list A) (i : nat) :
  P d -> Forall P l -> P (nth i l d).
Proof.
  intros Hd Hl. destruct (Nat.lt_ge_cases i (List.length l)) as [Hi|Hi].
  - rewrite Forall_forall in Hl. apply Hl, nth_In, Hi.
  - rewrite nth_overflow by exact Hi. exact Hd.
Qed.

Lemma castable_double_json (j : json) :
  (forall s, j <> JString s) -> castable cast_double (of_json j).
Proof.
  destruct j as [|x|s]; intros H; [eexists; reflexivity | eexists; reflexivity |].
  exfalso. exact (H s eq_refl).
Qed.

Lemma payload_get_cases (payload : Payload) (k : string) :
  payload_get payload k = VNone
  \/ (exists x, payload_get payload k = VFloat x)
  \/ (exists s, payload_get payload k = VStr s).
Proof.
  unfold payload_get. destruct (dict_get k (toplevel payload)) as [[|x|s]|]; simpl; eauto.
Qed.

(** The transform's frame of a well-typed payload loads into any table. *)
Lemma enrich_then_load_ok (execution_ts : datetime) (payload : Payload) (n : nat)
    (times : list json) (ts : list value) (df : DataFrame) (t : table) :
  Forall (fun kv => List.length (snd kv) = n) (hourly payload) ->
  dict_get "time" (hourly payload) = Some times ->
  to_datetime (map of_json times) = Ok ts ->
  (forall m, In m ["pm10"; "pm2_5"; "uv_index"] -> In m (keys (hourly payload))) ->
  well_typed_payload payload ts ->
  enrich_raw_data execution_ts payload COLUMN_ORDER = Ok df ->
  exists t', load_dataframe (Some t) df COLUMN_ORDER = (Some t', Ok (List.length t')).
Proof.
  intros Hu Htime Hts Hmet [Hnn [Hnum [Hlat [Hlon Htz]]]] Hdf.
  destruct (enrich_raw_data_ok execution_ts payload n times ts Hu Htime Hts Hmet)
    as [Hn [Hlike Hok]].
  pose proof (enrich_raw_data_keys _ _ _ Hdf) as Hkeys.
  match type of Hok with _ = Ok ?d => set (df0 := d) in * end.
  assert (Edf : df = df0) by congruence. subst df. clear Hdf.
  pose proof (getitem_list_canonical df0 Hkeys) as Hproj.
  set (df := df0) in *.
  pose proof (incoming_rows_eq df df Hproj) as Hinc.
  set (kept := kept_positions (first_mask ts)) in *.
  assert (Hmetric : forall m, In m ["pm10"; "pm2_5"; "uv_index"] ->
            Forall (castable cast_double) (column_or_empty (payload_hourly payload) m)).
  { intros m Hm. unfold column_or_empty. rewrite dict_get_payload_hourly.
    destruct (dict_get m (hourly payload)) as [c|] eqn:Ec; [|constructor].
    cbn [option_map]. apply Forall_map. eapply Forall_impl; [|exact (Hnum m c Hm Ec)].
    intros j Hj. apply castable_double_json, Hj. }
  assert (Hnone : forall A (cast : value -> result (option A)),
            cast VNone = Ok None -> castable cast VNone)
    by (intros A cast E; eexists; exact E).
  assert (Hcells : forall i, In i (seq 0 (df_len df)) -> exists r, row_by_name df i = Ok r).
  { intros i Hi. apply in_seq in Hi. unfold df, df0 in Hi. cbn [df_len] in Hi.
    apply row_by_name_castable; unfold cell, column_or_empty, df, df0, enriched_columns;
      cbn [df_columns map fst snd dict_get String.eqb Ascii.eqb Bool.eqb].
    - assert (Hin : In (nth i (map (fun k => nth k ts VNone) kept) VNone)
                      (map (fun k => nth k ts VNone) kept))
        by (apply nth_In; rewrite length_map; lia).
      apply in_map_iff in Hin. destruct Hin as [k [<- Hk]].
      apply (kept_positions_In ts k Hlike) in Hk. destruct Hk as [Hk _].
      pose proof (nth_In ts VNone Hk) as Hin.
      rewrite Forall_forall in Hnn, Hlike.
      destruct (Hlike _ Hin) as [E|[t0 E]]; [exfalso; exact (Hnn _ Hin E)|].
      rewrite E. eexists. reflexivity.
    - apply nth_Forall_default; [apply Hnone; reflexivity|].
      apply Forall_map_nth; [apply Hnone; reflexivity | apply Hmetric; simpl; tauto].
    - apply nth_Forall_default; [apply Hnone; reflexivity|].
      apply Forall_map_nth; [apply Hnone; reflexivity | apply Hmetric; simpl; tauto].
    - apply nth_Forall_default; [apply Hnone; reflexivity|].
      apply Forall_map_nth; [apply Hnone; reflexivity | apply Hmetric; simpl; tauto].
    - apply nth_Forall_default; [apply Hnone; reflexivity|].
      apply Forall_map_nth; [apply Hnone; reflexivity|]. apply Forall_forall.
      intros v Hv. apply repeat_spec in Hv. subst v.
      destruct (payload_get_cases payload "latitude") as [E|[[x E]|[s E]]];
        [rewrite E; eexists; reflexivity | rewrite E; eexists; reflexivity |].
      exfalso. exact (Hlat s E).
    - apply nth_Forall_default; [apply Hnone; reflexivity|].
      apply Forall_map_nth; [apply Hnone; reflexivity|]. apply Forall_forall.
      intros v Hv. apply repeat_spec in Hv. subst v.
      destruct (payload_get_cases payload "longitude") as [E|[[x E]|[s E]]];
        [rewrite E; eexists; reflexivity | rewrite E; eexists; reflexivity |].
      exfalso. exact (Hlon s E).
    - apply nth_Forall_default; [apply Hnone; reflexivity|].
      apply Forall_map_nth; [apply Hnone; reflexivity|]. apply Forall_forall.
      intros v Hv. apply repeat_spec in Hv. subst v.
      destruct (payload_get_cases payload "timezone") as [E|[[x E]|[s E]]];
        [rewrite E; eexists; reflexivity | | rewrite E; eexists; reflexivity].
      exfalso. exact (Htz x E).
    - apply nth_Forall_default; [apply Hnone; reflexivity|].
      apply Forall_map_nth; [apply Hnone; reflexivity|]. apply Forall_forall.
      intros v Hv. apply repeat_spec in Hv. subst v. eexists. reflexivity.
    - apply nth_Forall_default; [apply Hnone; reflexivity|].
      apply Forall_map_nth; [apply Hnone; reflexivity|]. apply Forall_map.
      apply Forall_forall. intros v _. destruct v; eexists; reflexivity.
    - apply nth_Forall_default; [apply Hnone; reflexivity|].
      apply Forall_map_nth; [apply Hnone; reflexivity|]. apply Forall_forall.
      intros v Hv. apply repeat_spec in Hv. subst v. eexists. reflexivity. }
  destruct (mapM_ok _ _ Hcells) as [rs Hrs].
  rewrite Hrs in Hinc.
  eexists. apply (load_dataframe_ok t df COLUMN_ORDER rs Hinc).
Qed.




(** The pm10 of 500 and the uv_index of 15 are within range; only the
    uv_index of 16 is reported. *)
Example check_ranges_boundary :
  check_ranges (Some uv_table)
  = Raise (ValueError (Range_check_failures [("uv_index", 1)])).
Proof. vm_compute. reflexivity. Qed.

(** * Further properties of the pipeline *)

(** ** File names and request parameters *)

Lemma append_length (a b : string) :
  String.length (String.append a b) = String.length a + String.length b.
Proof. induction a as [|c a IH]; simpl; [reflexivity | rewrite IH; reflexivity]. Qed.

Lemma append_cancel_tail (a b c : string) :
  String.append a c = String.append b c -> a = b.
Proof.
  revert b. induction a as [|x a IH]; intros [|y b] H; simpl in H.
  - reflexivity.
  - apply (f_equal String.length) in H. simpl in H. rewrite append_length in H. lia.
  - apply (f_equal String.length) in H. simpl in H. rewrite append_length in H. lia.
  - injection H as -> H. f_equal. apply IH, H.
Qed.

(** X1. The file name of a logical date starts with the source name and
    ends in [.json], and two dates never share a file name. *)
Theorem air_quality_filename_for_date_injective (ds ds' : string) :
  (air_quality_filename_for_date ds = air_quality_filename_for_date ds' <-> ds = ds')
  /\ air_quality_filename_for_date ds
     = String.append "air_quality_" (String.append ds ".json").
Proof.
  split; [|reflexivity]. split; [|intros ->; reflexivity].
  unfold air_quality_filename_for_date, SOURCE. simpl. intros H.
  injection H as H. apply (append_cancel_tail _ _ _ H).
Qed.

(** X2. Whatever parameters are given, the request asks for the one day
    [ds]: start_date and end_date are both [ds], overriding any value
    given; every other parameter is the given one, or the default one when
    no parameters or an empty dict were given. *)
Theorem request_params_dates (ds : string) (params : option (dict json)) :
  let base := match params with
              | Some (kv :: rest) => kv :: rest
              | _ => DEFAULT_AIR_QUALITY_PARAMS
              end in
  dict_get "start_date" (request_params ds params) = Some (JString ds)
  /\ dict_get "end_date" (request_params ds params) = Some (JString ds)
  /\ (forall k, k <> "start_date" -> k <> "end_date" ->
        dict_get k (request_params ds params) = dict_get k base)
  /\ (forall k, In k (keys (request_params ds params)) <->
        k = "start_date" \/ k = "end_date" \/ In k (keys base)).
Proof.
  intros base. unfold request_params. fold base.
  split; [|split; [|split]].
  - rewrite !dict_get_set. reflexivity.
  - rewrite !dict_get_set. reflexivity.
  - intros k H1 H2. rewrite !dict_get_set.
    destruct (String.eqb "end_date" k) eqn:E1;
      [apply String.eqb_eq in E1; congruence|].
    destruct (String.eqb "start_date" k) eqn:E2;
      [apply String.eqb_eq in E2; congruence|]. reflexivity.
  - intros k. rewrite !dict_get_keys. do 2 setoid_rewrite dict_get_set.
    destruct (String.eqb "end_date" k) eqn:E1.
    + apply String.eqb_eq in E1. subst k. split; [auto | eauto].
    + destruct (String.eqb "start_date" k) eqn:E2.
      * apply String.eqb_eq in E2. subst k. split; [auto | eauto].
      * apply String.eqb_neq in E1, E2. split; [auto|].
        intros [H|[H|H]]; [congruence | congruence | exact H].
Qed.

(** ** The transform: errors *)

Lemma DataFrame_from_dict_unequal (d : dict (list value)) (a b : string * list value) :
  In a d -> In b d -> List.length (snd a) <> List.length (snd b) ->
  DataFrame_from_dict d = Raise (ValueError Arrays_must_be_of_the_same_length).
Proof.
  intros Ha Hb Hne. destruct d as [|[k c] rest]; [contradiction|]. simpl.
  destruct (forallb (fun kv => List.length (snd kv) =? List.length c) rest) eqn:E;
    [|reflexivity].
  exfalso. rewrite forallb_forall in E.
  assert (H : forall x, In x ((k, c) :: rest) -> List.length (snd x) = List.length c).
  { intros x [<-|Hx]; [reflexivity|]. apply Nat.eqb_eq, E, Hx. }
  apply Hne. rewrite (H a Ha), (H b Hb). reflexivity.
Qed.

(** X3. Arrays of different lengths in the hourly block make the transform
    raise the [ValueError] of the frame constructor, whatever the columns
    asked for and whatever else the payload holds or lacks. *)
Theorem enrich_raw_data_unequal_lengths (execution_ts : datetime) (payload : Payload)
    (columns : list string) (a b : string * list json) :
  In a (hourly payload) -> In b (hourly payload) ->
  List.length (snd a) <> List.length (snd b) ->
  enrich_raw_data execution_ts payload columns
  = Raise (ValueError Arrays_must_be_of_the_same_length).
Proof.
  intros Ha Hb Hne. unfold enrich_raw_data.
  rewrite (DataFrame_from_dict_unequal (payload_hourly payload)
             (fst a, map of_json (snd a)) (fst b, map of_json (snd b))).
  - reflexivity.
  - unfold payload_hourly. apply (in_map (fun kv => (fst kv, map of_json (snd kv)))), Ha.
  - unfold payload_hourly. apply (in_map (fun kv => (fst kv, map of_json (snd kv)))), Hb.
  - simpl. rewrite !length_map. exact Hne.
Qed.

Lemma enrich_raw_data_unequal_lengths_witness :
  enrich_raw_data test_now ragged_payload COLUMN_ORDER
  = Raise (ValueError Arrays_must_be_of_the_same_length).
Proof.
  apply (enrich_raw_data_unequal_lengths test_now ragged_payload COLUMN_ORDER
           ("time", [JString "2025-11-04T00:00"]) ("pm10", [])).
  - simpl. tauto.
  - simpl. tauto.
  - simpl. discriminate.
Defined.

Lemma mapM_app_raise {A B} (f : A -> result B) (pre post : list A) (x : A)
    (l : list B) (e : exn) :
  mapM f pre = Ok l -> f x = Raise e -> mapM f (pre ++ x :: post) = Raise e.
Proof.
  revert l. induction pre as [|a pre IH]; simpl; intros l Hpre Hx.
  - rewrite Hx. reflexivity.
  - destruct (f a) as [b|e']; simpl in *; [|discriminate].
    destruct (mapM f pre) as [bs|e'] eqn:E; simpl in Hpre; [|discriminate].
    rewrite (IH bs eq_refl Hx). reflexivity.
Qed.

(** X4. With equal-length arrays, a time value that does not parse makes
    the transform raise a [ValueError] naming the first such value, for any
    columns asked for, before the metrics are looked at. *)
Theorem enrich_raw_data_bad_time (execution_ts : datetime) (payload : Payload)
    (columns : list string) (n : nat) (pre post : list json) (s : string)
    (parsed : list value) :
  Forall (fun kv => List.length (snd kv) = n) (hourly payload) ->
  dict_get "time" (hourly payload) = Some (pre ++ JString s :: post) ->
  to_datetime (map of_json pre) = Ok parsed ->
  s <> "NaT" ->
  parse_iso8601 s = None ->
  enrich_raw_data execution_ts payload columns
  = Raise (ValueError (Unknown_datetime_string s)).
Proof.
  intros Hu Htime Hpre Hnat Hparse. unfold enrich_raw_data.
  rewrite (DataFrame_from_dict_uniform n).
  - cbn [bind]. unfold getitem. cbn [df_columns].
    rewrite dict_get_payload_hourly, Htime. cbn [option_map bind].
    unfold to_datetime. rewrite map_app. cbn [map of_json].
    rewrite (mapM_app_raise _ _ _ _ parsed (ValueError (Unknown_datetime_string s)) Hpre).
    + reflexivity.
    + unfold to_datetime1. apply String.eqb_neq in Hnat. rewrite Hnat, Hparse.
      reflexivity.
  - apply payload_hourly_uniform, Hu.
  - intros E. pose proof (dict_get_payload_hourly payload "time") as H.
    rewrite E, Htime in H. discriminate.
Qed.

Lemma enrich_raw_data_bad_time_witness :
  enrich_raw_data test_now bad_time_payload ["time"]
  = Raise (ValueError (Unknown_datetime_string "yesterday")).
Proof.
  apply (enrich_raw_data_bad_time test_now bad_time_payload ["time"] 2
           [JString "2025-11-04T00:00"] [] "yesterday"
           [VTimestamp (mkdatetime (mkdate 2025 11 4) 0 0 0 0)]).
  - repeat constructor.
  - reflexivity.
  - reflexivity.
  - discriminate.
  - reflexivity.
Defined.

(** X5. The [columns] argument has to name [time]: the transform
    deduplicates the projected frame on [time], so with columns that leave
    it out the transform never returns a frame. *)
Theorem enrich_raw_data_needs_time (execution_ts : datetime) (payload : Payload)
    (columns : list string) :
  ~ In "time" columns ->
  exists e, enrich_raw_data execution_ts payload columns = Raise e.
Proof.
  intros Hnin. unfold enrich_raw_data.
  destruct (DataFrame_from_dict (payload_hourly payload)) as [df0|e];
    [|eexists; reflexivity]. cbn [bind].
  destruct (getitem df0 "time") as [times|e]; [|eexists; reflexivity]. cbn [bind].
  destruct (to_datetime times) as [ts|e]; [|eexists; reflexivity]. cbn [bind].
  destruct (getitem (setitem df0 "time" ts) "time") as [time|e];
    [|eexists; reflexivity]. cbn [bind].
  destruct (series_dt_date time) as [date|e]; [|eexists; reflexivity]. cbn [bind].
  match goal with
  | |- context [getitem_list ?d columns] =>
      destruct (getitem_list d columns) as [projected|e] eqn:E;
        [|eexists; reflexivity]
  end.
  cbn [bind]. apply keys_getitem_list in E.
  unfold drop_duplicates. cbn [mapM]. unfold getitem at 1.
  destruct (dict_get "time" (df_columns projected)) as [c|] eqn:Ec;
    [|eexists; reflexivity].
  exfalso. apply Hnin. rewrite <- E. apply dict_get_keys. eauto.
Qed.

Lemma enrich_raw_data_needs_time_witness :
  exists e, enrich_raw_data test_now test_payload ["pm10"; "date"] = Raise e.
Proof.
  apply (enrich_raw_data_needs_time test_now test_payload ["pm10"; "date"]).
  simpl. intros [H|[H|[]]]; discriminate.
Defined.

(** ** The transform and the clock *)

Lemma nth_repeat_default {A} (v d : A) (n i : nat) (f : A -> A) :
  f d = d -> f (nth i (repeat v n) d) = nth i (repeat (f v) n) d.
Proof.
  intros Hd. destruct (Nat.lt_ge_cases i n) as [Hi|Hi].
  - rewrite !nth_repeat_lt by exact Hi. reflexivity.
  - rewrite !nth_overflow by (rewrite repeat_length; exact Hi). exact Hd.
Qed.

Lemma map_nth_repeat_keep {A} (v d : A) (n : nat) (positions : list nat) :
  (forall i, In i positions -> i < n) ->
  map (fun i => nth i (repeat v n) d) positions = repeat v (List.length positions).
Proof.
  induction positions as [|i l IH]; simpl; intros H; [reflexivity|].
  rewrite IH by (intros j Hj; apply H; right; exact Hj).
  rewrite nth_repeat_lt by (apply H; left; reflexivity). reflexivity.
Qed.

Lemma kept_positions_bound (ts : list value) (i : nat) :
  In i (kept_positions (first_mask ts)) -> i < List.length ts.
Proof.
  unfold kept_positions. rewrite filter_In, in_seq, first_mask_length. lia.
Qed.

(** The frame of a returning transform, column by column. *)
Lemma enrich_raw_data_frame (execution_ts : datetime) (payload : Payload) (df : DataFrame) :
  enrich_raw_data execution_ts payload COLUMN_ORDER = Ok df ->
  exists n times ts,
    Forall (fun kv => List.length (snd kv) = n) (hourly payload)
    /\ dict_get "time" (hourly payload) = Some times
    /\ to_datetime (map of_json times) = Ok ts
    /\ (forall m, In m ["pm10"; "pm2_5"; "uv_index"] -> In m (keys (hourly payload)))
    /\ List.length ts = n
    /\ df = mkDataFrame (List.length (kept_positions (first_mask ts)))
              (map (fun nc => (fst nc, map (fun i => nth i (snd nc) VNone)
                                         (kept_positions (first_mask ts))))
                   (enriched_columns execution_ts payload n ts (payload_hourly payload))).
Proof.
  intros Hok.
  destruct (enrich_raw_data_inv _ _ _ Hok) as [n [times [ts [Hu [Htime [Hts Hmet]]]]]].
  destruct (enrich_raw_data_ok execution_ts payload n times ts Hu Htime Hts Hmet)
    as [Hn [_ Heq]].
  exists n, times, ts. repeat (split; [assumption|]). congruence.
Qed.

(** X6. The clock reading shows in the execution_time column only, and as
    one value for every row: read at another instant, the transform raises
    the same exception or returns a frame of the same length whose other
    columns are the same. *)
Theorem enrich_raw_data_clock (now1 now2 : datetime) (payload : Payload) :
  (forall e, enrich_raw_data now1 payload COLUMN_ORDER = Raise e ->
             enrich_raw_data now2 payload COLUMN_ORDER = Raise e)
  /\ (forall d1, enrich_raw_data now1 payload COLUMN_ORDER = Ok d1 ->
      exists d2,
        enrich_raw_data now2 payload COLUMN_ORDER = Ok d2
        /\ len d2 = len d1
        /\ (forall name, name <> "execution_time" ->
              dict_get name (df_columns d2) = dict_get name (df_columns d1))
        /\ dict_get "execution_time" (df_columns d1)
           = Some (repeat (VTimestamp now1) (len d1))
        /\ dict_get "execution_time" (df_columns d2)
           = Some (repeat (VTimestamp now2) (len d2))).
Proof.
  assert (Hok : forall a b d, enrich_raw_data a payload COLUMN_ORDER = Ok d ->
            exists d', enrich_raw_data b payload COLUMN_ORDER = Ok d'
              /\ len d' = len d
              /\ (forall name, name <> "execution_time" ->
                    dict_get name (df_columns d') = dict_get name (df_columns d))
              /\ dict_get "execution_time" (df_columns d)
                 = Some (repeat (VTimestamp a) (len d))
              /\ dict_get "execution_time" (df_columns d')
                 = Some (repeat (VTimestamp b) (len d'))).
  { intros a b d Hd.
    destruct (enrich_raw_data_frame _ _ _ Hd)
      as [n [times [ts [Hu [Htime [Hts [Hmet [Hn ->]]]]]]]].
    destruct (enrich_raw_data_ok b payload n times ts Hu Htime Hts Hmet) as [_ [_ Hb]].
    eexists. split; [exact Hb|]. unfold len, enriched_columns.
    cbn [df_len df_columns map fst snd].
    assert (Hrep : forall v : value,
              map (fun i => nth i (repeat v n) VNone) (kept_positions (first_mask ts))
              = repeat v (List.length (kept_positions (first_mask ts)))).
    { intros v. apply map_nth_repeat_keep. intros i Hi.
      rewrite <- Hn. apply kept_positions_bound, Hi. }
    split; [reflexivity|]. split; [|split].
    - intros name Hname. cbn [dict_get].
      repeat match goal with
             | |- context [String.eqb ?k name] =>
                 let E := fresh "E" in
                 destruct (String.eqb k name) eqn:E;
                   [try reflexivity; apply String.eqb_eq in E; congruence|]
             end.
      reflexivity.
    - cbn [dict_get String.eqb Ascii.eqb Bool.eqb]. rewrite Hrep. reflexivity.
    - cbn [dict_get String.eqb Ascii.eqb Bool.eqb]. rewrite Hrep. reflexivity. }
  split; [|intros d1; apply Hok].
  intros e He. destruct (enrich_raw_data now2 payload COLUMN_ORDER) as [d2|e2] eqn:E2.
  - destruct (Hok now2 now1 d2 E2) as [d1 [H1 _]]. rewrite He in H1. discriminate.
  - rewrite enrich_raw_data_eq in He, E2.
    destruct (DataFrame_from_dict (payload_hourly payload)) as [df0|e0];
      [|cbn [bind] in He, E2; congruence].
    cbn [bind] in He, E2.
    destruct (getitem df0 "time") as [times|e0];
      [|cbn [bind] in He, E2; congruence].
    cbn [bind] in He, E2.
    destruct (to_datetime times) as [ts|e0];
      [|cbn [bind] in He, E2; congruence].
    cbn [bind] in He, E2.
    destruct (missing_metrics (df_columns df0)); [|congruence].
    unfold drop_duplicates, getitem, enriched_columns in He.
    cbn [mapM df_columns dict_get String.eqb Ascii.eqb Bool.eqb bind] in He.
    discriminate.
Qed.

Lemma enrich_raw_data_clock_witness :
  exists d2,
    enrich_raw_data test_later test_payload COLUMN_ORDER = Ok d2
    /\ len d2 = len sample_frame
    /\ (forall name, name <> "execution_time" ->
          dict_get name (df_columns d2) = dict_get name (df_columns sample_frame))
    /\ dict_get "execution_time" (df_columns sample_frame)
       = Some (repeat (VTimestamp test_now) (len sample_frame))
    /\ dict_get "execution_time" (df_columns d2)
       = Some (repeat (VTimestamp test_later) (len d2)).
Proof.
  apply (proj2 (enrich_raw_data_clock test_now test_later test_payload) sample_frame).
  reflexivity.
Defined.

(** ** The rows a transformed frame brings to the table *)

Lemma mapM_raise_inv {A B} (f : A -> result B) (l : list A) (e : exn) :
  mapM f l = Raise e -> exists a, In a l /\ f a = Raise e.
Proof.
  induction l as [|a l IH]; simpl; intros H; [discriminate|].
  destruct (f a) as [b|e'] eqn:E; cbn [bind] in H.
  - destruct (mapM f l) as [bs|e'']; cbn [bind] in H; [discriminate|].
    destruct (IH H) as [x [Hx Hf]]. eauto.
  - injection H as <-. eauto.
Qed.

Lemma mapM_raise_In {A B} (f : A -> result B) (l : list A) (a : A) (e : exn) :
  In a l -> f a = Raise e -> exists e', mapM f l = Raise e'.
Proof.
  intros Ha Hf. destruct (mapM f l) as [bs|e'] eqn:E; [|eauto].
  exfalso. revert bs E. induction l as [|x l IH]; simpl; intros bs E; [contradiction|].
  destruct (f x) as [b|e'] eqn:Ex; cbn [bind] in E; [|discriminate].
  destruct (mapM f l) as [bs'|e']; cbn [bind] in E; [|discriminate].
  destruct Ha as [->|Ha]; [congruence|]. exact (IH Ha bs' eq_refl).
Qed.

Lemma mapM_In_image {A B} (f : A -> result B) (l : list A) (l' : list B) (a : A) :
  mapM f l = Ok l' -> In a l -> exists b, In b l' /\ f a = Ok b.
Proof.
  revert l'. induction l as [|x l IH]; simpl; intros l' H Ha; [contradiction|].
  destruct (f x) as [b|e] eqn:Ex; cbn [bind] in H; [|discriminate].
  destruct (mapM f l) as [bs|e]; cbn [bind] in H; [|discriminate].
  injection H as <-. destruct Ha as [->|Ha].
  - exists b. split; [left; reflexivity | exact Ex].
  - destruct (IH bs eq_refl Ha) as [b' [Hb' Hf]]. exists b'. split; [right|]; assumption.
Qed.

Lemma load_dataframe_cases (t : table) (df : DataFrame) (columns : list string) :
  load_dataframe (Some t) df columns =
    match incoming_rows df columns with
    | Raise e => (Some t, Raise e)
    | Ok rs => (Some (fold_upsert rs t), Ok (List.length (fold_upsert rs t)))
    end.
Proof.
  unfold load_dataframe, incoming_rows, insert_or_replace.
  destruct (getitem_list df columns) as [p|e]; cbn [bind]; [|reflexivity].
  destruct (mapM row_of_values (frame_rows p)) as [rs|e]; reflexivity.
Qed.

(** The cells of a frame the transform returns. *)
Lemma enrich_raw_data_cells (execution_ts : datetime) (payload : Payload) (df : DataFrame) :
  enrich_raw_data execution_ts payload COLUMN_ORDER = Ok df ->
  NoDup (map (cell df "time") (seq 0 (len df)))
  /\ forall i, i < len df ->
       datetime_like (cell df "time" i)
       /\ (exists j, cell df "pm10" i = of_json j)
       /\ (exists j, cell df "pm2_5" i = of_json j)
       /\ (exists j, cell df "uv_index" i = of_json j)
       /\ cell df "latitude" i = payload_get payload "latitude"
       /\ cell df "longitude" i = payload_get payload "longitude"
       /\ cell df "timezone" i = payload_get payload "timezone"
       /\ cell df "city" i = VStr CITY
       /\ cell df "date" i = date_of_cell (cell df "time" i)
       /\ cell df "execution_time" i = VTimestamp execution_ts.
Proof.
  intros Hdf.
  destruct (enrich_raw_data_frame _ _ _ Hdf)
    as [n [times [ts [Hu [Htime [Hts [Hmet [Hn ->]]]]]]]].
  pose proof (to_datetime_datetime_like _ _ Hts) as Hlike.
  set (kept := kept_positions (first_mask ts)).
  assert (Hrep : forall v : value,
            map (fun i => nth i (repeat v n) VNone) kept = repeat v (List.length kept)).
  { intros v. apply map_nth_repeat_keep. intros i Hi.
    rewrite <- Hn. apply kept_positions_bound, Hi. }
  assert (Hjson : forall m,
            Forall (fun v => exists j, v = of_json j)
              (column_or_empty (payload_hourly payload) m)).
  { intros m. unfold column_or_empty. rewrite dict_get_payload_hourly.
    destruct (dict_get m (hourly payload)) as [c|]; [|constructor].
    cbn [option_map]. apply Forall_map, Forall_forall. intros j _. eauto. }
  assert (Hdate : map (fun k => nth k (map date_of_cell ts) VNone) kept
                  = map date_of_cell (map (fun k => nth k ts VNone) kept)).
  { rewrite map_map. apply map_ext. intros k.
    change VNone with (date_of_cell VNone) at 1. apply map_nth. }
  unfold len, cell, column_or_empty, enriched_columns.
  cbn [df_len df_columns map fst snd dict_get String.eqb Ascii.eqb Bool.eqb].
  split.
  - rewrite <- (length_map (fun k => nth k ts VNone) kept) at 1.
    rewrite (map_seq_nth (fun v => v) VNone), map_id.
    apply kept_values_NoDup, Hlike.
  - intros i Hi. rewrite !Hrep, Hdate, !nth_repeat_lt by exact Hi.
    repeat split.
    + apply nth_Forall_default; [left; reflexivity|].
      apply Forall_map_nth; [left; reflexivity | exact Hlike].
    + apply (nth_Forall_default (fun v => exists j, v = of_json j));
        [exists JNull; reflexivity|].
      apply Forall_map_nth; [exists JNull; reflexivity | apply Hjson].
    + apply (nth_Forall_default (fun v => exists j, v = of_json j));
        [exists JNull; reflexivity|].
      apply Forall_map_nth; [exists JNull; reflexivity | apply Hjson].
    + apply (nth_Forall_default (fun v => exists j, v = of_json j));
        [exists JNull; reflexivity|].
      apply Forall_map_nth; [exists JNull; reflexivity | apply Hjson].
    + exact (map_nth date_of_cell (map (fun k => nth k ts VNone) kept) VNone i).
Qed.

(** What the insert makes of row [i] of a transformed frame: a row, or one
    of two exceptions. *)
Lemma row_by_name_transformed (execution_ts : datetime) (payload : Payload)
    (df : DataFrame) (i : nat) :
  enrich_raw_data execution_ts payload COLUMN_ORDER = Ok df -> i < len df ->
  (exists r, row_by_name df i = Ok r)
  \/ (row_by_name df i = Raise ConstraintException /\ cell df "time" i = VNone)
  \/ (row_by_name df i = Raise ConversionException
      /\ ((exists m s, In m ["pm10"; "pm2_5"; "uv_index"; "latitude"; "longitude"]
                       /\ cell df m i = VStr s)
          \/ exists x, cell df "timezone" i = VFloat x)).
Proof.
  intros Hdf Hi.
  destruct (proj2 (enrich_raw_data_cells _ _ _ Hdf) i Hi)
    as [Htime [[j1 H1] [[j2 H2] [[j3 H3] [Hlat [Hlon [Htz [Hcity [Hdate Hexec]]]]]]]]].
  unfold row_by_name. rewrite Hdate, Hcity, Hexec.
  destruct Htime as [E0|[t0 E0]]; rewrite E0; cbn [cast_timestamptz not_null bind];
    [right; left; split; reflexivity|].
  assert (Hstr : forall m s, In m ["pm10"; "pm2_5"; "uv_index"; "latitude"; "longitude"] ->
            cell df m i = VStr s ->
            (exists m s, In m ["pm10"; "pm2_5"; "uv_index"; "latitude"; "longitude"]
                         /\ cell df m i = VStr s)
            \/ exists x, cell df "timezone" i = VFloat x)
    by (intros m s Hm E; left; exists m, s; split; assumption).
  destruct j1 as [|x1|s1]; cbn [of_json] in H1;
    [| |right; right; rewrite H1; split;
        [reflexivity | apply (Hstr "pm10" s1); [simpl; tauto | exact H1]]];
    rewrite H1; cbn [cast_double bind].
  all: destruct j2 as [|x2|s2]; cbn [of_json] in H2;
    [| |right; right; rewrite H2; split;
        [reflexivity | apply (Hstr "pm2_5" s2); [simpl; tauto | exact H2]]];
    rewrite H2; cbn [cast_double bind].
  all: destruct j3 as [|x3|s3]; cbn [of_json] in H3;
    [| |right; right; rewrite H3; split;
        [reflexivity | apply (Hstr "uv_index" s3); [simpl; tauto | exact H3]]];
    rewrite H3; cbn [cast_double bind].
  all: destruct (payload_get_cases payload "latitude") as [E4|[[x4 E4]|[s4 E4]]];
    rewrite E4 in Hlat;
    [| |right; right; rewrite Hlat; split;
        [reflexivity | apply (Hstr "latitude" s4); [simpl; tauto | exact Hlat]]];
    rewrite Hlat; cbn [cast_double bind].
  all: destruct (payload_get_cases payload "longitude") as [E5|[[x5 E5]|[s5 E5]]];
    rewrite E5 in Hlon;
    [| |right; right; rewrite Hlon; split;
        [reflexivity | apply (Hstr "longitude" s5); [simpl; tauto | exact Hlon]]];
    rewrite Hlon; cbn [cast_double bind].
  all: destruct (payload_get_cases payload "timezone") as [E6|[[x6 E6]|[s6 E6]]];
    rewrite E6 in Htz;
    [|right; right; split; [rewrite Htz; reflexivity | right; exists x6; exact Htz]|];
    rewrite Htz; cbn [cast_varchar cast_date cast_timestamp date_of_cell bind];
    left; eexists; reflexivity.
Qed.

(** The rows of a transformed frame have distinct keys. *)
Lemma transformed_rows_NoDup (execution_ts : datetime) (payload : Payload)
    (df : DataFrame) (rs : list row) :
  enrich_raw_data execution_ts payload COLUMN_ORDER = Ok df ->
  incoming_rows df COLUMN_ORDER = Ok rs -> NoDup (keys_of rs).
Proof.
  intros Hdf Hrs. apply incoming_rows_by_name in Hrs.
  apply (NoDup_map_inv (fun k => VTimestamp k)). unfold keys_of. rewrite map_map.
  rewrite (rows_by_name_times df _ rs Hrs).
  exact (proj1 (enrich_raw_data_cells _ _ _ Hdf)).
Qed.

(** X7. Loading a frame the transform returned fails in two ways only, and
    then leaves the table as it was: with a [ConstraintException] when the
    time of a row is missing, or with a [ConversionException] when a metric,
    the latitude or the longitude is a string or the timezone a number.
    The projection, the positional binding and the keys of the batch never
    fail. *)
Theorem load_dataframe_transformed_failure (execution_ts : datetime) (payload : Payload)
    (df : DataFrame) (t : table) (db' : database) (e : exn) :
  enrich_raw_data execution_ts payload COLUMN_ORDER = Ok df ->
  load_dataframe (Some t) df COLUMN_ORDER = (db', Raise e) ->
  db' = Some t
  /\ exists i, i < len df
       /\ ((e = ConstraintException /\ cell df "time" i = VNone)
           \/ (e = ConversionException
               /\ ((exists m s,
                      In m ["pm10"; "pm2_5"; "uv_index"; "latitude"; "longitude"]
                      /\ cell df m i = VStr s)
                   \/ exists x, cell df "timezone" i = VFloat x))).
Proof.
  intros Hdf Hload. split; [exact (load_dataframe_failure _ _ _ _ _ Hload)|].
  rewrite load_dataframe_cases in Hload.
  pose proof (getitem_list_canonical df (enrich_raw_data_keys _ _ _ Hdf)) as Hproj.
  destruct (incoming_rows df COLUMN_ORDER) as [rs|e'] eqn:Hrs.
  - discriminate.
  - injection Hload as _ <-. rewrite (incoming_rows_eq df df Hproj) in Hrs.
    destruct (mapM_raise_inv _ _ _ Hrs) as [i [Hi Hrow]].
    apply in_seq in Hi. exists i. split; [unfold len; lia|].
    destruct (row_by_name_transformed execution_ts payload df i Hdf) as [[r H]|[[H Ht]|[H Hc]]];
      [unfold len; lia | congruence | left | right].
    + split; [congruence | exact Ht].
    + split; [congruence | exact Hc].
Qed.

(** X8. A null in the time array passes the transform unnoticed, but its
    row never reaches the table: the load of the frame raises and the table
    stays as it was. *)
Theorem load_dataframe_null_time (execution_ts : datetime) (payload : Payload)
    (times : list json) (df : DataFrame) (t : table) :
  dict_get "time" (hourly payload) = Some times ->
  In JNull times ->
  enrich_raw_data execution_ts payload COLUMN_ORDER = Ok df ->
  In VNone (column_or_empty (df_columns df) "time")
  /\ exists e, load_dataframe (Some t) df COLUMN_ORDER = (Some t, Raise e).
Proof.
  intros Htime Hnull Hdf.
  destruct (enrich_raw_data_frame _ _ _ Hdf)
    as [n [times' [ts [Hu [Htime' [Hts [Hmet [Hn Edf]]]]]]]].
  assert (times' = times) by congruence. subst times'.
  pose proof (to_datetime_datetime_like _ _ Hts) as Hlike.
  assert (Hin : In VNone ts).
  { unfold to_datetime in Hts.
    destruct (mapM_In_image _ _ _ VNone Hts) as [b [Hb E]];
      [apply in_map_iff; exists JNull; split; [reflexivity | exact Hnull]|].
    cbn [to_datetime1] in E. injection E as <-. exact Hb. }
  destruct (first_occurrence_exists ts VNone Hin) as [k [Hk Ek]].
  apply (kept_positions_In ts k Hlike) in Hk.
  destruct (In_nth _ _ 0 Hk) as [q [Hq Eq]].
  assert (Hcell : cell df "time" q = VNone).
  { subst df. unfold cell, column_or_empty, enriched_columns.
    cbn [df_columns map fst snd dict_get String.eqb Ascii.eqb Bool.eqb].
    rewrite (nth_indep _ VNone (nth 0 ts VNone)) by (rewrite length_map; exact Hq).
    rewrite (map_nth (fun k => nth k ts VNone)), Eq. exact Ek. }
  assert (Hlen : q < len df) by (subst df; exact Hq).
  split.
  - rewrite <- Hcell. unfold cell. apply nth_In.
    subst df. unfold column_or_empty, enriched_columns.
    cbn [df_columns map fst snd dict_get String.eqb Ascii.eqb Bool.eqb].
    rewrite length_map. exact Hq.
  - rewrite load_dataframe_cases.
    pose proof (getitem_list_canonical df (enrich_raw_data_keys _ _ _ Hdf)) as Hproj.
    rewrite (incoming_rows_eq df df Hproj).
    assert (Hrow : row_by_name df q = Raise ConstraintException).
    { unfold row_by_name. rewrite Hcell. reflexivity. }
    destruct (mapM_raise_In (row_by_name df) (seq 0 (df_len df)) q ConstraintException)
      as [e' ->]; [apply in_seq; unfold len in Hlen; lia | exact Hrow |].
    eauto.
Qed.

Lemma row_by_name_inv (df : DataFrame) (i : nat) (r : row) :
  row_by_name df i = Ok r ->
  cell df "time" i = VTimestamp (r_time r)
  /\ cast_double (cell df "pm10" i) = Ok (r_pm10 r)
  /\ cast_double (cell df "pm2_5" i) = Ok (r_pm2_5 r)
  /\ cast_double (cell df "uv_index" i) = Ok (r_uv_index r)
  /\ cast_double (cell df "latitude" i) = Ok (r_latitude r)
  /\ cast_double (cell df "longitude" i) = Ok (r_longitude r)
  /\ cast_varchar (cell df "timezone" i) = Ok (r_timezone r)
  /\ cast_varchar (cell df "city" i) = Ok (r_city r)
  /\ cast_date (cell df "date" i) = Ok (r_date r)
  /\ cast_timestamp (cell df "execution_time" i) = Ok (r_execution_time r).
Proof.
  intros H. split; [exact (row_by_name_time df i r H)|]. revert H. unfold row_by_name.
  destruct (bind (cast_timestamptz (cell df "time" i)) not_null) as [x0|]; [|discriminate].
  cbn [bind].
  destruct (cast_double (cell df "pm10" i)) as [x1|]; [|discriminate]. cbn [bind].
  destruct (cast_double (cell df "pm2_5" i)) as [x2|]; [|discriminate]. cbn [bind].
  destruct (cast_double (cell df "uv_index" i)) as [x3|]; [|discriminate]. cbn [bind].
  destruct (cast_double (cell df "latitude" i)) as [x4|]; [|discriminate]. cbn [bind].
  destruct (cast_double (cell df "longitude" i)) as [x5|]; [|discriminate]. cbn [bind].
  destruct (cast_varchar (cell df "timezone" i)) as [x6|]; [|discriminate]. cbn [bind].
  destruct (cast_varchar (cell df "city" i)) as [x7|]; [|discriminate]. cbn [bind].
  destruct (cast_date (cell df "date" i)) as [x8|]; [|discriminate]. cbn [bind].
  destruct (cast_timestamp (cell df "execution_time" i)) as [x9|]; [|discriminate].
  cbn [bind]. intros H. injection H as <-. cbn. repeat split.
Qed.

Lemma transformed_rows_stamped (execution_ts : datetime) (payload : Payload)
    (df : DataFrame) (rs : list row) :
  enrich_raw_data execution_ts payload COLUMN_ORDER = Ok df ->
  incoming_rows df COLUMN_ORDER = Ok rs ->
  Forall (stamped execution_ts payload) rs.
Proof.
  intros Hdf Hrs. apply incoming_rows_by_name in Hrs. apply Forall_forall. intros r Hr.
  destruct (mapM_In _ _ _ r Hrs Hr) as [i [Hi Hrow]]. apply in_seq in Hi.
  destruct (proj2 (enrich_raw_data_cells _ _ _ Hdf) i) as
    [_ [_ [_ [_ [Hlat [Hlon [Htz [Hcity [Hdate Hexec]]]]]]]]]; [unfold len; lia|].
  destruct (row_by_name_inv df i r Hrow) as
    [E0 [_ [_ [_ [E4 [E5 [E6 [E7 [E8 E9]]]]]]]]].
  rewrite Hlat in E4. rewrite Hlon in E5. rewrite Htz in E6. rewrite Hcity in E7.
  rewrite Hdate, E0 in E8. rewrite Hexec in E9. cbn in E7, E8, E9.
  unfold stamped. repeat split; congruence.
Qed.

Lemma In_upsert_old (r x : row) (t : table) : In x (upsert r t) -> x = r \/ In x t.
Proof.
  induction t as [|r' t IH]; simpl; [intros [<-|[]]; auto|].
  destruct (datetime_eqb (r_time r') (r_time r)); simpl; intros [<-|H]; auto.
  destruct (IH H); auto.
Qed.

Lemma In_fold_upsert_old (rs : list row) (t : table) (x : row) :
  In x (fold_upsert rs t) -> In x rs \/ In x t.
Proof.
  revert t. induction rs as [|r rs IH]; intros t H; [right; exact H|].
  destruct (IH _ H) as [Hx|Hx]; [left; right; exact Hx|].
  destruct (In_upsert_old _ _ _ Hx) as [->|Ht]; [left; left; reflexivity | right; exact Ht].
Qed.

(** X9. After a frame of the transform has been loaded, every row of the
    table is a row that was there before or a row of the batch, and a row
    of the batch carries what the transform derived: the calendar date
    (UTC) of its own time, the city, the location of the payload, and the
    reading of the clock, which the [TIMESTAMP] column [execution_time]
    holds as local time in the zone of the session that ran the load. *)
Theorem load_dataframe_stamps (execution_ts : datetime) (payload : Payload)
    (df : DataFrame) (t t' : table) (n : nat) :
  enrich_raw_data execution_ts payload COLUMN_ORDER = Ok df ->
  load_dataframe (Some t) df COLUMN_ORDER = (Some t', Ok n) ->
  (forall r, In r t' -> In r t \/ stamped execution_ts payload r)
  /\ (0 < len df -> exists r, In r t' /\ stamped execution_ts payload r).
Proof.
  intros Hdf Hload.
  destruct (load_dataframe_inv _ _ _ _ _ Hload) as [rs [Hrs [Hdb _]]].
  injection Hdb as ->.
  pose proof (transformed_rows_NoDup _ _ _ _ Hdf Hrs) as Hnd.
  pose proof (transformed_rows_stamped _ _ _ _ Hdf Hrs) as Hst.
  rewrite Forall_forall in Hst. split.
  - intros r Hr. destruct (In_fold_upsert_old _ _ _ Hr) as [H|H]; [right|left]; auto.
  - intros Hlen. rewrite <- (incoming_rows_length _ _ _ Hrs) in Hlen.
    destruct rs as [|r rs]; [inversion Hlen|]. exists r. split.
    + apply In_fold_upsert_new; [exact Hnd | left; reflexivity].
    + apply Hst. left. reflexivity.
Qed.

(** ** Loading the same hours again *)

Lemma map_VTimestamp_inj (l1 l2 : list datetime) :
  map VTimestamp l1 = map VTimestamp l2 -> l1 = l2.
Proof.
  revert l2. induction l1 as [|a l1 IH]; intros [|b l2] H; try discriminate H;
    [reflexivity|].
  simpl in H. injection H as -> H. f_equal. apply IH, H.
Qed.

(** Two frames of the transform built from the same time array hold the
    same times. *)
Lemma enrich_raw_data_same_times (now1 now2 : datetime) (p1 p2 : Payload)
    (d1 d2 : DataFrame) :
  dict_get "time" (hourly p1) = dict_get "time" (hourly p2) ->
  enrich_raw_data now1 p1 COLUMN_ORDER = Ok d1 ->
  enrich_raw_data now2 p2 COLUMN_ORDER = Ok d2 ->
  len d1 = len d2
  /\ map (cell d1 "time") (seq 0 (len d1)) = map (cell d2 "time") (seq 0 (len d2)).
Proof.
  intros Htimes H1 H2.
  destruct (enrich_raw_data_frame _ _ _ H1) as [n1 [times1 [ts1 [_ [Ht1 [Hts1 [_ [_ ->]]]]]]]].
  destruct (enrich_raw_data_frame _ _ _ H2) as [n2 [times2 [ts2 [_ [Ht2 [Hts2 [_ [_ ->]]]]]]]].
  assert (times1 = times2) by congruence. subst times2.
  assert (ts1 = ts2) by congruence. subst ts2.
  unfold len, cell, column_or_empty, enriched_columns.
  cbn [df_len df_columns map fst snd dict_get String.eqb Ascii.eqb Bool.eqb].
  split; reflexivity.
Qed.

(** X10. Loading the same hours again overwrites.  When two frames of the
    transform come from payloads with the same time array (the same
    payload at a later reading of the clock, or a corrected payload), a
    load of the second after a load of the first leaves the table and
    returns the count that a load of the second alone would have: nothing
    of the first load remains. *)
Theorem load_dataframe_overwrite (now1 now2 : datetime) (p1 p2 : Payload)
    (d1 d2 : DataFrame) (db db2 : database) (n : nat) :
  dict_get "time" (hourly p1) = dict_get "time" (hourly p2) ->
  enrich_raw_data now1 p1 COLUMN_ORDER = Ok d1 ->
  enrich_raw_data now2 p2 COLUMN_ORDER = Ok d2 ->
  load_dataframe db d2 COLUMN_ORDER = (db2, Ok n) ->
  load_dataframe (fst (load_dataframe db d1 COLUMN_ORDER)) d2 COLUMN_ORDER = (db2, Ok n).
Proof.
  intros Htimes H1 H2 Hload.
  destruct db as [t|].
  2:{ unfold load_dataframe in Hload.
      destruct (getitem_list d2 COLUMN_ORDER); discriminate. }
  destruct (load_dataframe_inv _ _ _ _ _ Hload) as [rs2 [Hrs2 [-> ->]]].
  rewrite (load_dataframe_cases t d1).
  destruct (incoming_rows d1 COLUMN_ORDER) as [rs1|e1] eqn:Hrs1;
    [|apply load_dataframe_ok; assumption].
  cbn [fst]. rewrite (load_dataframe_ok _ d2 COLUMN_ORDER rs2 Hrs2).
  assert (Hk : keys_of rs1 = keys_of rs2).
  { apply map_VTimestamp_inj. unfold keys_of. rewrite !map_map.
    rewrite (rows_by_name_times d1 _ rs1 (incoming_rows_by_name _ _ Hrs1)).
    rewrite (rows_by_name_times d2 _ rs2 (incoming_rows_by_name _ _ Hrs2)).
    exact (proj2 (enrich_raw_data_same_times _ _ _ _ _ _ Htimes H1 H2)). }
  rewrite (fold_upsert_overwrite rs1 rs2 t Hk); [reflexivity|].
  exact (transformed_rows_NoDup _ _ _ _ H1 Hrs1).
Qed.

(** ** From the enrich task to the load task *)

(** The frame of the transform with its sub-second components dropped is
    the frame of the transform at the reading cut to the whole second. *)
Lemma truncate_subsecond_transformed (execution_ts : datetime) (payload : Payload)
    (df : DataFrame) :
  enrich_raw_data execution_ts payload COLUMN_ORDER = Ok df ->
  enrich_raw_data (truncate_seconds execution_ts) payload COLUMN_ORDER
  = Ok (truncate_subsecond df).
Proof.
  intros Hdf.
  destruct (enrich_raw_data_frame _ _ _ Hdf)
    as [n [times [ts [Hu [Htime [Hts [Hmet [Hn ->]]]]]]]].
  destruct (enrich_raw_data_ok (truncate_seconds execution_ts) payload n times ts
              Hu Htime Hts Hmet) as [_ [_ ->]].
  destruct (to_datetime_json _ _ Hts) as [_ Hwhole].
  f_equal. unfold truncate_subsecond, enriched_columns.
  cbn [df_len df_columns map fst snd String.eqb Ascii.eqb Bool.eqb orb].
  rewrite truncate_cell_whole
    by (apply Forall_map_nth; [intros t Ht; discriminate | exact Hwhole]).
  rewrite map_map.
  rewrite (map_ext (fun i => truncate_cell (nth i (repeat (VTimestamp execution_ts) n) VNone))
             (fun i => nth i (repeat (VTimestamp (truncate_seconds execution_ts)) n) VNone))
    by (intros i;
        exact (nth_repeat_default (VTimestamp execution_ts) VNone n i truncate_cell eq_refl)).
  reflexivity.
Qed.

Lemma enrich_from_records (execution_ts : datetime) (payload : Payload) (df : DataFrame) :
  valid_datetime execution_ts = true ->
  enrich_raw_data execution_ts payload COLUMN_ORDER = Ok df ->
  0 < len df ->
  exists records,
    enrich execution_ts payload = Ok records
    /\ List.length records = len df
    /\ from_records records
       = enrich_raw_data (truncate_seconds execution_ts) payload COLUMN_ORDER.
Proof.
  intros Hnow Hdf Hlen.
  destruct (enrich_raw_data_enriched_batch _ _ _ Hnow Hdf) as [Hb _].
  destruct (records_roundtrip df Hb Hlen) as [records [H1 [H2 H3]]].
  exists records. split; [unfold enrich; rewrite Hdf; exact H1|].
  split; [exact H2|]. rewrite H3. symmetry.
  apply truncate_subsecond_transformed, Hdf.
Qed.

(** The same for any frame of the transform whose times are on whole
    seconds, whatever spelling they were parsed from. *)
Lemma truncate_subsecond_whole_times (execution_ts : datetime) (payload : Payload)
    (df : DataFrame) :
  enrich_raw_data execution_ts payload COLUMN_ORDER = Ok df ->
  Forall whole_second_cell (column_or_empty (df_columns df) "time") ->
  enrich_raw_data (truncate_seconds execution_ts) payload COLUMN_ORDER
  = Ok (truncate_subsecond df).
Proof.
  intros Hdf.
  destruct (enrich_raw_data_frame _ _ _ Hdf)
    as [n [times [ts [Hu [Htime [Hts [Hmet [Hn ->]]]]]]]].
  intros Hwhole.
  destruct (enrich_raw_data_ok (truncate_seconds execution_ts) payload n times ts
              Hu Htime Hts Hmet) as [_ [_ ->]].
  unfold column_or_empty, enriched_columns in Hwhole.
  cbn [df_columns map fst snd dict_get String.eqb Ascii.eqb Bool.eqb] in Hwhole.
  f_equal. unfold truncate_subsecond, enriched_columns.
  cbn [df_len df_columns map fst snd String.eqb Ascii.eqb Bool.eqb orb].
  rewrite truncate_cell_whole by exact Hwhole.
  rewrite map_map.
  rewrite (map_ext (fun i => truncate_cell (nth i (repeat (VTimestamp execution_ts) n) VNone))
             (fun i => nth i (repeat (VTimestamp (truncate_seconds execution_ts)) n) VNone))
    by (intros i;
        exact (nth_repeat_default (VTimestamp execution_ts) VNone n i truncate_cell eq_refl)).
  reflexivity.
Qed.

(** X11. The enrich task prints its timestamps to the second, so the load
    task does not see the frame of the transform.  Whenever that frame has
    a row and its times are on whole seconds, as the hours of the API are,
    the load task rebuilds exactly the frame the transform returns at the
    reading of the clock cut to the whole second: one record for each row,
    the times, dates and every other column unchanged, the sub-second part
    of execution_time lost. *)
Theorem enrich_load_handover (execution_ts : datetime) (payload : Payload)
    (df : DataFrame) :
  valid_datetime execution_ts = true ->
  enrich_raw_data execution_ts payload COLUMN_ORDER = Ok df ->
  0 < len df ->
  Forall whole_second_cell (column_or_empty (df_columns df) "time") ->
  exists records df',
    enrich execution_ts payload = Ok records
    /\ List.length records = len df
    /\ from_records records = Ok df'
    /\ enrich_raw_data (truncate_seconds execution_ts) payload COLUMN_ORDER = Ok df'
    /\ len df' = len df
    /\ (forall name, name <> "execution_time" ->
          dict_get name (df_columns df') = dict_get name (df_columns df))
    /\ dict_get "execution_time" (df_columns df')
       = Some (repeat (VTimestamp (truncate_seconds execution_ts)) (len df)).
Proof.
  intros Hnow Hdf Hlen Hwhole.
  destruct (enrich_raw_data_enriched_batch _ _ _ Hnow Hdf) as [Hb _].
  destruct (records_roundtrip df Hb Hlen) as [records [H1 [H2 H3]]].
  pose proof (truncate_subsecond_whole_times _ _ _ Hdf Hwhole) as Htr.
  exists records, (truncate_subsecond df).
  split; [unfold enrich; rewrite Hdf; exact H1|]. split; [exact H2|].
  split; [exact H3|]. split; [exact Htr|]. clear Hb H1 H3 Htr.
  destruct (enrich_raw_data_frame _ _ _ Hdf)
    as [n [times [ts [Hu [Htime [Hts [Hmet [Hn ->]]]]]]]].
  unfold column_or_empty, enriched_columns in Hwhole.
  cbn [df_columns map fst snd dict_get String.eqb Ascii.eqb Bool.eqb] in Hwhole.
  unfold truncate_subsecond, len, enriched_columns.
  cbn [df_len df_columns map fst snd String.eqb Ascii.eqb Bool.eqb orb].
  split; [reflexivity|]. split.
  - intros name Hname. cbn [dict_get].
    rewrite truncate_cell_whole by exact Hwhole.
    repeat match goal with
           | |- context [String.eqb ?k name] =>
               let E := fresh "E" in
               destruct (String.eqb k name) eqn:E;
                 [try reflexivity; apply String.eqb_eq in E; congruence|]
           end.
    reflexivity.
  - cbn [dict_get String.eqb Ascii.eqb Bool.eqb].
    rewrite map_nth_repeat_keep
      by (intros i Hi; rewrite <- Hn; apply kept_positions_bound, Hi).
    rewrite map_repeat. reflexivity.
Qed.

Lemma enrich_load_handover_witness :
  Forall whole_second_cell (column_or_empty (df_columns sample_frame) "time")
  /\ exists records df',
    enrich test_now test_payload = Ok records
    /\ List.length records = len sample_frame
    /\ from_records records = Ok df'
    /\ enrich_raw_data (truncate_seconds test_now) test_payload COLUMN_ORDER = Ok df'
    /\ len df' = len sample_frame
    /\ (forall name, name <> "execution_time" ->
          dict_get name (df_columns df') = dict_get name (df_columns sample_frame))
    /\ dict_get "execution_time" (df_columns df')
       = Some (repeat (VTimestamp (truncate_seconds test_now)) (len sample_frame)).
Proof.
  assert (Hw : Forall whole_second_cell (column_or_empty (df_columns sample_frame) "time"))
    by (repeat constructor; intros t Ht; injection Ht as <-; reflexivity).
  split; [exact Hw|].
  apply (enrich_load_handover test_now test_payload sample_frame).
  - reflexivity.
  - reflexivity.
  - unfold len. simpl. lia.
  - exact Hw.
Defined.

(** ** A run of the DAG *)

Lemma bind_raise {A B} (r : result A) (k : A -> result B) (e : exn) :
  bind r k = Raise e -> r = Raise e \/ exists a, r = Ok a /\ k a = Raise e.
Proof.
  destruct r as [a|e']; simpl; intros H; [right; eauto|].
  left. injection H as <-. reflexivity.
Qed.

Lemma getitem_raise (df : DataFrame) (name : string) (e : exn) :
  getitem df name = Raise e -> pandas_error e.
Proof.
  unfold getitem. destruct (dict_get name (df_columns df)); [discriminate|].
  intros H. injection H as <-. exact I.
Qed.

Lemma to_datetime_raise (col : list value) (e : exn) :
  to_datetime col = Raise e -> pandas_error e.
Proof.
  intros H. destruct (mapM_raise_inv _ _ _ H) as [v [_ Hv]].
  destruct v as [|x|s|t|d]; simpl in Hv; try discriminate.
  - injection Hv as <-. exact I.
  - destruct (String.eqb s "NaT"); [discriminate|].
    destruct (parse_iso8601 s); [discriminate|]. injection Hv as <-. exact I.
Qed.

Lemma dt_accessor_raise (f : datetime -> value) (col : list value) (e : exn) :
  dt_accessor f col = Raise e -> pandas_error e.
Proof.
  intros H. destruct (mapM_raise_inv _ _ _ H) as [v [_ Hv]].
  destruct v; try discriminate; injection Hv as <-; exact I.
Qed.

Lemma series_astype_str_raise (col : list value) (e : exn) :
  series_astype_str col = Raise e -> pandas_error e.
Proof.
  intros H. destruct (mapM_raise_inv _ _ _ H) as [v [_ Hv]].
  destruct v; try discriminate; injection Hv as <-; exact I.
Qed.

Lemma getitem_list_raise (df : DataFrame) (names : list string) (e : exn) :
  getitem_list df names = Raise e -> pandas_error e.
Proof.
  unfold getitem_list.
  destruct (filter _ names); [discriminate|]. intros H. injection H as <-. exact I.
Qed.

Lemma drop_duplicates_raise (subset : list string) (df : DataFrame) (e : exn) :
  drop_duplicates subset df = Raise e -> pandas_error e.
Proof.
  unfold drop_duplicates. intros H. apply bind_raise in H.
  destruct H as [H|[a [_ H]]]; [|discriminate].
  destruct (mapM_raise_inv _ _ _ H) as [k [_ Hk]]. exact (getitem_raise _ _ _ Hk).
Qed.

Ltac step_raise H :=
  let a := fresh "a" in
  let Ha := fresh "Ha" in
  apply bind_raise in H; destruct H as [H|[a [Ha H]]].

(** The transform raises pandas' exceptions only. *)
Lemma enrich_raw_data_raise (execution_ts : datetime) (payload : Payload)
    (columns : list string) (e : exn) :
  enrich_raw_data execution_ts payload columns = Raise e -> pandas_error e.
Proof.
  unfold enrich_raw_data. intros H.
  step_raise H.
  { unfold DataFrame_from_dict in H. destruct (payload_hourly payload) as [|[k c] rest];
      [discriminate|]. destruct (forallb _ rest); [discriminate|].
    injection H as <-. exact I. }
  step_raise H; [exact (getitem_raise _ _ _ H)|].
  step_raise H; [exact (to_datetime_raise _ _ H)|].
  step_raise H; [exact (getitem_raise _ _ _ H)|].
  step_raise H; [exact (dt_accessor_raise _ _ _ H)|].
  step_raise H; [exact (getitem_list_raise _ _ _ H)|].
  exact (drop_duplicates_raise _ _ _ H).
Qed.

Lemma to_records_raise (df : DataFrame) (e : exn) :
  to_records df = Raise e -> pandas_error e.
Proof.
  unfold to_records. intros H.
  step_raise H.
  { step_raise H; [exact (getitem_raise _ _ _ H) | exact (dt_accessor_raise _ _ _ H)]. }
  step_raise H.
  { step_raise H; [exact (getitem_raise _ _ _ H) | exact (series_astype_str_raise _ _ H)]. }
  step_raise H; [|discriminate].
  step_raise H; [exact (getitem_raise _ _ _ H) | exact (dt_accessor_raise _ _ _ H)].
Qed.

Lemma enrich_raise (execution_ts : datetime) (payload : Payload) (e : exn) :
  enrich execution_ts payload = Raise e -> pandas_error e.
Proof.
  unfold enrich. intros H. step_raise H;
    [exact (enrich_raw_data_raise _ _ _ _ H) | exact (to_records_raise _ _ H)].
Qed.

Lemma from_records_raise (records : list (dict value)) (e : exn) :
  from_records records = Raise e -> pandas_error e.
Proof.
  unfold from_records. intros H.
  step_raise H.
  { step_raise H; [exact (getitem_raise _ _ _ H) | exact (to_datetime_raise _ _ H)]. }
  step_raise H.
  { step_raise H; [exact (getitem_raise _ _ _ H) | exact (to_datetime_raise _ _ H)]. }
  step_raise H; [|discriminate].
  step_raise H; [|exact (dt_accessor_raise _ _ _ H)].
  step_raise H; [exact (getitem_raise _ _ _ H) | exact (to_datetime_raise _ _ H)].
Qed.

Lemma row_of_values_raise (vals : list value) (e : exn) :
  row_of_values vals = Raise e -> insert_error e.
Proof.
  assert (Hd : forall v e, cast_double v = Raise e -> insert_error e)
    by (intros [] ? H; try discriminate H; injection H as <-; exact I).
  assert (Hv : forall v e, cast_varchar v = Raise e -> insert_error e)
    by (intros [] ? H; try discriminate H; injection H as <-; exact I).
  assert (Hdt : forall v e, cast_date v = Raise e -> insert_error e)
    by (intros [] ? H; try discriminate H; injection H as <-; exact I).
  assert (Hts : forall v e, cast_timestamp v = Raise e -> insert_error e)
    by (intros [] ? H; try discriminate H; injection H as <-; exact I).
  assert (Htz : forall v e, cast_timestamptz v = Raise e -> insert_error e)
    by (intros [] ? H; try discriminate H; injection H as <-; exact I).
  unfold row_of_values.
  do 10 (destruct vals as [|? vals]; [intros H; injection H as <-; exact I|]).
  destruct vals; [|intros H; injection H as <-; exact I].
  intros H.
  step_raise H.
  { step_raise H; [exact (Htz _ _ H)|]. destruct a; [discriminate|].
    injection H as <-. exact I. }
  step_raise H; [exact (Hd _ _ H)|].
  step_raise H; [exact (Hd _ _ H)|].
  step_raise H; [exact (Hd _ _ H)|].
  step_raise H; [exact (Hd _ _ H)|].
  step_raise H; [exact (Hd _ _ H)|].
  step_raise H; [exact (Hv _ _ H)|].
  step_raise H; [exact (Hv _ _ H)|].
  step_raise H; [exact (Hdt _ _ H)|].
  step_raise H; [exact (Hts _ _ H) | discriminate].
Qed.

(** What a load into an existing table leaves and raises. *)
Lemma load_dataframe_existing (t : table) (df : DataFrame) (columns : list string) :
  exists t',
    fst (load_dataframe (Some t) df columns) = Some t'
    /\ (forall k, In k (keys_of t) -> In k (keys_of t'))
    /\ (unique_time t -> unique_time t')
    /\ (forall e, snd (load_dataframe (Some t) df columns) = Raise e ->
          t' = t /\ (pandas_error e \/ insert_error e)).
Proof.
  rewrite load_dataframe_cases. unfold incoming_rows.
  destruct (getitem_list df columns) as [p|e] eqn:Ep; cbn [bind].
  2:{ exists t. cbn [fst snd]. repeat split; auto.
      injection H as <-. left. exact (getitem_list_raise _ _ _ Ep). }
  destruct (mapM row_of_values (frame_rows p)) as [rs|e] eqn:Ers.
  2:{ exists t. cbn [fst snd]. repeat split; auto.
      injection H as <-. right.
      destruct (mapM_raise_inv _ _ _ Ers) as [v [_ Hv]].
      exact (row_of_values_raise _ _ Hv). }
  exists (fold_upsert rs t). cbn [fst snd]. split; [reflexivity|]. split; [|split].
  - clear Ers. revert t. induction rs as [|r rs IH]; intros t k Hk; [exact Hk|].
    apply (IH (upsert r t)), keys_upsert_incl, Hk.
  - apply unique_time_fold_upsert.
  - intros e H. discriminate.
Qed.

Lemma data_quality_checks_raise (t : table) (e : exn) :
  data_quality_checks (Some t) = Raise e -> exists msg, e = ValueError msg.
Proof.
  unfold data_quality_checks. intros H.
  step_raise H.
  { unfold check_completeness in H. destruct (completeness_query t); [discriminate|].
    injection H as <-. eauto. }
  step_raise H.
  { unfold check_not_nulls in H. destruct (0 <? count_where critical_null t);
      [|discriminate]. injection H as <-. eauto. }
  unfold check_ranges in H. destruct (filter _ _); [discriminate|].
  injection H as <-. eauto.
Qed.

Lemma elt_air_quality_cases (execution_ts : datetime) (payload : Payload) (db : database) :
  elt_air_quality execution_ts payload db
  = match enrich execution_ts payload with
    | Raise e => (ensure_air_quality_table db, Raise e)
    | Ok records =>
        match from_records records with
        | Raise e => (ensure_air_quality_table db, Raise e)
        | Ok df =>
            let loaded := load_dataframe (ensure_air_quality_table db) df COLUMN_ORDER in
            match snd loaded with
            | Raise e => (fst loaded, Raise e)
            | Ok _ => (fst loaded, data_quality_checks (fst loaded))
            end
        end
    end.
Proof.
  unfold elt_air_quality, load. destruct (enrich execution_ts payload); [|reflexivity].
  destruct (from_records a); [|reflexivity]. cbn zeta.
  destruct (load_dataframe (ensure_air_quality_table db) a0 COLUMN_ORDER) as [db' [n|e]];
    reflexivity.
Qed.

(** X12. Whatever the payload and the state of the database, after a run
    the table exists and the run has not raised a [CatalogException]: the
    task that creates the table runs before the load and the checks.  When
    a run raises, the exception is one of pandas (the [ValueError] of a
    quality check among them) or one of the insert.  A run deletes
    nothing: every stored time is still stored, and times that were unique
    stay unique. *)
Theorem elt_air_quality_table_exists (execution_ts : datetime) (payload : Payload)
    (db : database) :
  exists t',
    fst (elt_air_quality execution_ts payload db) = Some t'
    /\ (forall e, snd (elt_air_quality execution_ts payload db) = Raise e ->
          e <> CatalogException /\ (pandas_error e \/ insert_error e))
    /\ (forall t, db = Some t ->
          (forall k, In k (keys_of t) -> In k (keys_of t'))
          /\ (unique_time t -> unique_time t')).
Proof.
  set (t0 := match db with Some t => t | None => [] end).
  assert (Hcreated : ensure_air_quality_table db = Some t0) by (destruct db; reflexivity).
  assert (Hold : forall t, db = Some t -> t0 = t) by (intros t ->; reflexivity).
  assert (Hcls : forall e, pandas_error e \/ insert_error e ->
            e <> CatalogException /\ (pandas_error e \/ insert_error e)).
  { intros e H. split; [|exact H]. intros ->. destruct H as [[]|[]]. }
  rewrite elt_air_quality_cases, Hcreated.
  destruct (enrich execution_ts payload) as [records|e] eqn:Een.
  2:{ exists t0. cbn [fst snd]. split; [reflexivity|]. split.
      - intros e' H. injection H as <-. apply Hcls. left. exact (enrich_raise _ _ _ Een).
      - intros t Ht. rewrite (Hold t Ht). split; auto. }
  destruct (from_records records) as [df|e] eqn:Efr.
  2:{ exists t0. cbn [fst snd]. split; [reflexivity|]. split.
      - intros e' H. injection H as <-. apply Hcls. left. exact (from_records_raise _ _ Efr).
      - intros t Ht. rewrite (Hold t Ht). split; auto. }
  cbn zeta.
  destruct (load_dataframe_existing t0 df COLUMN_ORDER) as [t' [Hfst [Hkeys [Huniq Hraise]]]].
  exists t'. split.
  { destruct (snd (load_dataframe (Some t0) df COLUMN_ORDER)); exact Hfst. }
  split.
  - intros e H.
    destruct (snd (load_dataframe (Some t0) df COLUMN_ORDER)) as [n|e'] eqn:Es;
      cbn [snd] in H.
    + rewrite Hfst in H. destruct (data_quality_checks_raise _ _ H) as [msg ->].
      apply Hcls. left. exact I.
    + injection H as <-. apply Hcls. exact (proj2 (Hraise e' eq_refl)).
  - intros t Ht. rewrite <- (Hold t Ht). split; assumption.
Qed.

(** A frame of the transform has no row exactly when the time array of
    the payload is empty. *)
Lemma enrich_raw_data_no_row (execution_ts : datetime) (payload : Payload) (df : DataFrame) :
  enrich_raw_data execution_ts payload COLUMN_ORDER = Ok df ->
  (len df = 0 <-> dict_get "time" (hourly payload) = Some [])
  /\ (len df = 0 -> to_records df = Ok []).
Proof.
  intros Hdf.
  destruct (enrich_raw_data_frame _ _ _ Hdf)
    as [n [times [ts [Hu [Htime [Hts [Hmet [Hn ->]]]]]]]].
  pose proof (to_datetime_datetime_like _ _ Hts) as Hlike.
  pose proof (mapM_length _ _ _ Hts) as Hlen. rewrite length_map in Hlen.
  unfold len. cbn [df_len]. split; [split|].
  - intros Hz. apply length_zero_iff_nil in Hz.
    destruct ts as [|v ts].
    + destruct times; [exact Htime | discriminate Hlen].
    + exfalso. assert (H0 : In 0 (kept_positions (first_mask (v :: ts)))).
      { apply (kept_positions_In _ 0 Hlike). split; [simpl; lia | intros j Hj; lia]. }
      rewrite Hz in H0. exact H0.
  - intros Hempty. assert (times = []) by congruence. subst times.
    destruct ts; [reflexivity | discriminate Hlen].
  - intros Hz. apply length_zero_iff_nil in Hz. rewrite Hz. reflexivity.
Qed.

(** X13. A payload whose time array is empty gives the one frame of the
    transform without rows.  The enrich task turns it into the empty list
    of records, from which the load task cannot rebuild the columns: the
    run creates the table if it is missing, leaves its rows alone and
    raises the [KeyError] of the time column in the load task, before any
    quality check. *)
Theorem elt_air_quality_empty_day (execution_ts : datetime) (payload : Payload)
    (df : DataFrame) (db : database) :
  enrich_raw_data execution_ts payload COLUMN_ORDER = Ok df ->
  (len df = 0 <-> dict_get "time" (hourly payload) = Some [])
  /\ (len df = 0 ->
      enrich execution_ts payload = Ok []
      /\ elt_air_quality execution_ts payload db
         = (ensure_air_quality_table db, Raise (KeyError ["time"]))).
Proof.
  intros Hdf. destruct (enrich_raw_data_no_row _ _ _ Hdf) as [Hiff Hrec].
  split; [exact Hiff|]. intros Hz.
  assert (Hen : enrich execution_ts payload = Ok [])
    by (unfold enrich; rewrite Hdf; exact (Hrec Hz)).
  split; [exact Hen|]. rewrite elt_air_quality_cases, Hen. reflexivity.
Qed.

(** ** The quality gate as a whole *)

Lemma check_completeness_ok (t : table) :
  check_completeness (Some t) = Ok tt <-> forall d, ~ offending t d.
Proof.
  unfold check_completeness. pose proof (completeness_query_In t) as Hin.
  destruct (completeness_query t) as [|[[d n] m] q]; split.
  - intros _ d Hd. apply (Hin d (rows_count t d) (distinct_times t d)). auto.
  - reflexivity.
  - discriminate.
  - intros H. exfalso. apply (H d). apply (Hin d n m). left. reflexivity.
Qed.

Lemma check_not_nulls_ok (t : table) :
  check_not_nulls (Some t) = Ok tt <-> forall r, In r t -> ~ has_critical_null r.
Proof.
  unfold check_not_nulls.
  rewrite (count_where_count_rows _ _ has_critical_null_dec t critical_null_true).
  rewrite <- (count_rows_zero _ has_critical_null_dec).
  destruct (Nat.ltb_spec 0 (count_rows has_critical_null has_critical_null_dec t));
    split; intros H'; try reflexivity; try discriminate; lia.
Qed.

Lemma check_ranges_ok (t : table) :
  check_ranges (Some t) = Ok tt <->
  forall r, In r t ->
    ~ outside 0 500 (r_pm10 r) /\ ~ outside 0 500 (r_pm2_5 r)
    /\ ~ outside 0 15 (r_uv_index r).
Proof.
  unfold check_ranges.
  rewrite (count_where_count_rows _ _ (fun r => outside_dec 0 500 (r_pm10 r)) t
             (out_of_range_true r_pm10 500)).
  rewrite (count_where_count_rows _ _ (fun r => outside_dec 0 500 (r_pm2_5 r)) t
             (out_of_range_true r_pm2_5 500)).
  rewrite (count_where_count_rows _ _ (fun r => outside_dec 0 15 (r_uv_index r)) t
             (out_of_range_true r_uv_index 15)).
  cbn [filter snd].
  pose proof (count_rows_zero (fun r => outside 0 500 (r_pm10 r))
                (fun r => outside_dec 0 500 (r_pm10 r)) t) as Z1.
  pose proof (count_rows_zero (fun r => outside 0 500 (r_pm2_5 r))
                (fun r => outside_dec 0 500 (r_pm2_5 r)) t) as Z2.
  pose proof (count_rows_zero (fun r => outside 0 15 (r_uv_index r))
                (fun r => outside_dec 0 15 (r_uv_index r)) t) as Z3.
  set (c1 := count_rows (fun r => outside 0 500 (r_pm10 r))
               (fun r => outside_dec 0 500 (r_pm10 r)) t) in *.
  set (c2 := count_rows (fun r => outside 0 500 (r_pm2_5 r))
               (fun r => outside_dec 0 500 (r_pm2_5 r)) t) in *.
  set (c3 := count_rows (fun r => outside 0 15 (r_uv_index r))
               (fun r => outside_dec 0 15 (r_uv_index r)) t) in *.
  transitivity (c1 = 0 /\ c2 = 0 /\ c3 = 0).
  - destruct (Nat.ltb_spec 0 c1), (Nat.ltb_spec 0 c2), (Nat.ltb_spec 0 c3);
      split; intros H'; try reflexivity; try discriminate H'; lia.
  - rewrite Z1, Z2, Z3. split.
    + intros [H1 [H2 H3]] r Hr. auto.
    + intros H. repeat split; intros r Hr; apply (H r Hr).
Qed.

Lemma list_sum_bump {K} (same : K -> K -> bool) (k : K) (size : K -> nat)
    (groups : list K)
    (Hsame : forall a b, same a b = true <-> a = b)
    (Hgroups : NoDup groups) :
  list_sum (map (fun g => if same k g then S (size g) else size g) groups)
  = (if existsb (same k) groups then 1 else 0) + list_sum (map size groups).
Proof.
  induction groups as [|g groups IH]; simpl; [reflexivity|].
  inversion Hgroups as [|? ? Hnin Hnd]; subst. rewrite (IH Hnd).
  destruct (same k g) eqn:E; simpl; [|lia].
  apply Hsame in E. subst g.
  destruct (existsb (same k) groups) eqn:Ex; [|lia].
  exfalso. apply existsb_exists in Ex. destruct Ex as [x [Hx Ek]].
  apply Hsame in Ek. subst x. contradiction.
Qed.

(** A list splits into the groups of its keys. *)
Lemma length_by_group {R K} (key : R -> K) (same : K -> K -> bool) (groups : list K)
    (rows : list R)
    (Hsame : forall a b, same a b = true <-> a = b)
    (Hgroups : NoDup groups)
    (Hin : forall r, In r rows -> In (key r) groups) :
  List.length rows
  = list_sum (map (fun g => List.length (filter (fun r => same (key r) g) rows)) groups).
Proof.
  induction rows as [|r rows IH]; simpl.
  - clear. induction groups as [|g groups IH]; simpl; [reflexivity | exact IH].
  - rewrite IH by (intros x Hx; apply Hin; right; exact Hx).
    rewrite (map_ext
               (fun g => List.length (if same (key r) g
                                      then r :: filter (fun r => same (key r) g) rows
                                      else filter (fun r => same (key r) g) rows))
               (fun g => if same (key r) g
                         then S (List.length (filter (fun r => same (key r) g) rows))
                         else List.length (filter (fun r => same (key r) g) rows)))
      by (intros g; destruct (same (key r) g); reflexivity).
    rewrite (list_sum_bump same (key r) _ groups Hsame Hgroups).
    replace (existsb (same (key r)) groups) with true; [reflexivity|].
    symmetry. apply existsb_exists. exists (key r).
    split; [apply Hin; left; reflexivity | apply Hsame; reflexivity].
Qed.

Lemma list_sum_const {K} (size : K -> nat) (c : nat) (groups : list K) :
  (forall g, In g groups -> size g = c) ->
  list_sum (map size groups) = c * List.length groups.
Proof.
  induction groups as [|g groups IH]; simpl; intros H; [lia|].
  rewrite (H g (or_introl eq_refl)), IH by (intros x Hx; apply H; right; exact Hx). lia.
Qed.

Lemma data_quality_checks_ok (db : database) :
  data_quality_checks db = Ok tt <->
  check_completeness db = Ok tt /\ check_not_nulls db = Ok tt /\ check_ranges db = Ok tt.
Proof.
  unfold data_quality_checks.
  destruct (check_completeness db) as [[]|e1]; cbn [bind];
    [|split; [discriminate | intros [H _]; discriminate H]].
  destruct (check_not_nulls db) as [[]|e2]; cbn [bind];
    [|split; [discriminate | intros [_ [H _]]; discriminate H]].
  tauto.
Qed.

(** X14. The quality gate runs its checks in the order completeness,
    nulls, ranges and reports the first that fails; the later ones are not
    reached.  It passes exactly when every date of the table has 24 rows
    and 24 distinct times and no row has a NULL in a critical column or a
    metric out of range.  A table that passes holds whole days: its number
    of rows is 24 times its number of dates. *)
Theorem data_quality_checks_spec (t : table) :
  (data_quality_checks (Some t) = Ok tt <->
     (forall d, In d (map r_date t) -> rows_count t d = 24 /\ distinct_times t d = 24)
     /\ (forall r, In r t ->
           ~ has_critical_null r /\ ~ outside 0 500 (r_pm10 r)
           /\ ~ outside 0 500 (r_pm2_5 r) /\ ~ outside 0 15 (r_uv_index r)))
  /\ (data_quality_checks (Some t) = Ok tt ->
      List.length t = 24 * List.length (nodup option_date_eq_dec (map r_date t)))
  /\ (forall e, data_quality_checks (Some t) = Raise e <->
        check_completeness (Some t) = Raise e
        \/ (check_completeness (Some t) = Ok tt /\ check_not_nulls (Some t) = Raise e)
        \/ (check_completeness (Some t) = Ok tt /\ check_not_nulls (Some t) = Ok tt
            /\ check_ranges (Some t) = Raise e)).
Proof.
  assert (Hdays : check_completeness (Some t) = Ok tt <->
            forall d, In d (map r_date t) ->
                      rows_count t d = 24 /\ distinct_times t d = 24).
  { rewrite check_completeness_ok. unfold offending. split.
    - intros H d Hd. specialize (H d).
      destruct (Nat.eq_dec (rows_count t d) 24), (Nat.eq_dec (distinct_times t d) 24);
        tauto.
    - intros H d [Hd Hne]. destruct (H d Hd). lia. }
  split; [|split].
  - rewrite data_quality_checks_ok, Hdays, check_not_nulls_ok, check_ranges_ok. split.
    + intros [H1 [H2 H3]]. split; [exact H1|]. intros r Hr.
      split; [exact (H2 r Hr) | exact (H3 r Hr)].
    + intros [H1 H2]. split; [exact H1|].
      split; intros r Hr; apply (H2 r Hr).
  - intros H. apply data_quality_checks_ok in H. destruct H as [H _].
    pose proof (proj1 Hdays H) as H24. clear H.
    rewrite (length_by_group r_date option_date_eqb
               (nodup option_date_eq_dec (map r_date t)) t option_date_eqb_eq).
    + apply list_sum_const. intros d Hd. apply nodup_In in Hd.
      rewrite group_filter. apply (H24 d Hd).
    + apply NoDup_nodup.
    + intros r Hr. apply nodup_In, in_map, Hr.
  - intros e. unfold data_quality_checks.
    destruct (check_completeness (Some t)) as [[]|e1]; cbn [bind].
    + destruct (check_not_nulls (Some t)) as [[]|e2]; cbn [bind].
      * split; [intros H; right; right; auto|].
        intros [H|[[_ H]|[_ [_ H]]]]; [discriminate H | discriminate H | exact H].
      * split; [intros H; right; left; auto|].
        intros [H|[[_ H]|[_ [H _]]]]; [discriminate H | exact H | discriminate H].
    + split; [intros H; left; exact H|].
      intros [H|[[H _]|[H _]]]; [exact H | discriminate H | discriminate H].
Qed.

(** ** The run of one day *)

(** A run whose transform returns a row is the load of the frame of the
    transform at the reading cut to the second, followed by the checks. *)
Lemma elt_air_quality_loads (execution_ts : datetime) (payload : Payload)
    (df : DataFrame) (db : database) :
  valid_datetime execution_ts = true ->
  enrich_raw_data execution_ts payload COLUMN_ORDER = Ok df ->
  0 < len df ->
  exists df',
    enrich_raw_data (truncate_seconds execution_ts) payload COLUMN_ORDER = Ok df'
    /\ len df' = len df
    /\ elt_air_quality execution_ts payload db
       = (let loaded := load_dataframe (ensure_air_quality_table db) df' COLUMN_ORDER in
          match snd loaded with
          | Raise e => (fst loaded, Raise e)
          | Ok _ => (fst loaded, data_quality_checks (fst loaded))
          end).
Proof.
  intros Hnow Hdf Hlen.
  destruct (enrich_from_records _ _ _ Hnow Hdf Hlen) as [records [H1 [_ H3]]].
  pose proof (truncate_subsecond_transformed _ _ _ Hdf) as Htr.
  exists (truncate_subsecond df). split; [exact Htr|]. split; [reflexivity|].
  rewrite elt_air_quality_cases, H1, H3, Htr. reflexivity.
Qed.

(** The number of rows of a frame of the transform. *)
Lemma enrich_raw_data_len (execution_ts : datetime) (payload : Payload)
    (times : list json) (ts : list value) (df : DataFrame) :
  dict_get "time" (hourly payload) = Some times ->
  to_datetime (map of_json times) = Ok ts ->
  enrich_raw_data execution_ts payload COLUMN_ORDER = Ok df ->
  len df = List.length (nodup value_eq_dec ts)
  /\ forall i, i < len df -> In (cell df "time" i) ts.
Proof.
  intros Htime Hts Hdf.
  destruct (enrich_raw_data_frame _ _ _ Hdf)
    as [n [times' [ts' [Hu [Htime' [Hts' [Hmet [Hn ->]]]]]]]].
  assert (times' = times) by congruence. subst times'.
  assert (ts' = ts) by congruence. subst ts'.
  pose proof (to_datetime_datetime_like _ _ Hts) as Hlike.
  unfold len, cell, column_or_empty, enriched_columns.
  cbn [df_len df_columns map fst snd dict_get String.eqb Ascii.eqb Bool.eqb].
  split.
  - rewrite <- count_kept_positions. apply first_mask_count, Hlike.
  - intros i Hi.
    assert (Hin : In (nth i (map (fun k => nth k ts VNone) (kept_positions (first_mask ts)))
                        VNone)
                     (map (fun k => nth k ts VNone) (kept_positions (first_mask ts))))
      by (apply nth_In; rewrite length_map; exact Hi).
    apply in_map_iff in Hin. destruct Hin as [k [<- Hk]].
    apply nth_In, kept_positions_bound, Hk.
Qed.

(** A metric cell of a frame of the transform is a value of the payload's
    array. *)
Lemma enrich_raw_data_metric_cell (execution_ts : datetime) (payload : Payload)
    (df : DataFrame) (m : string) (c : list json) (i : nat) :
  In m ["pm10"; "pm2_5"; "uv_index"] ->
  dict_get m (hourly payload) = Some c ->
  enrich_raw_data execution_ts payload COLUMN_ORDER = Ok df ->
  i < len df ->
  exists j, In j c /\ cell df m i = of_json j.
Proof.
  intros Hm Hc Hdf.
  destruct (enrich_raw_data_frame _ _ _ Hdf)
    as [n [times [ts [Hu [Htime [Hts [Hmet [Hn ->]]]]]]]].
  assert (Hcol : column_or_empty (payload_hourly payload) m = map of_json c)
    by (unfold column_or_empty; rewrite dict_get_payload_hourly, Hc; reflexivity).
  assert (Hlen : List.length c = n).
  { rewrite Forall_forall in Hu. apply (Hu (m, c)), dict_get_In, Hc. }
  unfold len. cbn [df_len]. intros Hi.
  assert (Hcell : cell
            (mkDataFrame (List.length (kept_positions (first_mask ts)))
               (map (fun nc => (fst nc, map (fun i => nth i (snd nc) VNone)
                                          (kept_positions (first_mask ts))))
                  (enriched_columns execution_ts payload n ts (payload_hourly payload))))
            m i
          = nth i (map (fun k => nth k (map of_json c) VNone)
                     (kept_positions (first_mask ts))) VNone).
  { unfold cell, column_or_empty, enriched_columns.
    cbn [df_columns map fst snd]. rewrite <- Hcol. unfold column_or_empty.
    destruct Hm as [<-|[<-|[<-|[]]]]; reflexivity. }
  rewrite Hcell.
  assert (Hin : In (nth i (map (fun k => nth k (map of_json c) VNone)
                             (kept_positions (first_mask ts))) VNone)
                   (map (fun k => nth k (map of_json c) VNone)
                      (kept_positions (first_mask ts))))
    by (apply nth_In; rewrite length_map; exact Hi).
  apply in_map_iff in Hin. destruct Hin as [k [<- Hk]].
  apply kept_positions_bound in Hk. rewrite Hn, <- Hlen in Hk.
  exists (nth k c JNull). split; [apply nth_In, Hk|].
  change VNone with (of_json JNull). apply map_nth.
Qed.

(** The rows a day's frame brings, loaded into any table. *)
Lemma day_rows (clock : datetime) (payload : Payload) (d : date) (ts : list value)
    (df : DataFrame) (t : table) :
  day_payload payload d ts ->
  enrich_raw_data clock payload COLUMN_ORDER = Ok df ->
  exists rs,
    incoming_rows df COLUMN_ORDER = Ok rs
    /\ NoDup (keys_of rs)
    /\ List.length rs = List.length (nodup value_eq_dec ts)
    /\ Forall (fun r => r_date r = Some d /\ dt_date (r_time r) = d) rs
    /\ load_dataframe (Some t) df COLUMN_ORDER
       = (Some (fold_upsert rs t), Ok (List.length (fold_upsert rs t))).
Proof.
  intros [[n Hu] [[times [Htime Hts]] [Hmet [Hwt Hday]]]] Hdf.
  destruct (enrich_then_load_ok clock payload n times ts df t Hu Htime Hts Hmet Hwt Hdf)
    as [t' Hload].
  destruct (load_dataframe_inv _ _ _ _ _ Hload) as [rs [Hrs _]].
  pose proof (transformed_rows_NoDup _ _ _ _ Hdf Hrs) as Hnd.
  destruct (enrich_raw_data_len _ _ _ _ _ Htime Hts Hdf) as [Hlen Hcells].
  exists rs. split; [exact Hrs|]. split; [exact Hnd|]. split; [|split].
  - rewrite (incoming_rows_length _ _ _ Hrs). exact Hlen.
  - pose proof (transformed_rows_stamped _ _ _ _ Hdf Hrs) as Hst.
    rewrite Forall_forall in Hst, Hday. apply Forall_forall. intros r Hr.
    destruct (mapM_In _ _ _ r (incoming_rows_by_name _ _ Hrs) Hr) as [i [Hi Hrow]].
    apply in_seq in Hi.
    assert (Hin : In (VTimestamp (r_time r)) ts).
    { rewrite <- (row_by_name_time df i r Hrow). apply Hcells. unfold len. lia. }
    destruct (Hday _ Hin) as [x [Ex Hx]]. injection Ex as Ex.
    destruct (Hst r Hr) as [Hdate _]. rewrite Hdate, Ex, Hx. split; reflexivity.
  - apply load_dataframe_ok; assumption.
Qed.

(** The rows of a clean payload pass the row checks. *)
Lemma clean_rows (clock : datetime) (payload : Payload) (df : DataFrame) (rs : list row) :
  clean_payload payload ->
  enrich_raw_data clock payload COLUMN_ORDER = Ok df ->
  incoming_rows df COLUMN_ORDER = Ok rs ->
  Forall (fun r => ~ has_critical_null r /\ ~ outside 0 500 (r_pm10 r)
                   /\ ~ outside 0 500 (r_pm2_5 r) /\ ~ outside 0 15 (r_uv_index r)) rs.
Proof.
  intros [H1 [H2 [H3 [[lat Hlat] [[lon Hlon] [tz Htz]]]]]] Hdf Hrs.
  destruct (enrich_raw_data_inv _ _ _ Hdf) as [n [times [ts [_ [_ [_ Hmet]]]]]].
  pose proof (transformed_rows_stamped _ _ _ _ Hdf Hrs) as Hst.
  rewrite Forall_forall in Hst. apply Forall_forall. intros r Hr.
  destruct (mapM_In _ _ _ r (incoming_rows_by_name _ _ Hrs) Hr) as [i [Hi Hrow]].
  apply in_seq in Hi. assert (Hlt : i < len df) by (unfold len; lia).
  destruct (row_by_name_inv df i r Hrow) as [_ [E1 [E2 [E3 _]]]].
  destruct (Hst r Hr) as [_ [Hcity [_ [E4 [E5 E6]]]]].
  rewrite Hlat in E4. rewrite Hlon in E5. rewrite Htz in E6. cbn in E4, E5, E6.
  assert (Hmetric : forall m hi (v : option Q),
            In m ["pm10"; "pm2_5"; "uv_index"] -> in_range_metric payload m hi ->
            cast_double (cell df m i) = Ok v ->
            exists x, v = Some x /\ (0 <= x /\ x <= hi)%Q).
  { intros m hi v Hm Hrange Hv.
    destruct (proj1 (dict_get_keys m (hourly payload)) (Hmet m Hm)) as [c Hc].
    destruct (enrich_raw_data_metric_cell _ _ _ m c i Hm Hc Hdf Hlt) as [j [Hj Ej]].
    pose proof (Hrange c Hc) as Hall. rewrite Forall_forall in Hall.
    destruct (Hall j Hj) as [x [-> Hx]]. rewrite Ej in Hv. cbn in Hv.
    exists x. split; [congruence | exact Hx]. }
  destruct (Hmetric "pm10" 500%Q _ ltac:(simpl; tauto) H1 E1) as [x1 [P1 R1]].
  destruct (Hmetric "pm2_5" 500%Q _ ltac:(simpl; tauto) H2 E2) as [x2 [P2 R2]].
  destruct (Hmetric "uv_index" 15%Q _ ltac:(simpl; tauto) H3 E3) as [x3 [P3 R3]].
  assert (Hin : forall hi (v : option Q) x, v = Some x -> (0 <= x /\ x <= hi)%Q ->
            ~ outside 0 hi v).
  { intros hi v x -> Hx [y [Ey Hy]]. injection Ey as <-. exact (Hy Hx). }
  split; [|split; [|split]]; eauto.
  unfold has_critical_null. rewrite P1, P2, P3, Hcity.
  injection E4 as <-. injection E5 as <-. injection E6 as <-.
  intros H. decompose [or] H; discriminate.
Qed.

Lemma fold_upsert_disjoint (rs : list row) (t : table) :
  unique_time t -> NoDup (keys_of rs) ->
  (forall r, In r t -> ~ In (r_time r) (keys_of rs)) ->
  Permutation (fold_upsert rs t) (rs ++ t).
Proof.
  intros Hu Hnd Hdis.
  replace t with (not_replaced t rs) at 2; [apply fold_upsert_Permutation; assumption|].
  unfold not_replaced. apply filter_all. intros x Hx.
  apply negb_true_iff, not_true_is_false. intros Hex. apply existsb_exists in Hex.
  destruct Hex as [k [Hk E]]. apply datetime_eqb_eq in E. subst k.
  exact (Hdis x Hx Hk).
Qed.

Lemma rows_count_Permutation (t t' : table) (d : option date) :
  Permutation t t' -> rows_count t d = rows_count t' d.
Proof.
  unfold rows_count, rows_of_date.
  induction 1 as [|x l l' _ IH|x y l|l l' l'' _ IH1 _ IH2]; simpl.
  - reflexivity.
  - destruct (option_date_eq_dec (r_date x) d); simpl; congruence.
  - destruct (option_date_eq_dec (r_date x) d), (option_date_eq_dec (r_date y) d);
      reflexivity.
  - congruence.
Qed.

Lemma rows_count_app (t t' : table) (d : option date) :
  rows_count (t ++ t') d = rows_count t d + rows_count t' d.
Proof. unfold rows_count, rows_of_date. rewrite filter_app, length_app. reflexivity. Qed.

Lemma rows_count_all (t : table) (d : option date) :
  (forall r, In r t -> r_date r = d) -> rows_count t d = List.length t.
Proof.
  intros H. unfold rows_count, rows_of_date. rewrite filter_all; [reflexivity|].
  intros r Hr. destruct (option_date_eq_dec (r_date r) d) as [_|Hne];
    [reflexivity | exfalso; exact (Hne (H r Hr))].
Qed.

Lemma rows_count_none (t : table) (d : option date) :
  (forall r, In r t -> r_date r <> d) -> rows_count t d = 0.
Proof.
  intros H. unfold rows_count, rows_of_date. rewrite filter_none; [reflexivity|].
  intros r Hr. destruct (option_date_eq_dec (r_date r) d) as [E|_];
    [exfalso; exact (H r Hr E) | reflexivity].
Qed.


(** The table after the hours of one day were added to a table that held
    none of that day: which dates fail the completeness check. *)
Lemma day_added_offending (rs : list row) (t t' : table) (d : date) :
  Permutation t' (rs ++ t) -> unique_time t' ->
  Forall (fun r => r_date r = Some d /\ dt_date (r_time r) = d) rs ->
  Forall (fun r => dt_date (r_time r) <> d /\ r_date r <> Some d) t ->
  check_completeness (Some t) = Ok tt ->
  rs <> [] ->
  rows_count t' (Some d) = List.length rs
  /\ distinct_times t' (Some d) = List.length rs
  /\ forall dd, offending t' dd <-> dd = Some d /\ List.length rs <> 24.
Proof.
  intros Hperm Hu Hrs Ht Hold Hne. rewrite Forall_forall in Hrs, Ht.
  assert (Hcount : forall dd, rows_count t' dd = rows_count rs dd + rows_count t dd)
    by (intros dd; rewrite (rows_count_Permutation _ _ dd Hperm); apply rows_count_app).
  assert (Hd : rows_count t' (Some d) = List.length rs).
  { rewrite Hcount, (rows_count_all rs) by (intros r Hr; apply (Hrs r Hr)).
    rewrite (rows_count_none t) by (intros r Hr; apply (Ht r Hr)). lia. }
  split; [exact Hd|]. split; [rewrite (unique_time_counts t' _ Hu); exact Hd|].
  intros dd. unfold offending. rewrite (unique_time_counts t' dd Hu). split.
  - intros [Hin Hbad].
    assert (Hin' : In dd (map r_date rs) \/ In dd (map r_date t)).
    { apply in_map_iff in Hin. destruct Hin as [r [E Hr]].
      apply (Permutation_in _ Hperm), in_app_or in Hr.
      destruct Hr as [Hr|Hr]; [left|right]; rewrite <- E; apply in_map, Hr. }
    destruct Hin' as [Hin'|Hin'].
    + apply in_map_iff in Hin'. destruct Hin' as [r [E Hr]].
      rewrite (proj1 (Hrs r Hr)) in E. subst dd. split; [reflexivity|]. lia.
    + exfalso. assert (Hdd : dd <> Some d).
      { apply in_map_iff in Hin'. destruct Hin' as [r [E Hr]]. rewrite <- E.
        apply (Ht r Hr). }
      pose proof (proj1 (check_completeness_ok t) Hold dd) as Hok. unfold offending in Hok.
      rewrite Hcount in Hbad.
      rewrite (rows_count_none rs) in Hbad
        by (intros r Hr; rewrite (proj1 (Hrs r Hr)); congruence).
      apply Hok. split; [exact Hin'|]. left. lia.
  - intros [-> Hk]. split; [|lia].
    destruct rs as [|r rs]; [congruence|].
    rewrite <- (proj1 (Hrs r (or_introl eq_refl))). apply in_map.
    apply (Permutation_in _ (Permutation_sym Hperm)). left. reflexivity.
Qed.

(** A run on the hours of a day of which the table holds nothing yet: the
    rows are added and the checks run on the result. *)
Lemma day_run (execution_ts : datetime) (payload : Payload) (d : date) (ts : list value)
    (db : database) (t : table) :
  valid_datetime execution_ts = true ->
  day_payload payload d ts ->
  ensure_air_quality_table db = Some t ->
  unique_time t ->
  Forall (fun r => dt_date (r_time r) <> d /\ r_date r <> Some d) t ->
  0 < List.length (nodup value_eq_dec ts) ->
  exists rs df',
    enrich_raw_data (truncate_seconds execution_ts) payload COLUMN_ORDER = Ok df'
    /\ incoming_rows df' COLUMN_ORDER = Ok rs
    /\ List.length rs = List.length (nodup value_eq_dec ts)
    /\ Forall (fun r => r_date r = Some d /\ dt_date (r_time r) = d) rs
    /\ Permutation (fold_upsert rs t) (rs ++ t)
    /\ unique_time (fold_upsert rs t)
    /\ elt_air_quality execution_ts payload db
       = (Some (fold_upsert rs t), data_quality_checks (Some (fold_upsert rs t))).
Proof.
  intros Hnow Hday Hdb Hu Ht Hk.
  pose proof Hday as [[n Hn] [[times [Htime Hts]] [Hmet _]]].
  destruct (enrich_raw_data_ok execution_ts payload n times ts Hn Htime Hts Hmet)
    as [_ [_ Hdf]].
  match type of Hdf with _ = Ok ?x => set (df := x) in * end.
  destruct (enrich_raw_data_len _ _ _ _ _ Htime Hts Hdf) as [Hlen _].
  destruct (elt_air_quality_loads execution_ts payload df db Hnow Hdf)
    as [df' [Hdf' [_ Hrun]]]; [rewrite Hlen; exact Hk|].
  destruct (day_rows _ _ _ _ _ t Hday Hdf') as [rs [Hrs [Hnd [Hlrs [Hdates Hload]]]]].
  exists rs, df'. split; [exact Hdf'|]. split; [exact Hrs|]. split; [exact Hlrs|].
  split; [exact Hdates|]. split; [|split].
  - apply fold_upsert_disjoint; [exact Hu | exact Hnd|].
    rewrite Forall_forall in Hdates, Ht. intros r Hr Hin.
    apply in_map_iff in Hin. destruct Hin as [r' [E Hr']].
    apply (proj1 (Ht r Hr)). rewrite <- E. apply (Hdates r' Hr').
  - apply unique_time_fold_upsert, Hu.
  - rewrite Hrun, Hdb, Hload. reflexivity.
Qed.


(** X16. A run on the 24 hours of a day, with every metric in range and
    the location present, into a table that passes the quality gate and
    holds nothing of that day, ends normally: the 24 rows are added to the
    rows already there and the table passes the gate again. *)
Theorem elt_air_quality_full_day (execution_ts : datetime) (payload : Payload)
    (d : date) (ts : list value) (db : database) (t : table) :
  valid_datetime execution_ts = true ->
  day_payload payload d ts ->
  clean_payload payload ->
  ensure_air_quality_table db = Some t ->
  unique_time t ->
  Forall (fun r => dt_date (r_time r) <> d /\ r_date r <> Some d) t ->
  data_quality_checks (Some t) = Ok tt ->
  List.length (nodup value_eq_dec ts) = 24 ->
  exists t',
    elt_air_quality execution_ts payload db = (Some t', Ok tt)
    /\ List.length t' = List.length t + 24
    /\ rows_count t' (Some d) = 24
    /\ unique_time t'
    /\ (forall r, In r t -> In r t')
    /\ data_quality_checks (Some t') = Ok tt.
Proof.
  intros Hnow Hday Hclean Hdb Hu Ht Hold Hk.
  destruct (day_run _ _ _ _ _ _ Hnow Hday Hdb Hu Ht)
    as [rs [df' [Hdf' [Hrs [Hlen [Hdates [Hperm [Hu' Hrun]]]]]]]]; [lia|].
  rewrite Hk in Hlen.
  assert (Hne : rs <> []) by (intros ->; simpl in Hlen; lia).
  apply data_quality_checks_ok in Hold. destruct Hold as [Hold1 [Hold2 Hold3]].
  destruct (day_added_offending rs t _ d Hperm Hu' Hdates Ht Hold1 Hne)
    as [Hrows [_ Hoff]].
  pose proof (clean_rows _ _ _ _ Hclean Hdf' Hrs) as Hcl. rewrite Forall_forall in Hcl.
  assert (Hmem : forall r, In r (fold_upsert rs t) -> In r rs \/ In r t)
    by (intros r Hr; apply in_app_or, (Permutation_in _ Hperm), Hr).
  assert (Hpass : data_quality_checks (Some (fold_upsert rs t)) = Ok tt).
  { apply data_quality_checks_ok. split; [|split].
    - apply check_completeness_ok. intros dd Hbad. apply Hoff in Hbad. lia.
    - apply check_not_nulls_ok. intros r Hr. destruct (Hmem r Hr) as [H|H].
      + apply (Hcl r H).
      + exact (proj1 (check_not_nulls_ok t) Hold2 r H).
    - apply check_ranges_ok. intros r Hr. destruct (Hmem r Hr) as [H|H].
      + apply (Hcl r H).
      + exact (proj1 (check_ranges_ok t) Hold3 r H). }
  exists (fold_upsert rs t). split; [rewrite Hrun, Hpass; reflexivity|].
  split; [rewrite (Permutation_length Hperm), length_app; lia|].
  split; [rewrite Hrows; exact Hlen|]. split; [exact Hu'|]. split; [|exact Hpass].
  intros r Hr. apply (Permutation_in _ (Permutation_sym Hperm)), in_or_app.
  right. exact Hr.
Qed.

(** ** Running the DAG again *)

(** Two frames of the transform of one payload differ in execution_time
    only. *)
Lemma enrich_raw_data_cells_clock (now1 now2 : datetime) (payload : Payload)
    (d1 d2 : DataFrame) :
  enrich_raw_data now1 payload COLUMN_ORDER = Ok d1 ->
  enrich_raw_data now2 payload COLUMN_ORDER = Ok d2 ->
  len d2 = len d1
  /\ forall name i, name <> "execution_time" -> cell d2 name i = cell d1 name i.
Proof.
  intros H1 H2.
  destruct (enrich_raw_data_frame _ _ _ H1) as [n1 [times1 [ts1 [Hu1 [Ht1 [Hts1 [_ [Hn1 ->]]]]]]]].
  destruct (enrich_raw_data_frame _ _ _ H2) as [n2 [times2 [ts2 [Hu2 [Ht2 [Hts2 [_ [Hn2 ->]]]]]]]].
  assert (times1 = times2) by congruence. subst times2.
  assert (ts1 = ts2) by congruence. subst ts2. subst n1 n2.
  split; [reflexivity|]. intros name i Hname.
  unfold cell, column_or_empty, enriched_columns. cbn [df_columns map fst snd dict_get].
  repeat match goal with
         | |- context [String.eqb ?k name] =>
             let E := fresh "E" in
             destruct (String.eqb k name) eqn:E;
               [try reflexivity; apply String.eqb_eq in E; congruence|]
         end.
  reflexivity.
Qed.

(** A frame of the transform loads at one reading of the clock when it
    loads at another. *)
Lemma incoming_rows_clock (now1 now2 : datetime) (payload : Payload)
    (d1 d2 : DataFrame) (rs1 : list row) :
  enrich_raw_data now1 payload COLUMN_ORDER = Ok d1 ->
  enrich_raw_data now2 payload COLUMN_ORDER = Ok d2 ->
  incoming_rows d1 COLUMN_ORDER = Ok rs1 ->
  exists rs2, incoming_rows d2 COLUMN_ORDER = Ok rs2 /\ keys_of rs2 = keys_of rs1.
Proof.
  intros H1 H2 Hrs1.
  destruct (enrich_raw_data_cells_clock _ _ _ _ _ H1 H2) as [Hlen Hcell].
  pose proof (incoming_rows_by_name _ _ Hrs1) as Hrows1.
  pose proof (getitem_list_canonical d2 (enrich_raw_data_keys _ _ _ H2)) as Hproj.
  assert (Hall : forall i, In i (seq 0 (df_len d2)) -> exists r, row_by_name d2 i = Ok r).
  { intros i Hi. apply in_seq in Hi.
    assert (Hi1 : In i (seq 0 (df_len d1))) by (apply in_seq; unfold len in Hlen; lia).
    destruct (mapM_In_image _ _ _ i Hrows1 Hi1) as [r [_ Hr]].
    destruct (row_by_name_inv d1 i r Hr) as [E0 [E1 [E2 [E3 [E4 [E5 [E6 [E7 [E8 _]]]]]]]]].
    destruct (proj2 (enrich_raw_data_cells _ _ _ H2) i) as [_ [_ [_ [_ [_ [_ [_ [_ [_ Hex]]]]]]]]];
      [unfold len; lia|].
    apply row_by_name_castable; unfold castable;
      rewrite ?Hex, ?Hcell by discriminate; rewrite ?E0; eauto;
      eexists; reflexivity. }
  destruct (mapM_ok _ _ Hall) as [rs2 Hrs2]. exists rs2.
  split; [rewrite (incoming_rows_eq d2 d2 Hproj); exact Hrs2|].
  apply map_VTimestamp_inj. unfold keys_of. rewrite !map_map.
  rewrite (rows_by_name_times d1 _ rs1 Hrows1), (rows_by_name_times d2 _ rs2 Hrs2).
  unfold len in Hlen. rewrite Hlen. apply map_ext. intros i. apply Hcell. discriminate.
Qed.

Lemma load_after_load (now1 now2 : datetime) (payload : Payload) (d1 d2 : DataFrame)
    (t : table) :
  enrich_raw_data now1 payload COLUMN_ORDER = Ok d1 ->
  enrich_raw_data now2 payload COLUMN_ORDER = Ok d2 ->
  load_dataframe (fst (load_dataframe (Some t) d1 COLUMN_ORDER)) d2 COLUMN_ORDER
  = load_dataframe (Some t) d2 COLUMN_ORDER.
Proof.
  intros H1 H2. rewrite (load_dataframe_cases t d1).
  destruct (incoming_rows d1 COLUMN_ORDER) as [rs1|e1] eqn:Hrs1; [|reflexivity].
  cbn [fst].
  destruct (incoming_rows_clock _ _ _ _ _ _ H1 H2 Hrs1) as [rs2 [Hrs2 Hk]].
  rewrite !(load_dataframe_ok _ d2 COLUMN_ORDER rs2 Hrs2).
  rewrite (fold_upsert_overwrite rs1 rs2 t (eq_sym Hk)); [reflexivity|].
  exact (transformed_rows_NoDup _ _ _ _ H1 Hrs1).
Qed.

Lemma elt_air_quality_ensure (execution_ts : datetime) (payload : Payload) (db : database) :
  elt_air_quality execution_ts payload (ensure_air_quality_table db)
  = elt_air_quality execution_ts payload db.
Proof.
  rewrite !elt_air_quality_cases.
  assert (E : ensure_air_quality_table (ensure_air_quality_table db)
              = ensure_air_quality_table db) by (destruct db; reflexivity).
  rewrite E. reflexivity.
Qed.

(** X17. A run can be repeated.  After a run, a second run on the same
    payload at a later reading of the clock leaves the table that the
    second run alone would have left, and ends as it would have ended:
    whatever the first run stored is overwritten, whether the first run
    failed or not.  At the same reading the second run changes nothing. *)
Theorem elt_air_quality_rerun (now1 now2 : datetime) (payload : Payload) (db : database) :
  valid_datetime now1 = true ->
  valid_datetime now2 = true ->
  elt_air_quality now2 payload (fst (elt_air_quality now1 payload db))
  = elt_air_quality now2 payload db.
Proof.
  intros Hv1 Hv2.
  assert (Hcreated : forall r,
            elt_air_quality now1 payload db = (ensure_air_quality_table db, r) ->
            elt_air_quality now2 payload (fst (elt_air_quality now1 payload db))
            = elt_air_quality now2 payload db)
    by (intros r ->; apply elt_air_quality_ensure).
  destruct (enrich_raw_data now1 payload COLUMN_ORDER) as [d1|e] eqn:H1.
  2:{ apply (Hcreated (Raise e)). rewrite elt_air_quality_cases. unfold enrich.
      rewrite H1. reflexivity. }
  destruct (Nat.eq_dec (len d1) 0) as [Hz|Hnz].
  { apply (Hcreated (Raise (KeyError ["time"]))).
    rewrite elt_air_quality_cases. unfold enrich. rewrite H1. cbn [bind].
    rewrite (proj2 (enrich_raw_data_no_row _ _ _ H1) Hz). reflexivity. }
  assert (Hpos : 0 < len d1) by lia.
  destruct (enrich_raw_data_frame _ _ _ H1) as [n [times [ts [Hu [Ht [Hts [Hmet _]]]]]]].
  destruct (enrich_raw_data_ok now2 payload n times ts Hu Ht Hts Hmet) as [_ [_ H2]].
  match type of H2 with _ = Ok ?x => set (d2 := x) in * end.
  assert (Hpos2 : 0 < len d2).
  { rewrite (proj1 (enrich_raw_data_len _ _ _ _ _ Ht Hts H2)).
    rewrite <- (proj1 (enrich_raw_data_len _ _ _ _ _ Ht Hts H1)). exact Hpos. }
  destruct (elt_air_quality_loads now1 payload d1 db Hv1 H1 Hpos) as [d1' [H1' [_ Hrun1]]].
  destruct (elt_air_quality_loads now2 payload d2 db Hv2 H2 Hpos2) as [d2' [H2' [_ Hrun2]]].
  destruct (elt_air_quality_loads now2 payload d2 (fst (elt_air_quality now1 payload db))
              Hv2 H2 Hpos2) as [d2'' [H2'' [_ Hrun3]]].
  assert (d2'' = d2') by congruence. subst d2''.
  rewrite Hrun3, Hrun2. clear Hrun3 Hrun2.
  set (t0 := match db with Some t => t | None => [] end).
  assert (Hdb : ensure_air_quality_table db = Some t0) by (destruct db; reflexivity).
  assert (Hfst : fst (elt_air_quality now1 payload db)
                 = fst (load_dataframe (Some t0) d1' COLUMN_ORDER)).
  { rewrite Hrun1, Hdb. cbn zeta.
    destruct (snd (load_dataframe (Some t0) d1' COLUMN_ORDER)); reflexivity. }
  assert (Hsome : exists t1, fst (load_dataframe (Some t0) d1' COLUMN_ORDER) = Some t1).
  { destruct (load_dataframe_existing t0 d1' COLUMN_ORDER) as [t1 [E _]]. eauto. }
  destruct Hsome as [t1 Ht1].
  assert (Hens : ensure_air_quality_table (fst (elt_air_quality now1 payload db))
                 = fst (load_dataframe (Some t0) d1' COLUMN_ORDER))
    by (rewrite Hfst, Ht1; reflexivity).
  rewrite Hens, Hdb, (load_after_load _ _ _ _ _ t0 H1' H2'). reflexivity.
Qed.

(** ** The records of the enrich task *)

Lemma dt_accessor_strings (f : datetime -> string) (col out : list value) :
  dt_accessor (fun t => VStr (f t)) col = Ok out -> Forall json_safe out.
Proof.
  intros H. apply Forall_forall. intros v Hv.
  destruct (mapM_In _ _ _ v H Hv) as [a [_ Ha]].
  destruct a; try discriminate Ha; injection Ha as <-; exact I.
Qed.

Lemma series_astype_str_strings (col out : list value) :
  series_astype_str col = Ok out -> Forall json_safe out.
Proof.
  intros H. apply Forall_forall. intros v Hv.
  destruct (mapM_In _ _ _ v H Hv) as [a [_ Ha]].
  destruct a; try discriminate Ha; injection Ha as <-; exact I.
Qed.

Lemma of_json_safe (j : json) : json_safe (of_json j).
Proof. destruct j; exact I. Qed.

Lemma payload_get_safe (payload : Payload) (k : string) : json_safe (payload_get payload k).
Proof.
  destruct (payload_get_cases payload k) as [->|[[x ->]|[s ->]]]; exact I.
Qed.

(** X18. The records the enrich task hands over can be carried as JSON:
    there is one record for each row of the frame of the transform, every
    record has the canonical keys in their order, and no value of a record
    is a timestamp or a date object (time, date and execution_time are
    strings or missing). *)
Theorem enrich_records_json_safe (execution_ts : datetime) (payload : Payload)
    (records : list (dict value)) :
  enrich execution_ts payload = Ok records ->
  (exists df, enrich_raw_data execution_ts payload COLUMN_ORDER = Ok df
              /\ List.length records = len df)
  /\ Forall (fun r => keys r = COLUMN_ORDER
                      /\ forall k v, dict_get k r = Some v -> json_safe v) records.
Proof.
  unfold enrich. intros H.
  destruct (enrich_raw_data execution_ts payload COLUMN_ORDER) as [df|e] eqn:Hdf;
    [|discriminate]. cbn [bind] in H.
  pose proof (enrich_raw_data_keys _ _ _ Hdf) as Hk.
  pose proof (proj2 (enrich_raw_data_cells _ _ _ Hdf)) as Hcells.
  destruct df as [n cols]. cbn [df_columns] in Hk. unfold len in *. cbn [df_len] in *.
  destruct (canonical_columns cols Hk) as [c0 [c1 [c2 [c3 [c4 [c5 [c6 [c7 [c8 [c9 ->]]]]]]]]]].
  unfold to_records, getitem in H.
  cbn [df_columns dict_get String.eqb Ascii.eqb Bool.eqb bind] in H.
  destruct (series_dt_strftime c0) as [s0|] eqn:E0; [|discriminate]. cbn [bind] in H.
  destruct (series_astype_str c8) as [s8|] eqn:E8; [|discriminate]. cbn [bind] in H.
  destruct (series_dt_strftime c9) as [s9|] eqn:E9; [|discriminate]. cbn [bind] in H.
  injection H as <-. unfold setitem, to_dict_records.
  cbn [df_columns df_len dict_set String.eqb Ascii.eqb Bool.eqb].
  split.
  - eexists. split; [reflexivity|]. rewrite length_map, length_seq. reflexivity.
  - apply Forall_forall. intros r Hr. apply in_map_iff in Hr. destruct Hr as [i [<- Hi]].
    apply in_seq in Hi. cbn [map fst snd]. split; [reflexivity|].
    destruct (Hcells i) as [_ [[j1 H1] [[j2 H2] [[j3 H3] [H4 [H5 [H6 [H7 _]]]]]]]]; [lia|].
    unfold cell, column_or_empty in H1, H2, H3, H4, H5, H6, H7.
    cbn [df_columns dict_get String.eqb Ascii.eqb Bool.eqb] in H1, H2, H3, H4, H5, H6, H7.
    pose proof (dt_accessor_strings _ _ _ E0) as S0.
    pose proof (series_astype_str_strings _ _ E8) as S8.
    pose proof (dt_accessor_strings _ _ _ E9) as S9.
    intros k v. cbn [dict_get].
    repeat match goal with
           | |- context [String.eqb ?a k] => destruct (String.eqb a k)
           end; intros Hv; try discriminate Hv; injection Hv as <-.
    + apply nth_Forall_default; [exact I | exact S0].
    + rewrite H1. apply of_json_safe.
    + rewrite H2. apply of_json_safe.
    + rewrite H3. apply of_json_safe.
    + rewrite H4. apply payload_get_safe.
    + rewrite H5. apply payload_get_safe.
    + rewrite H6. apply payload_get_safe.
    + rewrite H7. exact I.
    + apply nth_Forall_default; [exact I | exact S8].
    + apply nth_Forall_default; [exact I | exact S9].
Qed.

Lemma enrich_records_json_safe_witness :
  (exists df, enrich_raw_data test_now test_payload COLUMN_ORDER = Ok df
              /\ List.length sample_records = len df)
  /\ Forall (fun r => keys r = COLUMN_ORDER
                      /\ forall k v, dict_get k r = Some v -> json_safe v)
       sample_records.
Proof.
  apply (enrich_records_json_safe test_now test_payload sample_records).
  reflexivity.
Defined.

(** ** The order of the fields of the payload *)

Lemma dict_get_Permutation {V} (d d' : dict V) (k : string) :
  Permutation d d' -> NoDup (keys d) -> dict_get k d = dict_get k d'.
Proof.
  intros Hp Hnd.
  assert (Hnd' : NoDup (keys d'))
    by (apply (Permutation_NoDup (Permutation_map fst Hp)), Hnd).
  destruct (dict_get k d) as [v|] eqn:E.
  - symmetry. apply dict_get_NoDup; [exact Hnd'|].
    apply (Permutation_in _ Hp), dict_get_In, E.
  - destruct (dict_get k d') as [v'|] eqn:E'; [|reflexivity].
    apply dict_get_In in E'. apply (Permutation_in _ (Permutation_sym Hp)) in E'.
    rewrite (dict_get_NoDup k v' d Hnd E') in E. discriminate.
Qed.

Lemma forallb_false {A} (f : A -> bool) (l : list A) :
  forallb f l = false -> exists x, In x l /\ f x = false.
Proof.
  induction l as [|a l IH]; simpl; [discriminate|].
  destruct (f a) eqn:E; simpl; intros H; [|exists a; auto].
  destruct (IH H) as [x [Hx Hf]]. exists x. auto.
Qed.

(** The frame constructor on the same columns in another order. *)
Lemma DataFrame_from_dict_Permutation (d d' : dict (list value)) :
  Permutation d d' -> NoDup (keys d) ->
  (exists e, DataFrame_from_dict d = Raise e /\ DataFrame_from_dict d' = Raise e)
  \/ (exists f f', DataFrame_from_dict d = Ok f /\ DataFrame_from_dict d' = Ok f'
                   /\ df_len f = df_len f'
                   /\ forall k, dict_get k (df_columns f) = dict_get k (df_columns f')).
Proof.
  intros Hp Hnd. destruct (DataFrame_from_dict d) as [f|e] eqn:E.
  - right. destruct (DataFrame_from_dict_ok _ _ E) as [Hc Hu].
    destruct d' as [|kc d'].
    + apply Permutation_sym, Permutation_nil in Hp. subst d. injection E as <-.
      exists (mkDataFrame 0 []), (mkDataFrame 0 []). repeat split.
    + exists f, (mkDataFrame (df_len f) (kc :: d')). split; [reflexivity|]. split.
      * apply DataFrame_from_dict_uniform; [|discriminate].
        apply (Permutation_Forall Hp), Hu.
      * split; [reflexivity|]. intros k. rewrite Hc. cbn [df_columns].
        apply dict_get_Permutation; assumption.
  - left. exists (ValueError Arrays_must_be_of_the_same_length).
    unfold DataFrame_from_dict in E. destruct d as [|[k c] rest]; [discriminate|].
    destruct (forallb (fun kv => List.length (snd kv) =? List.length c) rest) eqn:Ef;
      [discriminate|]. injection E as <-. split; [reflexivity|].
    destruct (forallb_false _ _ Ef) as [x [Hx Hne]]. apply Nat.eqb_neq in Hne.
    apply (DataFrame_from_dict_unequal d' x (k, c)).
    + apply (Permutation_in _ Hp). right. exact Hx.
    + apply (Permutation_in _ Hp). left. reflexivity.
    + exact Hne.
Qed.

Lemma getitem_list_ext (f f' : DataFrame) (names : list string) :
  df_len f = df_len f' ->
  (forall k, dict_get k (df_columns f) = dict_get k (df_columns f')) ->
  getitem_list f names = getitem_list f' names.
Proof.
  intros Hlen Hget. unfold getitem_list. rewrite Hlen.
  rewrite (filter_ext _ (fun n => match dict_get n (df_columns f') with
                                  | Some _ => false
                                  | None => true
                                  end)) by (intros n; rewrite Hget; reflexivity).
  rewrite (map_ext (fun n => (n, match dict_get n (df_columns f) with
                                 | Some c => c
                                 | None => []
                                 end))
             (fun n => (n, match dict_get n (df_columns f') with
                           | Some c => c
                           | None => []
                           end))) by (intros n; rewrite Hget; reflexivity).
  reflexivity.
Qed.

Lemma getitem_setitem (f : DataFrame) (name : string) (col : list value) :
  getitem (setitem f name col) name = Ok col.
Proof.
  unfold getitem, setitem. cbn [df_columns].
  rewrite dict_get_set, String.eqb_refl. reflexivity.
Qed.

(** X19. The transform reads the payload by name: the order in which the
    hourly block lists its fields, the order of the top-level fields and
    the top-level fields other than latitude, longitude and timezone make
    no difference to the frame it returns or the exception it raises, for
    any columns asked for. *)
Theorem enrich_raw_data_field_order (execution_ts : datetime) (p p' : Payload)
    (columns : list string) :
  Permutation (hourly p) (hourly p') ->
  NoDup (keys (hourly p)) ->
  (forall k, In k ["latitude"; "longitude"; "timezone"] ->
             dict_get k (toplevel p) = dict_get k (toplevel p')) ->
  enrich_raw_data execution_ts p columns = enrich_raw_data execution_ts p' columns.
Proof.
  intros Hp Hnd Htop.
  assert (Hpay : forall k, In k ["latitude"; "longitude"; "timezone"] ->
            payload_get p k = payload_get p' k)
    by (intros k Hk; unfold payload_get; rewrite (Htop k Hk); reflexivity).
  assert (Hp' : Permutation (payload_hourly p) (payload_hourly p'))
    by (apply Permutation_map, Hp).
  assert (Hnd' : NoDup (keys (payload_hourly p)))
    by (rewrite keys_payload_hourly; exact Hnd).
  unfold enrich_raw_data.
  destruct (DataFrame_from_dict_Permutation _ _ Hp' Hnd')
    as [[e [-> ->]]|[f [f' [-> [-> [Hlen Hget]]]]]]; [reflexivity|].
  cbn [bind]. unfold getitem at 1 3. rewrite Hget.
  destruct (dict_get "time" (df_columns f')) as [times|]; cbn [bind]; [|reflexivity].
  destruct (to_datetime times) as [ts|e]; cbn [bind]; [|reflexivity].
  rewrite !getitem_setitem. cbn [bind].
  destruct (series_dt_date ts) as [date|e]; cbn [bind]; [|reflexivity].
  match goal with
  | |- bind (getitem_list ?x columns) _ = bind (getitem_list ?y columns) _ =>
      rewrite (getitem_list_ext x y columns)
  end.
  - reflexivity.
  - unfold setitem_scalar, setitem. cbn [df_len]. exact Hlen.
  - intros k. unfold setitem_scalar, setitem. cbn [df_len df_columns].
    rewrite !dict_get_set, Hget, Hlen.
    rewrite !(Hpay "latitude"), !(Hpay "longitude"), !(Hpay "timezone")
      by (simpl; tauto).
    reflexivity.
Qed.

Lemma enrich_raw_data_field_order_witness :
  enrich_raw_data test_now test_payload COLUMN_ORDER
  = enrich_raw_data test_now reordered_payload COLUMN_ORDER.
Proof.
  apply (enrich_raw_data_field_order test_now test_payload reordered_payload COLUMN_ORDER).
  - apply Permutation_rev.
  - repeat constructor; simpl; intros H; decompose [or] H; discriminate || assumption.
  - intros k [<-|[<-|[<-|[]]]]; reflexivity.
Defined.

End Session.

(** * Instances on sample data *)

(** A load in a session one hour ahead of UTC: the clock read
    06:30:15.25 UTC and the table holds 07:30:15.25. *)
Section One_hour_ahead.

#[local] Existing Instance one_hour_ahead.

Lemma load_dataframe_stamps_witness :
  load_dataframe (Some sample_table) sample_frame COLUMN_ORDER = (Some sample_loaded, Ok 3)
  /\ (forall r, In r sample_loaded -> In r sample_table \/ stamped test_now test_payload r)
  /\ exists r,
       In r sample_loaded
       /\ stamped test_now test_payload r
       /\ r_execution_time r = Some (mkdatetime (mkdate 2025 11 5) 7 30 15 250000).
Proof.
  assert (Hl : load_dataframe (Some sample_table) sample_frame COLUMN_ORDER
               = (Some sample_loaded, Ok 3)) by (vm_compute; reflexivity).
  destruct (load_dataframe_stamps test_now test_payload sample_frame sample_table
              sample_loaded 3 eq_refl Hl) as [Hall Hsome].
  split; [exact Hl|]. split; [exact Hall|].
  destruct Hsome as [r [Hr Hst]]; [unfold len; simpl; lia|].
  exists r. split; [exact Hr|]. split; [exact Hst|].
  destruct Hst as [_ [_ [He _]]]. rewrite He. reflexivity.
Defined.

End One_hour_ahead.

(** The other instances are run in a session whose zone is UTC. *)
#[local] Existing Instance utc.

Example end_to_end_load :
  exists df t,
    enrich_raw_data test_now test_payload COLUMN_ORDER = Ok df
    /\ load_dataframe (ensure_air_quality_table None) df COLUMN_ORDER = (Some t, Ok 2)
    /\ map r_pm10 t = [Some 10%Q; Some 12%Q].
Proof. do 2 eexists. split; [ vm_compute; reflexivity | split; vm_compute; reflexivity ]. Qed.


Lemma check_completeness_spec_witness :
  check_completeness (Some full_day_table) = Ok tt
  /\ exists e, check_completeness (Some sample_loaded) = Raise e.
Proof.
  split.
  - apply (proj2 (proj2 (proj2 (check_completeness_spec full_day_table)))).
    + apply has_duplicates_NoDup. vm_compute. reflexivity.
    + intros d Hd. vm_compute in Hd.
      assert (E : d = Some (mkdate 2025 11 4))
        by (decompose [or] Hd; try contradiction; congruence).
      rewrite E. vm_compute. reflexivity.
  - apply (proj1 (check_completeness_spec sample_loaded)).
    exists (Some (mkdate 2025 11 3)). split.
    + vm_compute. tauto.
    + left. vm_compute. discriminate.
Defined.

Lemma check_not_nulls_spec_witness :
  (exists e, check_not_nulls (Some sample_table) = Raise e)
  /\ check_not_nulls (Some sample_loaded) = Ok tt.
Proof.
  split.
  - apply (proj1 (proj1 (check_not_nulls_spec sample_table))). vm_compute. lia.
  - apply (proj1 (proj1 (proj2 (proj2 (check_not_nulls_spec sample_loaded))))).
    vm_compute. reflexivity.
Defined.

Lemma check_ranges_spec_witness :
  (exists e, check_ranges (Some uv_table) = Raise e)
  /\ check_ranges (Some sample_loaded) = Ok tt.
Proof.
  split.
  - apply (proj1 (proj1 (proj2 (check_ranges_spec uv_table)))).
    vm_compute. intros [_ [_ H]]. discriminate.
  - apply (proj1 (proj1 (check_ranges_spec sample_loaded))).
    vm_compute. auto.
Defined.


Lemma load_dataframe_row_count_witness :
  load_dataframe (Some sample_table) duplicate_frame COLUMN_ORDER
  = (Some duplicate_loaded, Ok 3)
  /\ len duplicate_frame = 3
  /\ exists new_rows,
       incoming_rows duplicate_frame COLUMN_ORDER = Ok new_rows
       /\ 3 = List.length duplicate_loaded
       /\ 3 = List.length (not_replaced sample_table new_rows)
              + List.length (nodup datetime_eq_dec (keys_of new_rows))
       /\ List.length (not_replaced sample_table new_rows) = 1
       /\ List.length (nodup datetime_eq_dec (keys_of new_rows)) = 2.
Proof.
  assert (Hu : unique_time sample_table)
    by (apply has_duplicates_NoDup; vm_compute; reflexivity).
  assert (Hl : load_dataframe (Some sample_table) duplicate_frame COLUMN_ORDER
               = (Some duplicate_loaded, Ok 3)) by (vm_compute; reflexivity).
  split; [exact Hl|]. split; [reflexivity|].
  destruct (proj2 (load_dataframe_row_count sample_table duplicate_frame COLUMN_ORDER)
              (Some duplicate_loaded) 3 Hl)
    as [t' [rs [Et [Hrs [_ [Hn Hcount]]]]]].
  injection Et as <-. exists rs. split; [exact Hrs|]. split; [exact Hn|].
  destruct (Hcount Hu) as [Hsum _]. split; [exact Hsum|].
  assert (Ers : Ok rs = incoming_rows duplicate_frame COLUMN_ORDER)
    by (symmetry; exact Hrs).
  vm_compute in Ers. injection Ers as Ers.
  split; rewrite Ers; vm_compute; reflexivity.
Defined.


(** The same on the fixture without latitude, loaded into an empty table. *)
Example no_latitude_end_to_end :
  exists df t,
    enrich_raw_data test_now no_latitude_payload COLUMN_ORDER = Ok df
    /\ load_dataframe (ensure_air_quality_table None) df COLUMN_ORDER = (Some t, Ok 2)
    /\ check_not_nulls (Some t)
       = Raise (ValueError (Nulls_detected_in_critical_columns 2)).
Proof.
  do 2 eexists. split; [vm_compute; reflexivity|].
  split; vm_compute; reflexivity.
Qed.

Lemma load_dataframe_transformed_failure_witness :
  Some sample_table = Some sample_table
  /\ exists i, i < len null_time_frame
       /\ ((ConstraintException = ConstraintException
            /\ cell null_time_frame "time" i = VNone)
           \/ (ConstraintException = ConversionException
               /\ ((exists m s,
                      In m ["pm10"; "pm2_5"; "uv_index"; "latitude"; "longitude"]
                      /\ cell null_time_frame m i = VStr s)
                   \/ exists x, cell null_time_frame "timezone" i = VFloat x))).
Proof.
  apply (load_dataframe_transformed_failure test_now null_time_payload null_time_frame
           sample_table (Some sample_table) ConstraintException).
  - reflexivity.
  - reflexivity.
Defined.

Lemma load_dataframe_null_time_witness :
  In VNone (column_or_empty (df_columns null_time_frame) "time")
  /\ exists e,
       load_dataframe (Some sample_table) null_time_frame COLUMN_ORDER
       = (Some sample_table, Raise e).
Proof.
  apply (load_dataframe_null_time test_now null_time_payload
           [JString "2025-11-04T00:00"; JNull] null_time_frame sample_table).
  - reflexivity.
  - simpl. tauto.
  - reflexivity.
Defined.

Lemma load_dataframe_overwrite_witness :
  load_dataframe (fst (load_dataframe (Some sample_table) sample_frame COLUMN_ORDER))
    sample_frame_later COLUMN_ORDER
  = (fst (load_dataframe (Some sample_table) sample_frame_later COLUMN_ORDER), Ok 3).
Proof.
  apply (load_dataframe_overwrite test_now test_later test_payload test_payload
           sample_frame sample_frame_later (Some sample_table)).
  - reflexivity.
  - reflexivity.
  - reflexivity.
  - reflexivity.
Defined.

Lemma elt_air_quality_empty_day_witness :
  (len empty_frame = 0 <-> dict_get "time" (hourly empty_payload) = Some [])
  /\ (len empty_frame = 0 ->
      enrich test_now empty_payload = Ok []
      /\ elt_air_quality test_now empty_payload (Some sample_table)
         = (ensure_air_quality_table (Some sample_table), Raise (KeyError ["time"]))).
Proof.
  apply (elt_air_quality_empty_day test_now empty_payload empty_frame (Some sample_table)).
  reflexivity.
Defined.


Lemma elt_air_quality_full_day_witness :
  exists t',
    elt_air_quality test_now full_day_payload (Some day_before_table) = (Some t', Ok tt)
    /\ List.length t' = List.length day_before_table + 24
    /\ rows_count t' (Some (mkdate 2025 11 4)) = 24
    /\ unique_time t'
    /\ (forall r, In r day_before_table -> In r t')
    /\ data_quality_checks (Some t') = Ok tt.
Proof.
  assert (Hcol : forall m x c,
            dict_get m (hourly full_day_payload) = Some c ->
            In m ["pm10"; "pm2_5"; "uv_index"] ->
            (m = "pm10" -> x = 10%Q) -> (m = "pm2_5" -> x = 5%Q) ->
            (m = "uv_index" -> x = 0%Q) ->
            Forall (fun j => j = JNumber x) c).
  { intros m x c Hc [<-|[<-|[<-|[]]]] H1 H2 H3;
      unfold full_day_payload in Hc;
      cbn [hourly dict_get String.eqb Ascii.eqb Bool.eqb] in Hc; injection Hc as <-;
      apply Forall_forall; intros j Hj;
      [rewrite (H1 eq_refl) | rewrite (H2 eq_refl) | rewrite (H3 eq_refl)];
      simpl in Hj; repeat (destruct Hj as [<-|Hj]; [reflexivity|]); contradiction. }
  apply (elt_air_quality_full_day test_now full_day_payload (mkdate 2025 11 4) full_day_ts
           (Some day_before_table) day_before_table).
  - reflexivity.
  - split; [exists 24; repeat constructor|].
    split; [eexists; split; [reflexivity | vm_compute; reflexivity]|].
    split; [intros m [<-|[<-|[<-|[]]]]; simpl; tauto|].
    split.
    + split.
      { apply Forall_forall. intros v Hv. apply in_map_iff in Hv.
        destruct Hv as [h [<- _]]. discriminate. }
      split; [|split; [|split]]; try (intros s; cbn; discriminate).
      intros m c Hm Hc.
      destruct (string_dec m "pm10") as [E1|E1];
        [|destruct (string_dec m "pm2_5") as [E2|E2]].
      * eapply Forall_impl; [|apply (Hcol m 10%Q c Hc Hm); intros; subst; try reflexivity;
                              discriminate].
        intros j -> s. discriminate.
      * eapply Forall_impl; [|apply (Hcol m 5%Q c Hc Hm); intros; subst; try reflexivity;
                              discriminate].
        intros j -> s. discriminate.
      * eapply Forall_impl; [|apply (Hcol m 0%Q c Hc Hm); intros; subst; try reflexivity;
                              try discriminate; contradiction].
        intros j -> s. discriminate.
    + apply Forall_forall. intros v Hv. apply in_map_iff in Hv.
      destruct Hv as [h [<- _]]. eexists. split; reflexivity.
  - split; [|split; [|split; [|split; [|split]]]].
    + intros c Hc. eapply Forall_impl;
        [|apply (Hcol "pm10" 10%Q c Hc); [simpl; tauto | reflexivity | discriminate
                                         | discriminate]].
      intros j ->. exists 10%Q. split; [reflexivity|]. unfold Qle. simpl. lia.
    + intros c Hc. eapply Forall_impl;
        [|apply (Hcol "pm2_5" 5%Q c Hc); [simpl; tauto | discriminate | reflexivity
                                         | discriminate]].
      intros j ->. exists 5%Q. split; [reflexivity|]. unfold Qle. simpl. lia.
    + intros c Hc. eapply Forall_impl;
        [|apply (Hcol "uv_index" 0%Q c Hc); [simpl; tauto | discriminate | discriminate
                                            | reflexivity]].
      intros j ->. exists 0%Q. split; [reflexivity|]. unfold Qle. simpl. lia.
    + eexists. reflexivity.
    + eexists. reflexivity.
    + eexists. reflexivity.
  - reflexivity.
  - apply has_duplicates_NoDup. vm_compute. reflexivity.
  - apply Forall_forall. intros r Hr. apply in_map_iff in Hr.
    destruct Hr as [h [<- _]]. split; discriminate.
  - vm_compute. reflexivity.
  - vm_compute. reflexivity.
Defined.

Lemma elt_air_quality_rerun_witness :
  elt_air_quality test_later test_payload
    (fst (elt_air_quality test_now test_payload (Some sample_table)))
  = elt_air_quality test_later test_payload (Some sample_table).
Proof.
  apply (elt_air_quality_rerun test_now test_later test_payload (Some sample_table)).
  - reflexivity.
  - reflexivity.
Defined.

